(** * Scheduled-event cache, notifier and command handlers of the bot

    A shallow embedding of [main.py]: the refresh job
    ([fetch_economic_events], [update_daily_events]), the notifier
    ([check_events]), the chart relay ([send_chart]) and the command
    handlers in both their prefix and slash forms.

    Conventions of the embedding.
    - Python exceptions are values: a computation returns [Ok a] or
      [Raise e], where [e] is the text [str(e)] of the exception.
    - Calls that leave the process are oracles gathered in a record
      (the data gateway, the console, the HTTP client, the clocks); the
      messages handed to the chat platform are recorded in a trace, in
      program order.  Handing a message to the platform is modelled as
      always succeeding, except in the slash form of the chart command,
      whose handler is written for the failure of these calls: there
      the outcomes of deferring and of editing the response are
      oracles too.
    - A check that a decorator puts before a command
      ([has_permissions]) is evaluated by the framework; its verdict is
      an argument of the command.
    - A 64-bit float is an abstract type with the three renderings the
      program uses and the missing-value test; a decimal fixed-point
      instance is provided to run the definitions.
    - A date is represented by its proleptic Gregorian ordinal
      ([date.toordinal()]); year, month and day are recovered with the
      algorithm of the reference implementation of [datetime]. *)

From Stdlib Require Import ZArith List String Ascii Bool Lia DecimalString.
From Stdlib Require Import Sorted Permutation.
From Equations Require Import Equations.
From stdpp Require Import gmap strings.
Import ListNotations.
Local Open Scope string_scope.
Local Open Scope Z_scope.

(** ** Exceptions and traces *)

Module Py.

Inductive result (A : Type) : Type :=
| Ok (a : A)
| Raise (e : string).
Arguments Ok {A} a.
Arguments Raise {A} e.

Definition is_ok {A} (r : result A) : bool :=
  match r with Ok _ => true | Raise _ => false end.

(** A computation that emits events of type [E] and then returns or
    raises.  The events emitted before an exception are kept. *)
Definition io (E A : Type) : Type := (list E * result A)%type.

Definition ret {E A} (a : A) : io E A := ([], Ok a).
Definition raise {E A} (e : string) : io E A := ([], Raise e).
Definition emit {E} (ev : E) : io E unit := ([ev], Ok tt).
Definition lift {E A} (r : result A) : io E A := ([], r).

Definition bind {E A B} (m : io E A) (f : A -> io E B) : io E B :=
  match m with
  | (t, Ok a) => let '(t', r) := f a in ((t ++ t')%list, r)
  | (t, Raise e) => (t, Raise e)
  end.

(** [try: m except Exception as e: h e] *)
Definition try_except {E A} (m : io E A) (h : string -> io E A) : io E A :=
  match m with
  | (t, Raise e) => let '(t', r) := h e in ((t ++ t')%list, r)
  | (t, Ok a) => (t, Ok a)
  end.

Definition trace {E A} (m : io E A) : list E := fst m.
Definition outcome {E A} (m : io E A) : result A := snd m.

Declare Scope io_scope.
Delimit Scope io_scope with io.
Notation "'let*' x ':=' m 'in' k" := (bind m (fun x => k))
  (at level 10, x name, m at level 100, k at level 200) : io_scope.
Notation "'run' m 'in' k" := (bind m (fun _ => k))
  (at level 10, m at level 100, k at level 200) : io_scope.

(** *** Strings *)

Definition is_upper (c : ascii) : bool :=
  let n := N_of_ascii c in (65 <=? n)%N && (n <=? 90)%N.
Definition is_lower (c : ascii) : bool :=
  let n := N_of_ascii c in (97 <=? n)%N && (n <=? 122)%N.

Definition lower_char (c : ascii) : ascii :=
  if is_upper c then ascii_of_N (N_of_ascii c + 32) else c.
Definition upper_char (c : ascii) : ascii :=
  if is_lower c then ascii_of_N (N_of_ascii c - 32) else c.

Fixpoint map_string (f : ascii -> ascii) (s : string) : string :=
  match s with
  | EmptyString => EmptyString
  | String c r => String (f c) (map_string f r)
  end.

(** [s.lower()] and [s.upper()], on ASCII letters. *)
Definition lower (s : string) : string := map_string lower_char s.
Definition upper (s : string) : string := map_string upper_char s.

(** [sub in s] *)
Fixpoint contains (sub s : string) : bool :=
  String.prefix sub s ||
  match s with
  | EmptyString => false
  | String _ r => contains sub r
  end.

(** [x in xs] for a list of strings *)
Definition in_list (x : string) (xs : list string) : bool :=
  existsb (String.eqb x) xs.

(** [str(n)] for an integer *)
Definition str_of_Z (n : Z) : string := NilZero.string_of_int (Z.to_int n).

(** A string given by its bytes: the decorations of the messages are
    kept byte for byte. *)
Definition bytes (l : list N) : string :=
  fold_right (fun n s => String (ascii_of_N n) s) EmptyString l.

Definition LF : string := bytes [10]%N.

(** [s.replace(old, new)] for a non-empty [old]: [skip] characters of a
    match that was just replaced are still to be passed over. *)
Fixpoint replace_from (old new : string) (skip : nat) (s : string) : string :=
  match s with
  | EmptyString => EmptyString
  | String c r =>
      match skip with
      | S k => replace_from old new k r
      | O =>
          if String.prefix old s
          then new ++ replace_from old new (String.length old - 1) r
          else String c (replace_from old new 0 r)
      end
  end.

Definition replace (old new s : string) : string := replace_from old new 0 s.

(** The text before the first [c], and the text after it. *)
Fixpoint before_char (c : ascii) (s : string) : string :=
  match s with
  | EmptyString => EmptyString
  | String x r => if Ascii.eqb x c then EmptyString else String x (before_char c r)
  end.

Fixpoint after_char (c : ascii) (s : string) : string :=
  match s with
  | EmptyString => EmptyString
  | String x r => if Ascii.eqb x c then r else after_char c r
  end.

(** [s.split(c)[1]], for a string that contains [c]. *)
Definition split_1 (c : ascii) (s : string) : string :=
  before_char c (after_char c s).

Definition is_space (c : ascii) : bool :=
  let n := N_of_ascii c in ((9 <=? n)%N && (n <=? 13)%N) || (n =? 32)%N.

Fixpoint lstrip (s : string) : string :=
  match s with
  | EmptyString => EmptyString
  | String c r => if is_space c then lstrip r else s
  end.

Fixpoint rstrip (s : string) : string :=
  match s with
  | EmptyString => EmptyString
  | String c r =>
      match rstrip r with
      | EmptyString => if is_space c then EmptyString else String c EmptyString
      | r' => String c r'
      end
  end.

(** [s.strip()] *)
Definition strip (s : string) : string := rstrip (lstrip s).

(** The character of a decimal digit, and the digit of a character. *)
Definition digit (d : Z) : ascii := ascii_of_N (Z.to_N (48 + d)).

Definition digit_val (c : ascii) : option Z :=
  let code := Z.of_N (N_of_ascii c) in
  if (48 <=? code) && (code <=? 57) then Some (code - 48) else None.

(** ["%02d" % x] *)
Definition fmt02d (x : Z) : string :=
  if (0 <=? x) && (x <? 100)
  then String (digit (x / 10)) (String (digit (x mod 10)) EmptyString)
  else str_of_Z x.

(** ["%04d" % x]; years are always within 1..9999. *)
Definition fmt04d (x : Z) : string :=
  if (0 <=? x) && (x <? 10000)
  then String (digit (x / 1000)) (String (digit (x / 100 mod 10))
        (String (digit (x / 10 mod 10)) (String (digit (x mod 10)) EmptyString)))
  else str_of_Z x.

Definition int2 (a b : ascii) : option Z :=
  match digit_val a, digit_val b with
  | Some x, Some y => Some (10 * x + y)
  | _, _ => None
  end.

Definition int4 (a b c d : ascii) : option Z :=
  match int2 a b, int2 c d with
  | Some x, Some y => Some (100 * x + y)
  | _, _ => None
  end.

End Py.
Export Py.
Local Open Scope io_scope.

(** ** Dates and times, after the [datetime] module *)

Module Calendar.

Definition MAXORDINAL : Z := 3652059.

Definition DAYS_IN_MONTH (month : Z) : Z :=
  match month with
  | 1 => 31 | 2 => 28 | 3 => 31 | 4 => 30 | 5 => 31 | 6 => 30
  | 7 => 31 | 8 => 31 | 9 => 30 | 10 => 31 | 11 => 30 | 12 => 31
  | _ => -1
  end.

Definition DAYS_BEFORE_MONTH (month : Z) : Z :=
  match month with
  | 1 => 0 | 2 => 31 | 3 => 59 | 4 => 90 | 5 => 120 | 6 => 151
  | 7 => 181 | 8 => 212 | 9 => 243 | 10 => 273 | 11 => 304 | 12 => 334
  | _ => -1
  end.

Definition is_leap (year : Z) : bool :=
  (year mod 4 =? 0) && (negb (year mod 100 =? 0) || (year mod 400 =? 0)).

Definition days_before_year (year : Z) : Z :=
  let y := year - 1 in y * 365 + y / 4 - y / 100 + y / 400.

Definition days_in_month (year month : Z) : Z :=
  if (month =? 2) && is_leap year then 29 else DAYS_IN_MONTH month.

Definition days_before_month (year month : Z) : Z :=
  DAYS_BEFORE_MONTH month + (if (2 <? month) && is_leap year then 1 else 0).

Definition ymd2ord (year month day : Z) : Z :=
  days_before_year year + days_before_month year month + day.

Definition DI400Y : Z := 146097.
Definition DI100Y : Z := 36524.
Definition DI4Y : Z := 1461.

(** Month and day of the [n]-th day (from 0) of a year. *)
Definition month_day (leapyear : bool) (n : Z) : Z * Z :=
  let month := Z.shiftr (n + 50) 5 in
  let preceding :=
    DAYS_BEFORE_MONTH month + (if (2 <? month) && leapyear then 1 else 0) in
  if n <? preceding then
    let month' := month - 1 in
    let preceding' :=
      preceding - (DAYS_IN_MONTH month'
                   + (if (month' =? 2) && leapyear then 1 else 0)) in
    (month', n - preceding' + 1)
  else (month, n - preceding + 1).

Definition ord2ymd (ord : Z) : Z * Z * Z :=
  let n := ord - 1 in
  let n400 := n / DI400Y in
  let n := n mod DI400Y in
  let year := n400 * 400 + 1 in
  let n100 := n / DI100Y in
  let n := n mod DI100Y in
  let n4 := n / DI4Y in
  let n := n mod DI4Y in
  let n1 := n / 365 in
  let n := n mod 365 in
  let year := year + n100 * 100 + n4 * 4 + n1 in
  if (n1 =? 4) || (n100 =? 4) then (year - 1, 12, 31)
  else
    let leapyear := (n1 =? 3) && (negb (n4 =? 24) || (n100 =? 3)) in
    let '(month, day) := month_day leapyear n in
    (year, month, day).

(** The check of [month_day]: the month and the day exist, and count
    back to the day of the year. *)
Definition month_day_ok (leapyear : bool) (n : Z) : bool :=
  let '(m, d) := month_day leapyear n in
  (1 <=? m) && (m <=? 12) && (1 <=? d)
  && (d <=? (if (m =? 2) && leapyear then 29 else DAYS_IN_MONTH m))
  && (DAYS_BEFORE_MONTH m + (if (2 <? m) && leapyear then 1 else 0) + d
      =? n + 1).

(** A [datetime]: the date as an ordinal, and the wall-clock fields. *)
Record datetime : Type := mk_datetime {
  ordinal : Z;
  hour : Z;
  minute : Z;
  second : Z;
  microsecond : Z
}.

Definition year_of (d : Z) : Z := fst (fst (ord2ymd d)).
Definition month_of (d : Z) : Z := snd (fst (ord2ymd d)).
Definition day_of (d : Z) : Z := snd (ord2ymd d).

(** [date.weekday()]: Monday is 0, Sunday is 6. *)
Definition weekday (d : Z) : Z := (d + 6) mod 7.

(** [d + timedelta(days=n)] on dates; out of the supported range it
    raises [OverflowError]. *)
Definition add_days (d n : Z) : result Z :=
  if (1 <=? d + n) && (d + n <=? MAXORDINAL) then Ok (d + n)
  else Raise "date value out of range".

(** [dt + timedelta(days=n)]: the wall-clock fields are kept. *)
Definition datetime_add_days (dt : datetime) (n : Z) : result datetime :=
  match add_days (ordinal dt) n with
  | Ok d => Ok (mk_datetime d (hour dt) (minute dt) (second dt) (microsecond dt))
  | Raise e => Raise e
  end.

(** [date.isoformat()], also [strftime('%Y-%m-%d')] *)
Definition isoformat (d : Z) : string :=
  let '(y, m, dd) := ord2ymd d in
  fmt04d y ++ "-" ++ fmt02d m ++ "-" ++ fmt02d dd.

(** Microseconds since the start of ordinal 0: subtraction of two
    datetimes is subtraction of these. *)
Definition to_us (dt : datetime) : Z :=
  (((ordinal dt * 24 + hour dt) * 60 + minute dt) * 60 + second dt) * 1000000
  + microsecond dt.

Definition minutes (n : Z) : Z := n * 60 * 1000000.

Definition check_date_fields (y m d : Z) : result unit :=
  if negb ((1 <=? y) && (y <=? 9999)) then
    Raise ("year " ++ str_of_Z y ++ " is out of range")
  else if negb ((1 <=? m) && (m <=? 12)) then
    Raise "month must be in 1..12"
  else if negb ((1 <=? d) && (d <=? days_in_month y m)) then
    Raise "day is out of range for month"
  else Ok tt.

Definition check_time_fields (h mi s : Z) : result unit :=
  if negb ((0 <=? h) && (h <=? 23)) then Raise "hour must be in 0..23"
  else if negb ((0 <=? mi) && (mi <=? 59)) then Raise "minute must be in 0..59"
  else if negb ((0 <=? s) && (s <=? 59)) then Raise "second must be in 0..59"
  else Ok tt.

(** A UTC offset [+HH:MM] or [-HH:MM], or nothing. *)
Definition is_offset (s : string) : bool :=
  match s with
  | EmptyString => true
  | String sign (String h1 (String h2 (String ":" (String m1
      (String m2 EmptyString))))) =>
      (Ascii.eqb sign "+" || Ascii.eqb sign "-")
      && match int2 h1 h2, int2 m1 m2 with
         | Some h, Some m => (h <=? 23) && (m <=? 59)
         | _, _ => false
         end
  | _ => false
  end.

Definition int3 (a b c : ascii) : option Z :=
  match digit_val a, int2 b c with
  | Some x, Some y => Some (100 * x + y)
  | _, _ => None
  end.

(** What follows the seconds: a fraction of three or of six digits, in
    microseconds, then the offset. *)
Definition parse_fraction (s : string) : option Z :=
  match s with
  | String "." (String a (String b (String c rest))) =>
      match int3 a b c with
      | None => None
      | Some ms =>
          if is_offset rest then Some (ms * 1000)
          else
            match rest with
            | String d (String e (String f rest')) =>
                match int3 d e f with
                | Some us =>
                    if is_offset rest' then Some (ms * 1000 + us) else None
                | None => None
                end
            | _ => None
            end
      end
  | _ => if is_offset s then Some 0 else None
  end.

(** The time part of an ISO string: [HH], [HH:MM], [HH:MM:SS],
    [HH:MM:SS.fff] or [HH:MM:SS.ffffff], each with or without an
    offset.  The result is the wall-clock time; the offset is checked
    and left out. *)
Definition parse_isoformat_time (tstr : string) : option (Z * Z * Z * Z) :=
  match tstr with
  | String h1 (String h2 rest) =>
      match int2 h1 h2 with
      | None => None
      | Some h =>
          match rest with
          | String ":" (String m1 (String m2 rest)) =>
              match int2 m1 m2 with
              | None => None
              | Some mi =>
                  match rest with
                  | String ":" (String s1 (String s2 rest)) =>
                      match int2 s1 s2 with
                      | None => None
                      | Some sec =>
                          match parse_fraction rest with
                          | Some us => Some (h, mi, sec, us)
                          | None => None
                          end
                      end
                  | _ => if is_offset rest then Some (h, mi, 0, 0) else None
                  end
              end
          | _ => if is_offset rest then Some (h, 0, 0, 0) else None
          end
      end
  | _ => None
  end.

(** [datetime.fromisoformat], on the texts that every version of the
    library reads alike: ten characters of date [YYYY-MM-DD], then
    nothing, or one separator character and a time as read by
    [parse_isoformat_time].  On these texts the result is the date and
    the wall-clock time of the library's result; the offset, which the
    program never looks at ([check_events] replaces it, the [events]
    command reads the wall-clock fields only), is not kept.  A text
    whose first four characters are not digits is refused by every
    version.  Other texts that recent versions of the library also read
    (dates without dashes, week dates, times without colons, fractions
    of other lengths, [Z]) are refused here: the properties below are
    stated for texts this function reads, or for texts that do not
    start with a digit. *)
Definition fromisoformat (s : string) : result datetime :=
  let invalid := Raise ("Invalid isoformat string: '" ++ s ++ "'") in
  match s with
  | String y1 (String y2 (String y3 (String y4 (String "-"
      (String m1 (String m2 (String "-" (String d1 (String d2 rest))))))))) =>
      match int4 y1 y2 y3 y4, int2 m1 m2, int2 d1 d2 with
      | Some y, Some m, Some d =>
          let time :=
            match rest with
            | EmptyString => Some (0, 0, 0, 0)
            | String _ tstr => parse_isoformat_time tstr
            end in
          match time with
          | Some (h, mi, sec, us) =>
              match check_date_fields y m d with
              | Raise e => Raise e
              | Ok _ =>
                  match check_time_fields h mi sec with
                  | Raise e => Raise e
                  | Ok _ => Ok (mk_datetime (ymd2ord y m d) h mi sec us)
                  end
              end
          | None => invalid
          end
      | _, _, _ => invalid
      end
  | _ => invalid
  end.

Definition day_abbr (wd : Z) : string :=
  match wd with
  | 0 => "Mon" | 1 => "Tue" | 2 => "Wed" | 3 => "Thu" | 4 => "Fri"
  | 5 => "Sat" | _ => "Sun"
  end.

Definition month_abbr (m : Z) : string :=
  match m with
  | 1 => "Jan" | 2 => "Feb" | 3 => "Mar" | 4 => "Apr" | 5 => "May"
  | 6 => "Jun" | 7 => "Jul" | 8 => "Aug" | 9 => "Sep" | 10 => "Oct"
  | 11 => "Nov" | _ => "Dec"
  end.

(** [strftime('%a, %b %d')] *)
Definition strftime_a_b_d (dt : datetime) : string :=
  day_abbr (weekday (ordinal dt)) ++ ", "
  ++ month_abbr (month_of (ordinal dt)) ++ " " ++ fmt02d (day_of (ordinal dt)).

(** [strftime('%I:%M %p')] *)
Definition strftime_I_M_p (dt : datetime) : string :=
  let h12 := if hour dt mod 12 =? 0 then 12 else hour dt mod 12 in
  fmt02d h12 ++ ":" ++ fmt02d (minute dt) ++ " "
  ++ (if hour dt <? 12 then "AM" else "PM").

(** [strftime("%H:%M UTC")] *)
Definition strftime_H_M_UTC (dt : datetime) : string :=
  fmt02d (hour dt) ++ ":" ++ fmt02d (minute dt) ++ " UTC".

End Calendar.
Export Calendar.

(** ** The bot: data *)

Module Bot.

(** The renderings of a float the program uses, and the missing
    value. *)
Class Float64 (F : Type) : Type := {
  isna : F -> bool;        (* [pd.isna(v)] *)
  fmt_2f : F -> string;    (* [f"{v:.2f}"] *)
  fmt_c2f : F -> string;   (* [f"{v:,.2f}"] *)
  fmt_c0f : F -> string;   (* [f"{v:,.0f}"] *)
  nan : F;                 (* [np.nan] *)
  isna_nan : isna nan = true;
  fmt_2f_nan : fmt_2f nan = "nan"
}.

(** A [pandas.Series] of observations, in the order the gateway returns
    them: the index is a date, the values are floats. *)
Definition Series (F : Type) : Type := list (Z * F).

(** The metadata of a series ([fred.get_series_info]). *)
Abbreviation Info := (gmap string string).

(** The keyword arguments of [fred.get_series]. *)
Inductive bound : Type :=
| BoundStr (s : string)
| BoundDatetime (dt : datetime).

Record query : Type := mk_query {
  observation_start : option bound;
  observation_end : option bound;
  limit : option Z
}.

(** A row of the search results. *)
Record Row : Type := mk_row {
  row_title : string;
  row_frequency : string;
  row_units : string
}.

(** The entries of the event cache: dictionaries with five string
    fields. *)
Record Event : Type := mk_event {
  time : string;
  title : string;
  series_id : string;
  impact : string;
  previous : string
}.

Record field : Type := mk_field {
  name : string;
  value : string;
  inline : bool
}.

Record Embed : Type := mk_embed {
  embed_title : string;
  description : option string;
  color : Z;
  fields : list field;
  image : option string
}.

Record File : Type := mk_file {
  filename : string;
  data : string
}.

Record message : Type := mk_message {
  content : option string;
  embed : option Embed;
  file : option File
}.

Definition text (s : string) : message := mk_message (Some s) None None.
Definition with_embed (e : Embed) : message := mk_message None (Some e) None.

(** The ways a message reaches the chat platform. *)
Inductive route : Type :=
| ChannelSend (channel : Z)     (* [channel.send] *)
| CtxSend                       (* [ctx.send] *)
| ResponseSend                  (* [interaction.response.send_message] *)
| ResponseEdit                  (* [interaction.edit_original_response] *)
| FollowupSend.                 (* [interaction.followup.send] *)

(** What a run does to the outside, in program order. *)
Inductive effect (F : Type) : Type :=
| Printed (line : string)
| FredInfo (id : string)
| FredSeries (id : string) (q : query)
| FredSearch (words : string) (lim : Z)
| HttpGet (url : string) (headers : list (string * string))
| Defer
| Deliver (r : route) (m : message).
Arguments Printed {F} line.
Arguments FredInfo {F} id.
Arguments FredSeries {F} id q.
Arguments FredSearch {F} words lim.
Arguments HttpGet {F} url headers.
Arguments Defer {F}.
Arguments Deliver {F} r m.

(** The outside world of one run. *)
Record World (F : Type) : Type := mk_world {
  now_eastern : result datetime;   (* [datetime.now(pytz.timezone('US/Eastern'))] *)
  now_utc : datetime;              (* [datetime.now(pytz.UTC)] *)
  now_local : datetime;            (* [datetime.now()] *)
  unix_time : Z;                   (* [int(time.time())] *)
  get_series_info : string -> result Info;
  get_series : string -> query -> result (Series F);
  search : string -> Z -> result (list (string * Row));  (* [fred.search], as [iterrows()] *)
  corrcoef : list (F * F) -> result F;  (* [np.corrcoef(a, b)[0, 1]], on two or more pairs *)
  console : string -> result unit; (* what [print] does with a line *)
  http_get : string -> list (string * string) -> result (Z * result string);
  get_channel : Z -> option Z;     (* [bot.get_channel] *)
  defer : result unit;             (* [interaction.response.defer()], in [slash_chart] *)
  edit_original_response : result unit  (* [interaction.edit_original_response], in [slash_chart] *)
}.
Arguments now_eastern {F} w.
Arguments now_utc {F} w.
Arguments now_local {F} w.
Arguments unix_time {F} w.
Arguments get_series_info {F} w.
Arguments get_series {F} w.
Arguments search {F} w.
Arguments corrcoef {F} w.
Arguments console {F} w.
Arguments http_get {F} w.
Arguments get_channel {F} w.
Arguments defer {F} w.
Arguments edit_original_response {F} w.

Definition ECONOMIC_INDICATORS : list (string * string) :=
  [ ("CPIAUCSL", "Consumer Price Index (CPI)");
    ("CPILFESL", "Core CPI (excluding Food & Energy)");
    ("PAYEMS", "Nonfarm Payroll");
    ("UNRATE", "Unemployment Rate");
    ("GDP", "Gross Domestic Product");
    ("FEDFUNDS", "Federal Funds Rate");
    ("INDPRO", "Industrial Production Index");
    ("RSXFS", "Retail Sales");
    ("RRSFS", "Real Retail Sales");
    ("VIXCLS", "VIX Volatility Index");
    ("DTWEXB", "US Dollar Index");
    ("DCOILWTICO", "Crude Oil WTI");
    ("DGS2", "2-Year Treasury Rate");
    ("DGS10", "10-Year Treasury Rate");
    ("T10Y2Y", "10Y-2Y Treasury Spread");
    ("WALCL", "Fed Balance Sheet Total Assets");
    ("M2V", "Velocity of M2 Money Stock");
    ("BOGMBASE", "Monetary Base");
    ("ICSA", "Initial Jobless Claims");
    ("PCE", "Personal Consumption Expenditures");
    ("HOUST", "Housing Starts") ].

(** The decorations of the messages, byte for byte as in the source
    file. *)
Definition BELL : string := bytes [239; 163; 191; 195; 188; 195; 174; 195; 174]%N.
Definition OK_MARK : string := bytes [226; 128; 154; 195; 186; 195; 150]%N.
Definition NO_MARK : string := bytes [226; 128; 154; 195; 185; 195; 165]%N.
Definition RED_DOT : string := bytes [239; 163; 191; 195; 188; 195; 174; 194; 165]%N.
Definition BULLET : string := bytes [226; 128; 154; 195; 132; 194; 162]%N.
Definition CORNER : string := bytes [226; 128; 154; 195; 174; 195; 174]%N.
Definition YELLOW_DOT : string := bytes [239; 163; 191; 195; 188; 195; 188; 194; 176]%N.
Definition BAR_CHART : string := bytes [239; 163; 191; 195; 188; 195; 172; 195; 164]%N.
Definition MAGNIFIER : string := bytes [239; 163; 191; 195; 188; 195; 174; 195; 167]%N.
Definition CALENDAR : string := bytes [239; 163; 191; 195; 188; 195; 172; 195; 150]%N.
Definition CHART_UP : string := bytes [239; 163; 191; 195; 188; 195; 172; 195; 160]%N.

Definition inspect {A : Type} (x : A) : { y : A | x = y } := exist _ x eq_refl.

(** The variant of the weekend loop: the number of days to the next
    Monday. *)
Definition days_to_monday (dt : datetime) : nat :=
  Z.to_nat ((7 - weekday (ordinal dt)) mod 7).

(** [while next_day.weekday() >= 5: next_day += timedelta(days=1)] *)
Equations? skip_weekend (next_day : datetime) : result datetime
  by wf (days_to_monday next_day) lt :=
skip_weekend next_day with inspect (5 <=? weekday (ordinal next_day)) := {
  | exist _ true Hwk with inspect (datetime_add_days next_day 1) := {
      | exist _ (Ok next_day') Hadd := skip_weekend next_day'
      | exist _ (Raise e) _ := Raise e }
  | exist _ false _ := Ok next_day }.
Proof.
  unfold datetime_add_days, add_days in Hadd.
  destruct ((1 <=? ordinal next_day + 1) && (ordinal next_day + 1 <=? MAXORDINAL));
    [|discriminate].
  injection Hadd as <-.
  unfold days_to_monday, weekday in *; simpl.
  apply Z.leb_le in Hwk.
  apply Z2Nat.inj_lt; try (apply Z.mod_pos_bound; lia).
  Z.to_euclidean_division_equations; lia.
Qed.

(** The date the events of a run are filed under (lines 82-98). *)
Definition release_date (now : datetime) : result Z :=
  match
    (if (16 <=? hour now) && (30 <=? minute now)
     then datetime_add_days now 1
     else Ok now)
  with
  | Raise e => Raise e
  | Ok next_day =>
      match skip_weekend next_day with
      | Raise e => Raise e
      | Ok next_day => Ok (ordinal next_day)
      end
  end.

Section Jobs.

Context {F : Type} `{Float64 F}.

Local Abbreviation io := (Py.io (effect F)).

(** Calls to the outside leave an event in the trace. *)
Definition py_print (w : World F) (line : string) : io unit :=
  match console w line with
  | Ok _ => emit (Printed line)
  | Raise e => raise e
  end.

Definition fred_get_series_info (w : World F) (id : string) : io Info :=
  run emit (FredInfo id) in lift (get_series_info w id).

Definition fred_get_series (w : World F) (id : string) (q : query)
  : io (Series F) :=
  run emit (FredSeries id q) in lift (get_series w id q).

(** [for x in l: body x] *)
Fixpoint for_each {A : Type} (l : list A) (body : A -> io unit) : io unit :=
  match l with
  | [] => ret tt
  | x :: r => run body x in for_each r body
  end.

(** *** The refresh job *)

(** Lines 120-124: the first value of the series that is not missing. *)
Fixpoint first_notna (series : Series F) : option F :=
  match series with
  | [] => None
  | (_, val) :: rest => if negb (isna val) then Some val else first_notna rest
  end.

(** Lines 127-145: the display string of a value. *)
Definition formatted_value (series_id : string) (previous_value : option F)
    (info : Info) : string :=
  match previous_value with
  | Some v =>
      if negb (isna v) then
        if in_list series_id ["UNRATE"; "FEDFUNDS"; "DGS2"; "DGS10"; "T10Y2Y"]
        then fmt_2f v ++ "%"
        else if String.eqb series_id "DCOILWTICO"
        then "$" ++ fmt_2f v ++ "/bbl"
        else if String.eqb series_id "GOLDPMGBD228NLBM"
        then "$" ++ fmt_2f v ++ "/oz"
        else if contains "Billions of Dollars" (default "" (info !! "units"))
        then "$" ++ fmt_c2f v ++ "B"
        else if contains "Millions of Dollars" (default "" (info !! "units"))
        then "$" ++ fmt_c2f v ++ "M"
        else if String.eqb series_id "ICSA"
        then fmt_c0f v
        else if String.eqb series_id "VIXCLS"
        then fmt_2f v
        else fmt_c2f v
      else "N/A"
  | None => "N/A"
  end.

Definition impact_of (series_id : string) : string :=
  if in_list series_id ["CPIAUCSL"; "PAYEMS"; "GDP"; "FEDFUNDS"]
  then "High" else "Medium".

(** Lines 103-153: the body of the inner [try], for one indicator. *)
Definition fetch_indicator (w : World F) (now : datetime) (release : Z)
    (series_id description : string) : io Event :=
  let* info := fred_get_series_info w series_id in
  let end_date := now in
  let* start_date := lift (datetime_add_days end_date (-30)) in
  let* series :=
    fred_get_series w series_id
      (mk_query (Some (BoundStr (isoformat (ordinal start_date))))
                (Some (BoundStr (isoformat (ordinal end_date)))) None) in
  let* series :=
    (if bool_decide (series = [])
     then fred_get_series w series_id (mk_query None None (Some 1))
     else ret series) in
  let previous_value := first_notna series in
  ret (mk_event (isoformat release) description series_id
         (impact_of series_id)
         (formatted_value series_id previous_value info)).

(** Lines 101-156: the loop over the catalog.  A failing indicator is
    reported on the console and skipped; an exception of the report
    itself leaves the loop. *)
Fixpoint indicators_loop (w : World F) (now : datetime) (release : Z)
    (catalog : list (string * string)) (events : list Event)
  : io (list Event) :=
  match catalog with
  | [] => ret events
  | (series_id, description) :: rest =>
      let* events :=
        try_except
          (let* ev := fetch_indicator w now release series_id description in
           ret (events ++ [ev])%list)
          (fun e =>
             run py_print w ("Error fetching " ++ series_id ++ ": " ++ e) in
             ret events) in
      indicators_loop w now release rest events
  end.

(** [sorted(events, key=lambda x: x['time'])]: a stable sort on the
    [time] strings. *)
Fixpoint insert_by_time (e : Event) (l : list Event) : list Event :=
  match l with
  | [] => [e]
  | x :: r =>
      if String.leb (time e) (time x) then e :: x :: r
      else x :: insert_by_time e r
  end.

Definition sorted_by_time (events : list Event) : list Event :=
  fold_right insert_by_time [] events.

(** Lines 78-161. *)
Definition fetch_economic_events (w : World F) : io (list Event) :=
  let events := [] in
  let* now := lift (now_eastern w) in
  let* release := lift (release_date now) in
  try_except
    (let* events := indicators_loop w now release ECONOMIC_INDICATORS events in
     ret (sorted_by_time events))
    (fun e =>
       run py_print w ("Error fetching economic events: " ++ e) in
       ret []).

(** Lines 190-194: the cache is assigned the list the fetch returns; if
    the fetch raises, the assignment is not reached. *)
Definition update_daily_events (w : World F) (daily_events : list Event)
  : list (effect F) * list Event :=
  match fetch_economic_events w with
  | (t, Ok events) => (t, events)
  | (t, Raise _) => (t, daily_events)
  end.

(** *** The notifier *)

Definition notification (event : Event) (event_time : datetime) : message :=
  with_embed
    (mk_embed
       (BELL ++ " Upcoming Economic Release")
       (Some ("**" ++ title event ++ "**"))
       65280
       [ mk_field "Time" (strftime_H_M_UTC event_time) true;
         mk_field "Impact" (impact event) true;
         mk_field "Previous Value" (previous event) true ]
       None).

(** Lines 168-188: the body of the loop, for one cached event. *)
Definition check_event (w : World F) (now : datetime)
    (ANNOUNCEMENT_CHANNELS : gset Z) (event : Event) : io unit :=
  let* event_time := lift (fromisoformat (time event)) in
  if (hour event_time =? 0) && (minute event_time =? 0) then ret tt
  else
    let time_until_event := to_us event_time - to_us now in
    if (minutes 14 <=? time_until_event) && (time_until_event <=? minutes 15)
    then
      for_each (elements ANNOUNCEMENT_CHANNELS) (fun channel_id =>
        match get_channel w channel_id with
        | Some channel =>
            emit (Deliver (ChannelSend channel) (notification event event_time))
        | None => ret tt
        end)
    else ret tt.

(** Lines 163-188. *)
Definition check_events (w : World F) (daily_events : list Event)
    (ANNOUNCEMENT_CHANNELS : gset Z) : io unit :=
  let now := now_utc w in
  for_each daily_events (check_event w now ANNOUNCEMENT_CHANNELS).

End Jobs.

(** ** The bot: chart relay and command handlers *)

Section Handlers.

Context {F : Type} `{Float64 F}.

Local Abbreviation io := (Py.io (effect F)).

Definition valid_timeframes : gmap string string :=
  <["d" := "daily"]> (<["w" := "weekly"]> (<["m" := "monthly"]> ∅)).

Definition p_map : gmap string string :=
  <["daily" := "d"]> (<["weekly" := "w"]> (<["monthly" := "m"]> ∅)).

(** [d[k]] on a dictionary: a missing key raises [KeyError]. *)
Definition getitem (d : gmap string string) (k : string) : result string :=
  match d !! k with
  | Some v => Ok v
  | None => Raise ("'" ++ k ++ "'")
  end.

Definition chart_url_of (upper_ticker p : string) : string :=
  "https://finviz.com/chart.ashx?t=" ++ upper_ticker ++ "&ty=c&ta=1&p=" ++ p
  ++ "&s=l".

Definition chart_headers (upper_ticker p : string) : list (string * string) :=
  [ ("User-Agent",
     "Mozilla/5.0 (Windows NT 10.0; Win64; x64) AppleWebKit/537.36 (KHTML, like Gecko) Chrome/125.0 Safari/537.36");
    ("Referer", "https://finviz.com/quote.ashx?t=" ++ upper_ticker ++ "&p=" ++ p);
    ("Cache-Control", "no-cache");
    ("Pragma", "no-cache");
    ("Accept", "image/avif,image/webp,image/apng,image/*,*/*;q=0.8") ].

(** Lines 243-292. *)
Definition send_chart (w : World F) (channel : Z) (ticker timeframe : string)
  : io unit :=
  let timeframe := lower timeframe in
  if in_list timeframe ["3"; "5"; "15"] then
    emit (Deliver (ChannelSend channel)
            (text "Intraday charts are only available for FINVIZ*Elite users."))
  else
    match valid_timeframes !! timeframe with
    | None =>
        emit (Deliver (ChannelSend channel)
                (text "Invalid timeframe. Use 'd' for daily, 'w' for weekly, or 'm' for monthly."))
    | Some timeframe_name =>
        let* p := lift (getitem p_map timeframe_name) in
        let upper_ticker := upper ticker in
        let chart_url := chart_url_of upper_ticker p in
        try_except
          (let headers := chart_headers upper_ticker p in
           run emit (HttpGet chart_url headers) in
           let* resp := lift (http_get w chart_url headers) in
           if fst resp =? 200 then
             let* image_bytes := lift (snd resp) in
             let file_name :=
               upper_ticker ++ "_" ++ p ++ "_" ++ str_of_Z (unix_time w) ++ ".png" in
             let file := mk_file file_name image_bytes in
             let embed :=
               mk_embed (upper_ticker ++ " " ++ timeframe_name ++ " Chart") None
                 65280 [] (Some ("attachment://" ++ file_name)) in
             emit (Deliver (ChannelSend channel)
                     (mk_message None (Some embed) (Some file)))
           else raise ("HTTP " ++ str_of_Z (fst resp)))
          (fun _ =>
             let cache_bust_url :=
               chart_url ++ "&rand=" ++ str_of_Z (unix_time w) in
             let embed :=
               mk_embed (upper_ticker ++ " " ++ timeframe_name ++ " Chart") None
                 65280 [] (Some cache_bust_url) in
             emit (Deliver (ChannelSend channel) (with_embed embed)))
    end.

(** Lines 757-778: the slash form of the chart command.  The handler
    of the [try] is reached when deferring or editing the response
    raises. *)
Definition slash_chart (w : World F) (channel : Z) (ticker timeframe : string)
  : io unit :=
  try_except
    (run (match defer w with
          | Ok _ => emit Defer
          | Raise e => raise e
          end) in
     run send_chart w channel ticker timeframe in
     match edit_original_response w with
     | Ok _ =>
         emit (Deliver ResponseEdit
                 (mk_message (Some (CHART_UP ++ " Chart sent!")) None None))
     | Raise e => raise e
     end)
    (fun e =>
       run py_print w ("Defer failed, using fallback: " ++ e) in
       send_chart w channel ticker timeframe).

(** *** Registering destinations (lines 294-320 and 544-556) *)

(** [str(MissingPermissions(['administrator']))] *)
Definition MISSING_PERMISSIONS : string :=
  "You are missing Administrator permission(s) to run this command.".

(** The four commands carry [@commands.has_permissions(administrator=True)].
    [permitted] is the verdict of that check as the framework evaluates
    it before the body; when the check fails the body is not run: the
    registry is left as it is and the command ends with the exception
    of the check. *)
Definition set_channel (permitted : bool) (ANNOUNCEMENT_CHANNELS : gset Z)
    (channel_id : Z) : gset Z * io unit :=
  if permitted then
    ({[ channel_id ]} ∪ ANNOUNCEMENT_CHANNELS,
     emit (Deliver CtxSend
             (text (OK_MARK ++ " This channel will now receive economic event notifications!"))))
  else (ANNOUNCEMENT_CHANNELS, raise MISSING_PERMISSIONS).

Definition remove_channel (permitted : bool) (ANNOUNCEMENT_CHANNELS : gset Z)
    (channel_id : Z) : gset Z * io unit :=
  if permitted then
    (ANNOUNCEMENT_CHANNELS ∖ {[ channel_id ]},
     emit (Deliver CtxSend
             (text (NO_MARK ++ " This channel will no longer receive economic event notifications!"))))
  else (ANNOUNCEMENT_CHANNELS, raise MISSING_PERMISSIONS).



(** *** The [events] command, prefix form (lines 322-400) *)

(** Lines 353-366: the loop that fills the first embed. *)
Fixpoint high_impact_fields (high_impact_events : list Event)
    (fields : list field) : result (list field) :=
  match high_impact_events with
  | [] => Ok fields
  | event :: rest =>
      match fromisoformat (time event) with
      | Raise e => Raise e
      | Ok event_date =>
          let date_str := strftime_a_b_d event_date in
          let name_field :=
            if negb (hour event_date =? 0) || negb (minute event_date =? 0)
            then date_str ++ " " ++ BULLET ++ " " ++ strftime_I_M_p event_date
            else date_str in
          high_impact_fields rest
            (fields ++ [ mk_field name_field
                           ("**" ++ title event ++ "**" ++ LF ++ CORNER
                            ++ " Previous: " ++ previous event)
                           false ])%list
      end
  end.

(** The variables of the second loop. *)
Record compact : Type := mk_compact {
  current_date : option string;
  current_text : string;
  other_fields : list field
}.

(** Lines 378-393: the loop that groups the other events by date. *)
Fixpoint other_events_loop (other_events : list Event) (st : compact)
  : result compact :=
  match other_events with
  | [] => Ok st
  | event :: rest =>
      match fromisoformat (time event) with
      | Raise e => Raise e
      | Ok event_date =>
          let date_str := strftime_a_b_d event_date in
          let time_component :=
            if negb (hour event_date =? 0) || negb (minute event_date =? 0)
            then "`" ++ strftime_I_M_p event_date ++ "` "
            else "" in
          let st :=
            if bool_decide (Some date_str <> current_date st) then
              let st :=
                if negb (String.eqb (current_text st) "") then
                  mk_compact (current_date st) ""
                    (other_fields st
                     ++ [ mk_field (default "None" (current_date st))
                            (current_text st) false ])%list
                else st in
              mk_compact (Some date_str) (current_text st) (other_fields st)
            else st in
          other_events_loop rest
            (mk_compact (current_date st)
               (current_text st ++ time_component ++ "**" ++ title event
                ++ "** (" ++ previous event ++ ")" ++ LF)
               (other_fields st))
      end
  end.

(** Lines 395-396: the last group. *)
Definition flush (st : compact) : list field :=
  if negb (String.eqb (current_text st) "") then
    (other_fields st
     ++ [ mk_field (default "None" (current_date st)) (current_text st) false ])%list
  else other_fields st.

Definition list_events (daily_events : list Event) : io unit :=
  if bool_decide (daily_events = []) then
    emit (Deliver CtxSend (text "No economic events scheduled."))
  else
    let '(high_impact_events, other_events) :=
      partition (fun event => String.eqb (impact event) "High") daily_events in
    let* high_fields := lift (high_impact_fields high_impact_events []) in
    let high_impact_embed :=
      mk_embed (RED_DOT ++ " High Impact Economic Releases") None 16711680
        high_fields None in
    let* st := lift (other_events_loop other_events (mk_compact None "" [])) in
    let other_embed :=
      mk_embed (YELLOW_DOT ++ " Other Economic Releases") None 16766720
        (flush st) None in
    run emit (Deliver CtxSend (with_embed high_impact_embed)) in
    emit (Deliver CtxSend (with_embed other_embed)).

(** *** The [events] command, slash form (lines 558-634) *)

(** Lines 585-598. *)
Fixpoint slash_high_impact_fields (high_impact_events : list Event)
    (fields : list field) : result (list field) :=
  match high_impact_events with
  | [] => Ok fields
  | event :: rest =>
      match fromisoformat (time event) with
      | Raise e => Raise e
      | Ok event_date =>
          let date_str := strftime_a_b_d event_date in
          let name_field :=
            if negb (hour event_date =? 0) || negb (minute event_date =? 0)
            then date_str ++ " " ++ BULLET ++ " " ++ strftime_I_M_p event_date
            else date_str in
          slash_high_impact_fields rest
            (fields ++ [ mk_field name_field
                           ("**" ++ title event ++ "**" ++ LF ++ CORNER
                            ++ " Previous: " ++ previous event)
                           false ])%list
      end
  end.

(** Lines 610-625. *)
Fixpoint slash_other_events_loop (other_events : list Event) (st : compact)
  : result compact :=
  match other_events with
  | [] => Ok st
  | event :: rest =>
      match fromisoformat (time event) with
      | Raise e => Raise e
      | Ok event_date =>
          let date_str := strftime_a_b_d event_date in
          let time_component :=
            if negb (hour event_date =? 0) || negb (minute event_date =? 0)
            then "`" ++ strftime_I_M_p event_date ++ "` "
            else "" in
          let st :=
            if bool_decide (Some date_str <> current_date st) then
              let st :=
                if negb (String.eqb (current_text st) "") then
                  mk_compact (current_date st) ""
                    (other_fields st
                     ++ [ mk_field (default "None" (current_date st))
                            (current_text st) false ])%list
                else st in
              mk_compact (Some date_str) (current_text st) (other_fields st)
            else st in
          slash_other_events_loop rest
            (mk_compact (current_date st)
               (current_text st ++ time_component ++ "**" ++ title event
                ++ "** (" ++ previous event ++ ")" ++ LF)
               (other_fields st))
      end
  end.

(** Lines 627-628. *)
Definition slash_flush (st : compact) : list field :=
  if negb (String.eqb (current_text st) "") then
    (other_fields st
     ++ [ mk_field (default "None" (current_date st)) (current_text st) false ])%list
  else other_fields st.

Definition slash_list_events (daily_events : list Event) : io unit :=
  run emit (Deliver ResponseSend
              (text (CALENDAR ++ " Fetching economic events..."))) in
  if bool_decide (daily_events = []) then
    emit (Deliver ResponseEdit (text "No economic events scheduled."))
  else
    let '(high_impact_events, other_events) :=
      partition (fun event => String.eqb (impact event) "High") daily_events in
    let* high_fields := lift (slash_high_impact_fields high_impact_events []) in
    let high_impact_embed :=
      mk_embed (RED_DOT ++ " High Impact Economic Releases") None 16711680
        high_fields None in
    let* st :=
      lift (slash_other_events_loop other_events (mk_compact None "" [])) in
    let other_embed :=
      mk_embed (YELLOW_DOT ++ " Other Economic Releases") None 16766720
        (slash_flush st) None in
    run emit (Deliver ResponseEdit
                (mk_message (Some (CALENDAR ++ " Economic Events:"))
                   (Some high_impact_embed) None)) in
    if negb (bool_decide (other_events = [])) then
      emit (Deliver FollowupSend (with_embed other_embed))
    else ret tt.

(** *** The [getdata] command (lines 403-434 and 646-666) *)

(** [series.dropna()] *)
Definition dropna (series : Series F) : Series F :=
  List.filter (fun obs => negb (isna (snd obs))) series.

(** [series.iloc[-1]] and [series.index[-1]] *)
Definition iloc_last (series : Series F) : result F :=
  match last series with
  | Some obs => Ok (snd obs)
  | None => Raise "single positional indexer is out-of-bounds"
  end.

Definition index_last (series : Series F) : result Z :=
  match last series with
  | Some obs => Ok (fst obs)
  | None => Raise "index -1 is out of bounds for axis 0 with size 0"
  end.

Definition get_current_data (w : World F) (series_id : string) : io unit :=
  try_except
    (let* info := fred_get_series_info w series_id in
     let* series := fred_get_series w series_id (mk_query None None None) in
     let series := dropna series in
     let* info_title := lift (getitem info "title") in
     let* latest := lift (iloc_last series) in
     let* updated := lift (index_last series) in
     let embed :=
       mk_embed (BAR_CHART ++ " " ++ info_title) None 65280
         [ mk_field "Latest Value" (fmt_c2f latest) true;
           mk_field "Last Updated" (isoformat updated) true;
           mk_field "Units" (default "N/A" (info !! "units")) true ]
         None in
     emit (Deliver CtxSend (with_embed embed)))
    (fun e => emit (Deliver CtxSend (text ("Error fetching data: " ++ e)))).

Definition slash_get_current_data (w : World F) (series_id : string) : io unit :=
  try_except
    (let* info := fred_get_series_info w series_id in
     let* series := fred_get_series w series_id (mk_query None None None) in
     let series := dropna series in
     let* info_title := lift (getitem info "title") in
     let* latest := lift (iloc_last series) in
     let* updated := lift (index_last series) in
     let embed :=
       mk_embed (BAR_CHART ++ " " ++ info_title) None 65280
         [ mk_field "Latest Value" (fmt_c2f latest) true;
           mk_field "Last Updated" (isoformat updated) true;
           mk_field "Units" (default "N/A" (info !! "units")) true ]
         None in
     emit (Deliver ResponseSend (with_embed embed)))
    (fun e => emit (Deliver ResponseSend (text ("Error fetching data: " ++ e)))).

(** *** The [search] command (lines 437-500 and 668-725) *)

Definition fred_search (w : World F) (words : string) (lim : Z)
  : io (list (string * Row)) :=
  run emit (FredSearch words lim) in lift (search w words lim).

(** Lines 461-496: the field of one result. *)
Definition search_field (idx : string) (row : Row) : field :=
  let freq := replace ", Ending Friday" "" (row_frequency row) in
  let freq := replace ", Close" "" freq in
  let title := row_title row in
  let title :=
    if (50 <? String.length title)%nat
    then String.substring 0 47 title ++ "..."
    else title in
  let units := row_units row in
  let units :=
    if contains "Index" units then
      if contains "=" units
      then "Index (Base: " ++ strip (split_1 "="%char units) ++ ")"
      else "Index"
    else if contains "Dollars per" units
    then "$" ++ replace "Dollars per" "per" units
    else if contains "Billions of Dollars" units then "$B"
    else if contains "Millions of Dollars" units then "$M"
    else units in
  mk_field (BAR_CHART ++ " " ++ title)
    ("**Series ID:** `" ++ idx ++ "`" ++ LF
     ++ "**Frequency:** " ++ freq ++ LF
     ++ "**Units:** " ++ units)
    false.

Definition search_series (w : World F) (search_terms : list string) : io unit :=
  try_except
    (let search_text := String.concat " " search_terms in
     let* results := fred_search w search_text 5 in
     let embed :=
       mk_embed (MAGNIFIER ++ " Search Results for '" ++ search_text ++ "'")
         None 65280
         (map (fun r => search_field (fst r) (snd r)) results) None in
     emit (Deliver CtxSend (with_embed embed)))
    (fun e => emit (Deliver CtxSend (text ("Error searching: " ++ e)))).

(** Lines 686-721. *)
Definition slash_search_field (idx : string) (row : Row) : field :=
  let freq := replace ", Ending Friday" "" (row_frequency row) in
  let freq := replace ", Close" "" freq in
  let title := row_title row in
  let title :=
    if (50 <? String.length title)%nat
    then String.substring 0 47 title ++ "..."
    else title in
  let units := row_units row in
  let units :=
    if contains "Index" units then
      if contains "=" units
      then "Index (Base: " ++ strip (split_1 "="%char units) ++ ")"
      else "Index"
    else if contains "Dollars per" units
    then "$" ++ replace "Dollars per" "per" units
    else if contains "Billions of Dollars" units then "$B"
    else if contains "Millions of Dollars" units then "$M"
    else units in
  mk_field (BAR_CHART ++ " " ++ title)
    ("**Series ID:** `" ++ idx ++ "`" ++ LF
     ++ "**Frequency:** " ++ freq ++ LF
     ++ "**Units:** " ++ units)
    false.

Definition slash_search_series (w : World F) (keywords : string) : io unit :=
  try_except
    (let* results := fred_search w keywords 5 in
     let embed :=
       mk_embed (MAGNIFIER ++ " Search Results for '" ++ keywords ++ "'")
         None 65280
         (map (fun r => slash_search_field (fst r) (snd r)) results) None in
     emit (Deliver ResponseSend (with_embed embed)))
    (fun e => emit (Deliver ResponseSend (text ("Error searching: " ++ e)))).

(** *** The [correlation] command (lines 503-540 and 727-755) *)

(** [data1.corr(data2)], after pandas.  The two series are aligned on
    the dates they share (an inner join), and the pairs with a missing
    value are dropped.  With no pair left the result is NaN (fewer than
    [min_periods]); with one pair the coefficient is zero divided by
    zero, NaN again; with two pairs or more it is the coefficient numpy
    computes. *)
Definition aligned (data1 data2 : Series F) : list (F * F) :=
  flat_map (fun obs1 =>
    flat_map (fun obs2 =>
      if fst obs1 =? fst obs2 then [ (snd obs1, snd obs2) ] else []) data2)
    data1.

Definition overlapping (data1 data2 : Series F) : list (F * F) :=
  List.filter (fun pair => negb (isna (fst pair)) && negb (isna (snd pair)))
    (aligned data1 data2).

Definition series_corr (w : World F) (data1 data2 : Series F) : result F :=
  let pairs := overlapping data1 data2 in
  if (length pairs <? 2)%nat then Ok nan else corrcoef w pairs.

Definition get_correlation (w : World F) (series1 series2 : string) (days : Z)
  : io unit :=
  try_except
    (let end_date := now_local w in
     let* start_date := lift (datetime_add_days end_date (- days)) in
     let* data1 :=
       fred_get_series w series1
         (mk_query (Some (BoundDatetime start_date)) None None) in
     let* data2 :=
       fred_get_series w series2
         (mk_query (Some (BoundDatetime start_date)) None None) in
     let* correlation := lift (series_corr w data1 data2) in
     let embed :=
       mk_embed (BAR_CHART ++ " Correlation Analysis (" ++ str_of_Z days ++ " days)")
         (Some ("Correlation between " ++ series1 ++ " and " ++ series2))
         65280
         [ mk_field "Correlation Coefficient" (fmt_2f correlation) true ]
         None in
     emit (Deliver CtxSend (with_embed embed)))
    (fun e => emit (Deliver CtxSend (text ("Error calculating correlation: " ++ e)))).

Definition slash_get_correlation (w : World F) (series1 series2 : string)
    (days : Z) : io unit :=
  try_except
    (let end_date := now_local w in
     let* start_date := lift (datetime_add_days end_date (- days)) in
     let* data1 :=
       fred_get_series w series1
         (mk_query (Some (BoundDatetime start_date)) None None) in
     let* data2 :=
       fred_get_series w series2
         (mk_query (Some (BoundDatetime start_date)) None None) in
     let* correlation := lift (series_corr w data1 data2) in
     let embed :=
       mk_embed (BAR_CHART ++ " Correlation Analysis (" ++ str_of_Z days ++ " days)")
         (Some ("Correlation between " ++ series1 ++ " and " ++ series2))
         65280
         [ mk_field "Correlation Coefficient" (fmt_2f correlation) true ]
         None in
     emit (Deliver ResponseSend (with_embed embed)))
    (fun e =>
       emit (Deliver ResponseSend (text ("Error calculating correlation: " ++ e)))).

End Handlers.

(** ** What the specification says, and observations on traces *)

Section Reading.

Context {F : Type} `{Float64 F}.

(** The cut-off of the specification: the time is 16:30 or later. *)
Definition at_or_after_cutoff (now : datetime) : bool :=
  16 * 60 + 30 <=? hour now * 60 + minute now.

(** The next applicable date as the specification words it: the date of
    [now], one day later at or after the cut-off, then past the
    weekend. *)
Definition next_applicable_date (now : datetime) : result Z :=
  match
    (if at_or_after_cutoff now then datetime_add_days now 1 else Ok now)
  with
  | Raise e => Raise e
  | Ok next_day =>
      match skip_weekend next_day with
      | Raise e => Raise e
      | Ok next_day => Ok (ordinal next_day)
      end
  end.

(** The most recent value of a series that is not missing: the one with
    the greatest date. *)
Definition later (best : option (Z * F)) (obs : Z * F) : option (Z * F) :=
  if isna (snd obs) then best
  else
    match best with
    | Some b => if fst b <=? fst obs then Some obs else best
    | None => Some obs
    end.

Definition most_recent_notna (series : Series F) : option F :=
  option_map snd (fold_left later series None).

(** The value the specification selects: the most recent one of the
    window, else the one of the latest known observation. *)
Definition selected_value (window latest : Series F) : option F :=
  match most_recent_notna window with
  | Some v => Some v
  | None => most_recent_notna latest
  end.

(** The ladder of the formatter as the specification lists it: the
    first rule that applies gives the display string. *)
Definition ladder (key : string) (units : string)
  : list (bool * (F -> string)) :=
  [ (in_list key ["UNRATE"; "FEDFUNDS"; "DGS2"; "DGS10"; "T10Y2Y"],
     fun v => fmt_2f v ++ "%");
    (String.eqb key "DCOILWTICO", fun v => "$" ++ fmt_2f v ++ "/bbl");
    (contains "Billions of Dollars" units, fun v => "$" ++ fmt_c2f v ++ "B");
    (contains "Millions of Dollars" units, fun v => "$" ++ fmt_c2f v ++ "M");
    (String.eqb key "ICSA", fmt_c0f);
    (String.eqb key "VIXCLS", fmt_2f) ].

Fixpoint first_match (rules : list (bool * (F -> string)))
    (otherwise : F -> string) : F -> string :=
  match rules with
  | [] => otherwise
  | (applies, rule) :: rest => if applies then rule else first_match rest otherwise
  end.

Definition value_formatter (key : string) (value : option F) (units : string)
  : string :=
  match value with
  | None => "N/A"
  | Some v => if isna v then "N/A" else first_match (ladder key units) fmt_c2f v
  end.

(** The guarded part of the refresh job: lines 101-158. *)
Definition guarded_run (w : World F) (now : datetime) (release : Z)
  : Py.io (effect F) (list Event) :=
  let* events := indicators_loop w now release ECONOMIC_INDICATORS [] in
  ret (sorted_by_time events).




(** The messages of a trace, and their parts. *)
Definition is_deliver (ev : effect F) : bool :=
  match ev with Deliver _ _ => true | _ => false end.

(** An event that hands no message to the chat platform. *)
Definition silent (ev : effect F) : Prop := is_deliver ev = false.

Definition is_http (ev : effect F) : bool :=
  match ev with HttpGet _ _ => true | _ => false end.

Definition delivered (t : list (effect F)) : list message :=
  flat_map (fun ev => match ev with Deliver _ m => [m] | _ => [] end) t.

Definition channel_messages (t : list (effect F)) : list (Z * message) :=
  flat_map (fun ev =>
    match ev with Deliver (ChannelSend c) m => [(c, m)] | _ => [] end) t.

(** The fields a reply shows, each with the title of its embed. *)
Definition shown_fields (t : list (effect F)) : list (string * field) :=
  flat_map (fun m =>
    match embed m with
    | Some e => map (fun f => (embed_title e, f)) (fields e)
    | None => []
    end) (delivered t).

(** The text messages of a reply. *)
Definition shown_texts (t : list (effect F)) : list string :=
  flat_map (fun m =>
    match content m, embed m with
    | Some c, None => [c]
    | _, _ => []
    end) (delivered t).

(** The fetch of a chart fails when the request raises, when the status
    is not 200, or when the body cannot be read. *)
Definition fetch_fails (response : result (Z * result string)) : bool :=
  match response with
  | Raise _ => true
  | Ok (status, body) => negb (status =? 200) || negb (is_ok body)
  end.

(** The channels the given destinations resolve to. *)
Definition resolve (w : World F) (ids : list Z) : list Z :=
  flat_map (fun id =>
    match get_channel w id with Some channel => [channel] | None => [] end) ids.

(** A clock that returns dates a [datetime] can hold. *)
Definition clock_in_range (w : World F) : Prop :=
  forall now, now_eastern w = Ok now -> 1 <= ordinal now <= MAXORDINAL.

(** The states of the event cache: empty at start, then whatever a
    refresh leaves. *)
Inductive reachable : list Event -> Prop :=
| reach_start : reachable []
| reach_refresh (w : World F) (daily_events : list Event) :
    clock_in_range w ->
    reachable daily_events ->
    reachable (snd (update_daily_events w daily_events)).

End Reading.

End Bot.

(** ** A decimal instance of the floats, to run the definitions *)

Module Decimal.
Import Bot.

(** A value with two decimals, or the missing value. *)
Inductive dec : Type :=
| NaN
| Dec (hundredths : Z).

Fixpoint list_of_string (s : string) : list ascii :=
  match s with
  | EmptyString => []
  | String c r => c :: list_of_string r
  end.

Fixpoint string_of_list (l : list ascii) : string :=
  match l with
  | [] => EmptyString
  | c :: r => String c (string_of_list r)
  end.

(** Commas between groups of three digits, on the reversed digits. *)
Fixpoint group_rev (l : list ascii) (k : nat) : list ascii :=
  match l with
  | [] => []
  | c :: r =>
      match r, k with
      | _ :: _, 2%nat => c :: ","%char :: group_rev r 0
      | _, _ => c :: group_rev r (S k)
      end
  end.

Definition grouped (n : Z) : string :=
  string_of_list (rev (group_rev (rev (list_of_string (str_of_Z n))) 0)).

Definition sign (h : Z) : string := if h <? 0 then "-" else "".

Definition dec_2f (d : dec) : string :=
  match d with
  | NaN => "nan"
  | Dec h =>
      sign h ++ str_of_Z (Z.abs h / 100) ++ "." ++ fmt02d (Z.abs h mod 100)
  end.

Definition dec_c2f (d : dec) : string :=
  match d with
  | NaN => "nan"
  | Dec h =>
      sign h ++ grouped (Z.abs h / 100) ++ "." ++ fmt02d (Z.abs h mod 100)
  end.

(** Rounding to an integer is to the nearest, ties to even. *)
Definition dec_c0f (d : dec) : string :=
  match d with
  | NaN => "nan"
  | Dec h =>
      let q := Z.abs h / 100 in
      let r := Z.abs h mod 100 in
      let up := (50 <? r) || ((r =? 50) && Z.odd q) in
      sign h ++ grouped (if up then q + 1 else q)
  end.

#[export] Instance dec_float64 : Float64 dec := {
  isna d := match d with NaN => true | Dec _ => false end;
  fmt_2f := dec_2f;
  fmt_c2f := dec_c2f;
  fmt_c0f := dec_c0f;
  nan := NaN;
  isna_nan := eq_refl;
  fmt_2f_nan := eq_refl
}.

End Decimal.

(** ** Sample worlds and inputs *)

Module Samples.
Import Bot Decimal.

(** Wednesday 3 January 2024 is ordinal 738888. *)
Definition wed_1000 : datetime := mk_datetime 738888 10 0 0 0.
Definition wed_1705 : datetime := mk_datetime 738888 17 5 0 0.
Definition sat_1000 : datetime := mk_datetime 738891 10 0 0 0.

Definition two_observations : Series dec :=
  [ (738870, Dec 100); (738880, Dec 200) ].

Definition one_missing : Series dec := [ (738880, NaN) ].

Definition percent_info : Info :=
  <["title" := "Unemployment Rate"]> (<["units" := "Percent"]> ∅).

(** A gateway that answers every key: two observations in the window. *)
Definition calm : World dec := {|
  now_eastern := Ok wed_1000;
  now_utc := mk_datetime 738888 15 0 0 0;
  now_local := wed_1000;
  unix_time := 1704294000;
  get_series_info := fun _ => Ok percent_info;
  get_series := fun _ q =>
    match limit q with
    | Some _ => Ok [ (738000, Dec 500) ]
    | None => Ok two_observations
    end;
  search := fun _ _ => Ok [];
  corrcoef := fun _ => Ok (Dec 100);
  console := fun _ => Ok tt;
  http_get := fun _ _ => Ok (404, Ok "");
  get_channel := fun c => Some c;
  defer := Ok tt;
  edit_original_response := Ok tt
|}.

(** The window holds one observation, and its value is missing. *)
Definition stale : World dec := {|
  now_eastern := Ok wed_1000;
  now_utc := mk_datetime 738888 15 0 0 0;
  now_local := wed_1000;
  unix_time := 1704294000;
  get_series_info := fun _ => Ok percent_info;
  get_series := fun _ q =>
    match limit q with
    | Some _ => Ok [ (738000, Dec 500) ]
    | None => Ok one_missing
    end;
  search := fun _ _ => Ok [];
  corrcoef := fun _ => Ok (Dec 100);
  console := fun _ => Ok tt;
  http_get := fun _ _ => Ok (404, Ok "");
  get_channel := fun c => Some c;
  defer := Ok tt;
  edit_original_response := Ok tt
|}.

(** The gateway is down for two keys. *)
Definition patchy : World dec := {|
  now_eastern := Ok wed_1000;
  now_utc := mk_datetime 738888 15 0 0 0;
  now_local := wed_1000;
  unix_time := 1704294000;
  get_series_info := fun id =>
    if in_list id ["GDP"; "ICSA"] then Raise "Bad Request" else Ok percent_info;
  get_series := fun _ q =>
    match limit q with
    | Some _ => Ok [ (738000, Dec 500) ]
    | None => Ok two_observations
    end;
  search := fun _ _ => Ok [];
  corrcoef := fun _ => Ok (Dec 100);
  console := fun _ => Ok tt;
  http_get := fun _ _ => Ok (404, Ok "");
  get_channel := fun c => Some c;
  defer := Ok tt;
  edit_original_response := Ok tt
|}.

(** The console of a process whose standard output takes ASCII only. *)
Fixpoint has_non_ascii (line : string) : bool :=
  match line with
  | EmptyString => false
  | String c rest => (128 <=? N_of_ascii c)%N || has_non_ascii rest
  end.

Definition ascii_console (line : string) : result unit :=
  if has_non_ascii line
  then Raise "'ascii' codec can't encode character"
  else Ok tt.

(** The gateway is down and its error text holds a dash that is not
    ASCII: the report of the first failure cannot be written; the report
    of the run can. *)
Definition gateway_down : string :=
  "Bad Request " ++ bytes [226; 128; 148]%N ++ " try again".

Definition broken : World dec := {|
  now_eastern := Ok wed_1000;
  now_utc := mk_datetime 738888 15 0 0 0;
  now_local := wed_1000;
  unix_time := 1704294000;
  get_series_info := fun _ => Raise gateway_down;
  get_series := fun _ _ => Raise gateway_down;
  search := fun _ _ => Raise gateway_down;
  corrcoef := fun _ => Ok (Dec 100);
  console := ascii_console;
  http_get := fun _ _ => Raise "Cannot connect to host";
  get_channel := fun c => Some c;
  defer := Ok tt;
  edit_original_response := Ok tt
|}.

Definition old_event : Event :=
  mk_event "2024-01-02" "Unemployment Rate" "UNRATE" "Medium" "3.70%".

(** Two events with a time of day, a quarter of an hour ahead of
    23:46:00 UTC, and a registry with a destination that does not
    resolve. *)
Definition just_after_midnight : Event :=
  mk_event "2024-01-03T00:00:20" "Nonfarm Payroll" "PAYEMS" "High" "1.00".
Definition one_past_midnight : Event :=
  mk_event "2024-01-03T00:01:00" "Retail Sales" "RSXFS" "Medium" "2.00".
Definition afternoon_event : Event :=
  mk_event "2024-01-03T15:14:30" "Retail Sales" "RSXFS" "Medium" "2.00".
Definition later_event : Event :=
  mk_event "2024-01-03T15:20:00" "Housing Starts" "HOUST" "Medium" "2.00".

Definition late_evening : World dec := {|
  now_eastern := Ok wed_1000;
  now_utc := mk_datetime 738887 23 46 0 0;
  now_local := wed_1000;
  unix_time := 1704294000;
  get_series_info := fun _ => Ok percent_info;
  get_series := fun _ _ => Ok two_observations;
  search := fun _ _ => Ok [];
  corrcoef := fun _ => Ok (Dec 100);
  console := fun _ => Ok tt;
  http_get := fun _ _ => Ok (404, Ok "");
  get_channel := fun c => if c =? 2 then None else Some c;
  defer := Ok tt;
  edit_original_response := Ok tt
|}.


End Samples.

(** ** The dispatch of chat messages *)

Module Dispatch.
Import Bot.

(** The whitespace [str.split()] cuts at, on ASCII text. *)
Definition py_isspace (c : ascii) : bool :=
  let n := N_of_ascii c in
  ((9 <=? n)%N && (n <=? 13)%N) || ((28 <=? n)%N && (n <=? 32)%N).

(** [s.split()]: the words between runs of whitespace; [word] is the
    word being read. *)
Fixpoint split_from (word : string) (s : string) : list string :=
  match s with
  | EmptyString =>
      match word with EmptyString => [] | _ => [word] end
  | String c rest =>
      if py_isspace c then
        match word with
        | EmptyString => split_from EmptyString rest
        | _ => word :: split_from EmptyString rest
        end
      else split_from (word ++ String c EmptyString) rest
  end.

Definition split (s : string) : list string := split_from EmptyString s.

(** A text without whitespace, and a text with its whitespace taken
    out. *)
Fixpoint no_space (s : string) : bool :=
  match s with
  | EmptyString => true
  | String c rest => negb (py_isspace c) && no_space rest
  end.

Fixpoint without_space (s : string) : string :=
  match s with
  | EmptyString => EmptyString
  | String c rest =>
      if py_isspace c then without_space rest else String c (without_space rest)
  end.

(** A word: not empty, and without whitespace. *)
Definition is_word (s : string) : Prop := s <> EmptyString /\ no_space s = true.

(** [s[1:]] *)
Definition from_1 (s : string) : string :=
  match s with
  | EmptyString => EmptyString
  | String _ rest => rest
  end.

Definition COMMANDS : list string :=
  [ ";setchannel"; ";removechannel"; ";events"; ";getdata"; ";search";
    ";correlation" ].

Definition USAGE : string :=
  "Invalid command. Use format: ;ticker timeframe (e.g., ;aapl d, ;aapl w, ;aapl m)".

(** The text starts like one of the commands the framework handles. *)
Definition is_command (content : string) : bool :=
  String.prefix ";help" content
  || existsb (fun command => String.prefix command content) COMMANDS.

Section OnMessage.

Context {F : Type} `{Float64 F}.

(** Lines 213-241.  The result tells whether the message is handed to
    the command framework ([bot.process_commands]). *)
Definition on_message (w : World F) (from_bot : bool) (channel : Z)
    (content : string) : Py.io (effect F) bool :=
  if from_bot then ret false
  else if String.prefix ";" content then
    if String.prefix ";help" content then ret true
    else if existsb (fun command => String.prefix command content) COMMANDS
    then ret true
    else
      let parts := split (from_1 content) in
      match parts with
      | [ticker; timeframe] =>
          run send_chart w channel ticker timeframe in ret false
      | _ =>
          run emit (Deliver (ChannelSend channel) (text USAGE)) in ret false
      end
  else ret true.

End OnMessage.

End Dispatch.

(** ** Shapes of caches, replies and ticks *)

Module Shapes.
Import Bot.

(** An event made from an entry of the catalog. *)
Definition from_catalog (ev : Event) : Prop :=
  In (series_id ev, title ev) ECONOMIC_INDICATORS /\
  impact ev = impact_of (series_id ev).

Definition entry_of (ev : Event) : string * string := (series_id ev, title ev).

Definition is_high (ev : Event) : bool := String.eqb (impact ev) "High".

(** The field of a high-impact event under a date, and the line of
    another event. *)
Definition high_field (date_str : string) (ev : Event) : field :=
  mk_field date_str
    ("**" ++ title ev ++ "**" ++ LF ++ CORNER ++ " Previous: " ++ previous ev)
    false.

Definition other_line (ev : Event) : string :=
  "**" ++ title ev ++ "** (" ++ previous ev ++ ")" ++ LF.

Definition other_group (date_str : string) (others : list Event) : list field :=
  match others with
  | [] => []
  | _ => [ mk_field date_str (String.concat "" (map other_line others)) false ]
  end.

Definition high_embed (high_fields : list field) : Embed :=
  mk_embed (RED_DOT ++ " High Impact Economic Releases") None 16711680
    high_fields None.

Definition other_embed (other_fields : list field) : Embed :=
  mk_embed (YELLOW_DOT ++ " Other Economic Releases") None 16766720
    other_fields None.

(** The order of two events by their time texts. *)
Definition time_le (a b : Event) : Prop := String.leb (time a) (time b) = true.

(** A time has a time of day for the notifier when its hour or its
    minute is not zero. *)
Definition has_time_of_day (t : datetime) : Prop :=
  ~ (hour t = 0 /\ minute t = 0).

(** The time of the [k]-th later tick of a loop that runs every minute. *)
Definition tick_after (now0 now : datetime) (k : Z) : Prop :=
  to_us now = to_us now0 + k * minutes 1.

(** The notices of an event: one for each channel the registry
    resolves to. *)
Definition notices {F : Type} (w : World F) (CH : gset Z) (event : Event)
    (t : datetime) : list (effect F) :=
  map (fun channel => Deliver (ChannelSend channel) (notification event t))
    (resolve w (elements CH)).

(** A notice to a channel that a registered destination resolves to. *)
Definition to_registered {F : Type} (w : World F) (CH : gset Z)
    (ev : effect F) : Prop :=
  exists id channel m,
    ev = Deliver (ChannelSend channel) m /\ id ∈ CH /\
    get_channel w id = Some channel.

(** [bot.get_channel] returns the channel of the identifier it is
    given, when it returns one. *)
Definition resolves_by_id {F : Type} (w : World F) : Prop :=
  forall id channel, get_channel w id = Some channel -> channel = id.

(** A series is all missing values. *)
Definition all_missing {F : Type} `{Float64 F} (series : Series F) : Prop :=
  Forall (fun obs => isna (snd obs) = true) series.

(** A message that carries a file shows it: the image of its embed is
    the attachment of that name. *)
Definition chart_file_matches (m : message) : Prop :=
  match file m with
  | None => True
  | Some f =>
      match embed m with
      | Some e => image e = Some ("attachment://" ++ filename f)
      | None => False
      end
  end.

(** A text that no version of the library reads as a date: it does not
    start with a decimal digit. *)
Definition unreadable (s : string) : Prop :=
  match s with
  | EmptyString => True
  | String c _ => Py.digit_val c = None
  end.

(** The records of a cache whose time texts are read. *)
Definition readable (events : list Event) : Prop :=
  Forall (fun event => exists t, fromisoformat (time event) = Py.Ok t) events.

(** The event is due at [now]: its time is read, its hour or its minute
    is not zero, and it is 14 to 15 minutes ahead, bounds included. *)
Definition due (now : datetime) (event : Event) : bool :=
  match fromisoformat (time event) with
  | Py.Ok t =>
      negb ((hour t =? 0) && (minute t =? 0))
      && (minutes 14 <=? to_us t - to_us now)
      && (to_us t - to_us now <=? minutes 15)
  | Py.Raise _ => false
  end.

(** The messages a tick owes an event, in some order: its notices. *)
Definition owed {F : Type} (w : World F) (CH : gset Z) (event : Event)
    (chunk : list (effect F)) : Prop :=
  exists t, fromisoformat (time event) = Py.Ok t /\
            chunk ≡ₚ notices w CH event t.

(** A tick over [cache] notifies every registered destination that
    resolves to a channel of [event]. *)
Definition notified {F : Type} `{Float64 F} (w : World F) (CH : gset Z)
    (cache : list Event) (event : Event) (t : datetime) : Prop :=
  forall id channel,
    id ∈ CH -> get_channel w id = Some channel ->
    In (channel, notification event t)
      (channel_messages (Py.trace (check_events w cache CH))).





(** The embed of the correlation command, around a rendered
    coefficient. *)
Definition correlation_embed (series1 series2 : string) (days : Z)
    (shown : string) : Embed :=
  mk_embed (BAR_CHART ++ " Correlation Analysis (" ++ Py.str_of_Z days ++ " days)")
    (Some ("Correlation between " ++ series1 ++ " and " ++ series2))
    65280
    [ mk_field "Correlation Coefficient" shown true ]
    None.


(** A run answers on a route: it returns normally and hands the chat
    platform exactly one message, on that route. *)
Definition answers {F : Type} (r : route) (p : Py.io (effect F) unit) : Prop :=
  Py.outcome p = Py.Ok tt /\
  exists m, List.filter is_deliver (Py.trace p) = [ Deliver r m ].

(** The requests to the data gateway in a trace. *)
Definition is_gateway {F : Type} (ev : effect F) : bool :=
  match ev with
  | FredInfo _ | FredSeries _ _ | FredSearch _ _ => true
  | _ => false
  end.

(** What a refresh may do: write a line on the console, or ask the
    gateway about a series whose key is in [keys]. *)
Definition refresh_step {F : Type} (keys : list string) (ev : effect F) : Prop :=
  match ev with
  | Printed _ => True
  | FredInfo id | FredSeries id _ => In id keys
  | _ => False
  end.

End Shapes.

(** ** More sample worlds *)

Module Scenes.
Import Bot Decimal Samples.

(** An event whose time text is not an ISO date. *)
Definition garbled : Event :=
  mk_event "tomorrow" "Retail Sales" "RSXFS" "Medium" "2.00".

(** The chart site answers with an image. *)
Definition online : World dec := {|
  now_eastern := Ok wed_1000;
  now_utc := mk_datetime 738888 15 0 0 0;
  now_local := wed_1000;
  unix_time := 1704294000;
  get_series_info := fun _ => Ok percent_info;
  get_series := fun _ _ =>
    Ok [ (738870, Dec 100); (738880, Dec 200); (738881, NaN) ];
  search := fun _ _ =>
    Ok [ ("DCOILWTICO",
          mk_row "Crude Oil Prices: West Texas Intermediate (WTI) - Cushing, Oklahoma"
            "Daily, Close" "Dollars per Barrel") ];
  corrcoef := fun _ => Ok (Dec 100);
  console := fun _ => Ok tt;
  http_get := fun _ _ => Ok (200, Ok "PNG");
  get_channel := fun c => Some c;
  defer := Ok tt;
  edit_original_response := Ok tt
|}.


(** The two series share one date only. *)
Definition sparse : World dec := {|
  now_eastern := Ok wed_1000;
  now_utc := mk_datetime 738888 15 0 0 0;
  now_local := wed_1000;
  unix_time := 1704294000;
  get_series_info := fun _ => Ok percent_info;
  get_series := fun id _ =>
    if String.eqb id "VIXCLS"
    then Ok [ (738870, Dec 100); (738880, Dec 200) ]
    else Ok [ (738880, Dec 300); (738881, Dec 400) ];
  search := fun _ _ => Ok [];
  corrcoef := fun _ => Ok (Dec 100);
  console := fun _ => Ok tt;
  http_get := fun _ _ => Ok (404, Ok "");
  get_channel := fun c => Some c;
  defer := Ok tt;
  edit_original_response := Ok tt
|}.

(** The interaction has expired: deferring raises; and: the chart is
    sent but the response cannot be edited. *)
Definition expired : World dec := {|
  now_eastern := Ok wed_1000;
  now_utc := mk_datetime 738888 15 0 0 0;
  now_local := wed_1000;
  unix_time := 1704294000;
  get_series_info := fun _ => Ok percent_info;
  get_series := fun _ _ => Ok two_observations;
  search := fun _ _ => Ok [];
  corrcoef := fun _ => Ok (Dec 100);
  console := fun _ => Ok tt;
  http_get := fun _ _ => Ok (200, Ok "PNG");
  get_channel := fun c => Some c;
  defer := Raise "Unknown interaction";
  edit_original_response := Ok tt
|}.

Definition no_edit : World dec := {|
  now_eastern := Ok wed_1000;
  now_utc := mk_datetime 738888 15 0 0 0;
  now_local := wed_1000;
  unix_time := 1704294000;
  get_series_info := fun _ => Ok percent_info;
  get_series := fun _ _ => Ok two_observations;
  search := fun _ _ => Ok [];
  corrcoef := fun _ => Ok (Dec 100);
  console := fun _ => Ok tt;
  http_get := fun _ _ => Ok (200, Ok "PNG");
  get_channel := fun c => Some c;
  defer := Ok tt;
  edit_original_response := Raise "Unknown Webhook"
|}.

(** An event with a fraction of a second and an offset in its time
    text. *)
Definition with_offset : Event :=
  mk_event "2024-01-03T15:14:30.500000+05:30" "Retail Sales" "RSXFS" "Medium"
    "2.00".

Definition mixed_cache : list Event :=
  [ mk_event "2024-01-03" "Nonfarm Payroll" "PAYEMS" "High" "1.00";
    mk_event "2024-01-03" "Retail Sales" "RSXFS" "Medium" "2.00";
    mk_event "2024-01-03" "Housing Starts" "HOUST" "Medium" "3.00" ].

End Scenes.

(** * Properties *)

Import Bot Decimal Samples.
Import Dispatch Shapes Scenes.

(** ** The next applicable date *)

Section ReleaseDate.

Lemma skip_weekend_unfold (d : datetime) :
  skip_weekend d =
  if 5 <=? weekday (ordinal d) then
    match datetime_add_days d 1 with
    | Ok d' => skip_weekend d'
    | Raise e => Raise e
    end
  else Ok d.
Proof.
  funelim (skip_weekend d);
    repeat match goal with
           | E : (5 <=? _) = _ |- _ => progress rewrite E
           | E : datetime_add_days _ _ = _ |- _ => progress rewrite E
           end; reflexivity.
Qed.

(** The loop stops on a weekday. *)
Lemma skip_weekend_weekday (d d' : datetime) :
  skip_weekend d = Ok d' -> weekday (ordinal d') < 5.
Proof.
  funelim (skip_weekend d); intros E.
  - injection E as <-. apply Z.leb_gt. assumption.
  - auto.
  - discriminate.
Qed.

Lemma datetime_add_days_ok (d d' : datetime) (n : Z) :
  datetime_add_days d n = Ok d' ->
  ordinal d' = ordinal d + n /\ 1 <= ordinal d' <= MAXORDINAL.
Proof.
  unfold datetime_add_days, add_days.
  destruct (Z.leb_spec 1 (ordinal d + n)); [|discriminate].
  destruct (Z.leb_spec (ordinal d + n) MAXORDINAL); [|discriminate].
  simpl. intros [= <-]. simpl. lia.
Qed.

(** The loop moves forward, and stays within the dates a [datetime]
    holds. *)
Lemma skip_weekend_range (d d' : datetime) :
  skip_weekend d = Ok d' ->
  1 <= ordinal d <= MAXORDINAL ->
  ordinal d <= ordinal d' <= MAXORDINAL.
Proof.
  funelim (skip_weekend d); intros E Hr.
  - injection E as <-. lia.
  - pose proof (datetime_add_days_ok _ _ _ Hadd) as [Ho Hb].
    specialize (H _ E Hb). lia.
  - discriminate.
Qed.

(** A Saturday is moved to the Monday that follows. *)
Lemma skip_weekend_saturday (d : datetime) :
  weekday (ordinal d) = 5 -> 1 <= ordinal d -> ordinal d + 2 <= MAXORDINAL ->
  skip_weekend d =
  Ok (mk_datetime (ordinal d + 2) (hour d) (minute d) (second d) (microsecond d)).
Proof.
  intros Hw Hmin Hmax.
  rewrite skip_weekend_unfold, Hw. simpl.
  unfold datetime_add_days, add_days.
  destruct (Z.leb_spec 1 (ordinal d + 1)); [|lia].
  destruct (Z.leb_spec (ordinal d + 1) MAXORDINAL); [|lia]. simpl.
  rewrite skip_weekend_unfold. simpl.
  assert (weekday (ordinal d + 1) = 6) as ->.
  { unfold weekday in *. Z.to_euclidean_division_equations; lia. }
  simpl. unfold datetime_add_days, add_days. simpl.
  destruct (Z.leb_spec 1 (ordinal d + 1 + 1)); [|lia].
  destruct (Z.leb_spec (ordinal d + 1 + 1) MAXORDINAL); [|lia]. simpl.
  rewrite skip_weekend_unfold. simpl.
  assert (weekday (ordinal d + 1 + 1) = 0) as ->.
  { unfold weekday in *. Z.to_euclidean_division_equations; lia. }
  simpl. do 2 f_equal. lia.
Qed.

(** Before 16:00, and in the second half of every later hour, the date
    of the program is the date of the specification. *)
Lemma release_date_agrees (now : datetime) :
  0 <= minute now < 60 ->
  hour now < 16 \/ 30 <= minute now ->
  release_date now = next_applicable_date now.
Proof.
  intros Hm Hc. unfold release_date, next_applicable_date, at_or_after_cutoff.
  replace ((16 <=? hour now) && (30 <=? minute now))
    with (16 * 60 + 30 <=? hour now * 60 + minute now); [reflexivity|].
  destruct (Z.leb_spec 16 (hour now)), (Z.leb_spec 30 (minute now)),
    (Z.leb_spec (16 * 60 + 30) (hour now * 60 + minute now)); simpl; lia.
Qed.

(** In the first half of an hour from 17:00 on, the program keeps the
    date of [now] where the specification moves to the next day. *)
Lemma release_date_keeps_today (now : datetime) :
  17 <= hour now -> 0 <= minute now < 30 ->
  weekday (ordinal now) < 5 ->
  release_date now = Ok (ordinal now) /\ at_or_after_cutoff now = true.
Proof.
  intros Hh Hm Hw. unfold release_date, at_or_after_cutoff.
  destruct (Z.leb_spec 30 (minute now)); [lia|].
  rewrite andb_false_r, skip_weekend_unfold.
  destruct (Z.leb_spec 5 (weekday (ordinal now))); [lia|].
  split; [reflexivity | apply Z.leb_le; lia].
Qed.

(** From a Saturday morning the date of the run is the Monday that
    follows. *)
Lemma release_date_saturday (now : datetime) :
  weekday (ordinal now) = 5 -> hour now < 16 ->
  1 <= ordinal now -> ordinal now + 2 <= MAXORDINAL ->
  release_date now = Ok (ordinal now + 2) /\ weekday (ordinal now + 2) = 0.
Proof.
  intros Hw Hh Hmin Hmax. unfold release_date.
  destruct (Z.leb_spec 16 (hour now)); [lia|]. cbn [andb].
  rewrite skip_weekend_saturday by assumption. split; [reflexivity|].
  unfold weekday in *. Z.to_euclidean_division_equations; lia.
Qed.

Example release_date_sat_1000 : release_date sat_1000 = Ok 738893.
Proof. reflexivity. Qed.

(** The date of a run lies within the dates a [datetime] holds. *)
Lemma release_date_range (now : datetime) (release : Z) :
  1 <= ordinal now <= MAXORDINAL ->
  release_date now = Ok release ->
  1 <= release <= MAXORDINAL.
Proof.
  intros Hr. unfold release_date.
  destruct ((16 <=? hour now) && (30 <=? minute now)).
  - unfold datetime_add_days, add_days.
    destruct (Z.leb_spec 1 (ordinal now + 1)); [|discriminate].
    destruct (Z.leb_spec (ordinal now + 1) MAXORDINAL); [|discriminate]. simpl.
    destruct (skip_weekend _) as [d'|] eqn:E; [|discriminate].
    intros [= <-]. apply skip_weekend_range in E; simpl in *; lia.
  - destruct (skip_weekend now) as [d'|] eqn:E; [|discriminate].
    intros [= <-]. apply skip_weekend_range in E; lia.
Qed.

(** C2, at the failing input.  On Wednesday 3 January 2024 at 17:05 the
    time is past the 16:30 cut-off, so the next applicable date is
    Thursday 4 January; the program files the events under Wednesday,
    because it asks for an hour of at least 16 and a minute of at least
    30. *)
Theorem release_date_at_1705 :
  at_or_after_cutoff wed_1705 = true /\
  release_date wed_1705 = Ok 738888 /\
  next_applicable_date wed_1705 = Ok 738889.
Proof. repeat split; reflexivity. Qed.

End ReleaseDate.

(** ** The value formatter *)

Section Formatter.

Context {F : Type} `{Float64 F}.

Lemma formatted_value_none (key : string) (info : Info) :
  formatted_value key None info = "N/A".
Proof. reflexivity. Qed.

Lemma formatted_value_missing (key : string) (v : F) (info : Info) :
  isna v = true -> formatted_value key (Some v) info = "N/A".
Proof. intros E. unfold formatted_value. rewrite E. reflexivity. Qed.

(** For every key other than the gold-price key, every value and every
    unit text, the display string of the program is the one the first
    applicable rule of the ladder gives. *)
Lemma formatted_value_ladder (key : string) (value : option F) (info : Info) :
  key <> "GOLDPMGBD228NLBM" ->
  formatted_value key value info
  = value_formatter key value (default "" (info !! "units")).
Proof.
  intros Hkey. unfold formatted_value, value_formatter.
  destruct value as [v|]; [|reflexivity].
  destruct (isna v); simpl; [reflexivity|].
  destruct (String.eqb_spec key "GOLDPMGBD228NLBM") as [->|_]; [contradiction|].
  repeat match goal with
         | |- context [if ?b then _ else _] => destruct b
         end; reflexivity.
Qed.

(** The gold-price key is not in the catalog: on the keys the refresh
    job formats, the ladder describes the program. *)
Lemma catalog_has_no_gold :
  Forall (fun entry => fst entry <> "GOLDPMGBD228NLBM") ECONOMIC_INDICATORS.
Proof. repeat constructor; discriminate. Qed.

(** C7.  The formatter is the inline code of the loop over the catalog,
    so its inputs are the keys of the catalog with any value and any
    metadata.  On every such input the display string is the one the
    first applicable rule of the ladder gives: percentage keys, the oil
    key, units in billions of dollars, units in millions of dollars,
    the jobless-claims key, the volatility key, and the grouped
    two-decimal form otherwise.  An absent value, and a value that is
    missing, gives "N/A".  The string is a function of the key, the
    value and the unit text. *)
Theorem formatted_value_catalog (key : string) (value : option F)
    (info : Info) :
  In key (map fst ECONOMIC_INDICATORS) ->
  formatted_value key value info
  = value_formatter key value (default "" (info !! "units")) /\
  (forall info',
     info' !! "units" = info !! "units" ->
     formatted_value key value info' = formatted_value key value info) /\
  (value = None \/ (exists v, value = Some v /\ isna v = true) ->
   formatted_value key value info = "N/A").
Proof.
  intros Hin.
  assert (key <> "GOLDPMGBD228NLBM") as Hkey.
  { apply in_map_iff in Hin. destruct Hin as ([k label] & <- & Hin).
    pose proof catalog_has_no_gold as Hall.
    rewrite List.Forall_forall in Hall. exact (Hall _ Hin). }
  split; [apply formatted_value_ladder; exact Hkey|]. split.
  - intros info' Hunits. rewrite !formatted_value_ladder by exact Hkey.
    rewrite Hunits. reflexivity.
  - intros [-> | (v & -> & Hv)];
      [apply formatted_value_none | apply formatted_value_missing; exact Hv].
Qed.

(** The selection of lines 120-124 takes the first value that is not
    missing. *)
Lemma first_notna_head (d : Z) (v : F) (rest : Series F) :
  isna v = false -> first_notna ((d, v) :: rest) = Some v.
Proof. intros E. simpl. rewrite E. reflexivity. Qed.

Lemma first_notna_skip (d : Z) (v : F) (rest : Series F) :
  isna v = true -> first_notna ((d, v) :: rest) = first_notna rest.
Proof. intros E. simpl. rewrite E. reflexivity. Qed.

End Formatter.

Lemma formatted_value_catalog_witness :
  formatted_value "UNRATE" (Some (Dec 370)) percent_info = "3.70%" /\
  formatted_value "ICSA" (Some (Dec 21150050)) percent_info = "211,500" /\
  formatted_value "GDP" None percent_info = "N/A".
Proof.
  destruct (formatted_value_catalog "UNRATE" (Some (Dec 370)) percent_info)
    as (Hu & _); [vm_compute; tauto|].
  destruct (formatted_value_catalog "ICSA" (Some (Dec 21150050)) percent_info)
    as (Hi & _); [vm_compute; tauto|].
  destruct (formatted_value_catalog "GDP" None percent_info)
    as (_ & _ & Hg); [vm_compute; tauto|].
  split; [rewrite Hu; vm_compute; reflexivity|].
  split; [rewrite Hi; vm_compute; reflexivity|].
  apply Hg. left. reflexivity.
Defined.

(** The program has one more rule, for the gold-price key, between the
    oil rule and the rule for billions of dollars.  The key is not in
    the catalog, so the rule is never taken. *)
Lemma formatted_value_gold :
  formatted_value "GOLDPMGBD228NLBM" (Some (Dec 123450)) percent_info
    = "$1234.50/oz" /\
  value_formatter "GOLDPMGBD228NLBM" (Some (Dec 123450))
      (default "" (percent_info !! "units"))
    = "1,234.50" /\
  formatted_value "GOLDPMGBD228NLBM" (Some (Dec 123450)) percent_info
    <> value_formatter "GOLDPMGBD228NLBM" (Some (Dec 123450))
         (default "" (percent_info !! "units")).
Proof. repeat split; vm_compute; congruence. Qed.

(** ** The selection of the previous value *)

(** C3, at two failing inputs.  With two observations in the window, in
    the ascending order of the gateway, the most recent value is the
    second one, 2.00; the program displays the first one, 1.00.  With a
    window whose only observation is missing, the latest known value is
    5.00; the program asks for nothing more (the window is not empty)
    and displays "N/A". *)
Theorem previous_value_is_first_not_latest :
  (most_recent_notna two_observations = Some (Dec 200) /\
   first_notna two_observations = Some (Dec 100) /\
   outcome (fetch_indicator calm wed_1000 738888 "CPIAUCSL"
              "Consumer Price Index (CPI)")
   = Ok (mk_event "2024-01-03" "Consumer Price Index (CPI)" "CPIAUCSL"
           "High" "1.00")) /\
  (selected_value one_missing [ (738000, Dec 500) ] = Some (Dec 500) /\
   fetch_indicator stale wed_1000 738888 "CPIAUCSL"
     "Consumer Price Index (CPI)"
   = ([ FredInfo "CPIAUCSL";
        FredSeries "CPIAUCSL"
          (mk_query (Some (BoundStr "2023-12-04"))
                    (Some (BoundStr "2024-01-03")) None) ],
      Ok (mk_event "2024-01-03" "Consumer Price Index (CPI)" "CPIAUCSL"
            "High" "N/A"))).
Proof. repeat split; vm_compute; reflexivity. Qed.

(** ** Traces and outcomes of composed computations *)

Section Composition.

Context {E A B : Type}.

Lemma outcome_bind_ok (m : io E A) (f : A -> io E B) (a : A) :
  outcome m = Ok a -> outcome (bind m f) = outcome (f a).
Proof.
  destruct m as [t r]. simpl. intros ->. simpl. destruct (f a). reflexivity.
Qed.

Lemma outcome_bind_raise (m : io E A) (f : A -> io E B) (e : string) :
  outcome m = Raise e -> outcome (bind m f) = Raise e.
Proof. destruct m as [t r]. simpl. intros ->. reflexivity. Qed.

Lemma trace_bind_ok (m : io E A) (f : A -> io E B) (a : A) :
  outcome m = Ok a -> trace (bind m f) = (trace m ++ trace (f a))%list.
Proof.
  destruct m as [t r]. simpl. intros ->. simpl. destruct (f a). reflexivity.
Qed.

Lemma trace_bind_raise (m : io E A) (f : A -> io E B) (e : string) :
  outcome m = Raise e -> trace (bind m f) = trace m.
Proof. destruct m as [t r]. simpl. intros ->. reflexivity. Qed.

Lemma outcome_try_ok (m : io E A) (h : string -> io E A) (a : A) :
  outcome m = Ok a -> outcome (try_except m h) = Ok a.
Proof. destruct m as [t r]. simpl. intros ->. reflexivity. Qed.

Lemma outcome_try_raise (m : io E A) (h : string -> io E A) (e : string) :
  outcome m = Raise e -> outcome (try_except m h) = outcome (h e).
Proof.
  destruct m as [t r]. simpl. intros ->. simpl. destruct (h e). reflexivity.
Qed.

Lemma trace_try_ok (m : io E A) (h : string -> io E A) (a : A) :
  outcome m = Ok a -> trace (try_except m h) = trace m.
Proof. destruct m as [t r]. simpl. intros ->. reflexivity. Qed.

Lemma trace_try_raise (m : io E A) (h : string -> io E A) (e : string) :
  outcome m = Raise e ->
  trace (try_except m h) = (trace m ++ trace (h e))%list.
Proof.
  destruct m as [t r]. simpl. intros ->. simpl. destruct (h e). reflexivity.
Qed.

(** A property of the events of a computation holds of a composition
    when it holds of the parts. *)
Lemma Forall_trace_bind (P : E -> Prop) (m : io E A) (f : A -> io E B) :
  Forall P (trace m) -> (forall a, Forall P (trace (f a))) ->
  Forall P (trace (bind m f)).
Proof.
  intros Hm Hf. destruct (outcome m) as [a|e] eqn:Eo.
  - rewrite (trace_bind_ok _ _ _ Eo). apply Forall_app; auto.
  - rewrite (trace_bind_raise _ _ _ Eo). assumption.
Qed.

Lemma Forall_trace_try (P : E -> Prop) (m : io E A) (h : string -> io E A) :
  Forall P (trace m) -> (forall e, Forall P (trace (h e))) ->
  Forall P (trace (try_except m h)).
Proof.
  intros Hm Hh. destruct (outcome m) as [a|e] eqn:Eo.
  - rewrite (trace_try_ok _ _ _ Eo). assumption.
  - rewrite (trace_try_raise _ _ _ Eo). apply Forall_app; auto.
Qed.

End Composition.

Lemma Forall_trace_lift {E A : Type} (P : E -> Prop) (r : result A) :
  Forall P (trace (lift (E:=E) r)).
Proof. constructor. Qed.

Lemma Forall_trace_ret {E A : Type} (P : E -> Prop) (a : A) :
  Forall P (trace (ret (E:=E) a)).
Proof. constructor. Qed.

Lemma Forall_trace_emit {E : Type} (P : E -> Prop) (ev : E) :
  P ev -> Forall P (trace (emit ev)).
Proof. intros Hp. repeat constructor. assumption. Qed.

(** ** The refresh job *)

Section Refresh.

Context {F : Type} `{Float64 F}.

Lemma silent_delivered (t : list (effect F)) :
  Forall silent t -> delivered t = [].
Proof.
  induction 1 as [|ev t Hev _ IH]; [reflexivity|].
  unfold delivered in *. simpl. rewrite IH.
  destruct ev; try reflexivity. discriminate.
Qed.

Lemma py_print_silent (w : World F) (line : string) :
  Forall silent (trace (py_print w line)).
Proof.
  unfold py_print. destruct (console w line); repeat constructor.
Qed.

Lemma fetch_indicator_silent (w : World F) now release id desc :
  Forall silent (trace (fetch_indicator w now release id desc)).
Proof.
  unfold fetch_indicator, fred_get_series_info, fred_get_series.
  repeat first
    [ apply Forall_trace_bind; [|intros ?]
    | apply Forall_trace_lift
    | apply Forall_trace_ret
    | apply Forall_trace_emit; reflexivity
    | match goal with |- context [if ?b then _ else _] => destruct b end ].
Qed.

Lemma indicators_loop_silent (w : World F) now release catalog events :
  Forall silent (trace (indicators_loop w now release catalog events)).
Proof.
  revert events. induction catalog as [|[id desc] rest IH]; intros events.
  - constructor.
  - simpl. apply Forall_trace_bind; [|intros ?; apply IH].
    apply Forall_trace_try.
    + apply Forall_trace_bind; [apply fetch_indicator_silent|].
      intros ?. apply Forall_trace_ret.
    + intros e. apply Forall_trace_bind; [apply py_print_silent|].
      intros ?. apply Forall_trace_ret.
Qed.

Lemma fetch_economic_events_unfold (w : World F) :
  fetch_economic_events w =
  bind (lift (now_eastern w)) (fun now =>
  bind (lift (release_date now)) (fun release =>
  try_except (guarded_run w now release)
    (fun e =>
       run py_print w ("Error fetching economic events: " ++ e) in ret []))).
Proof. reflexivity. Qed.

Lemma fetch_economic_events_silent (w : World F) :
  Forall silent (trace (fetch_economic_events w)).
Proof.
  rewrite fetch_economic_events_unfold.
  apply Forall_trace_bind; [apply Forall_trace_lift|]. intros now.
  apply Forall_trace_bind; [apply Forall_trace_lift|]. intros release.
  apply Forall_trace_try.
  - unfold guarded_run. apply Forall_trace_bind; [apply indicators_loop_silent|].
    intros ?. apply Forall_trace_ret.
  - intros e. apply Forall_trace_bind; [apply py_print_silent|].
    intros ?. apply Forall_trace_ret.
Qed.

(** Whatever a refresh does, no message reaches the chat. *)
Lemma update_daily_events_silent (w : World F) (daily_events : list Event) :
  delivered (fst (update_daily_events w daily_events)) = [].
Proof.
  apply silent_delivered. unfold update_daily_events.
  pose proof (fetch_economic_events_silent w) as Hs.
  destruct (fetch_economic_events w) as [t [events|e]]; exact Hs.
Qed.

(** If the fetch raises, the cache keeps its list. *)
Lemma escaped_run_keeps_cache (w : World F) (daily_events : list Event)
    (e : string) :
  outcome (fetch_economic_events w) = Raise e ->
  snd (update_daily_events w daily_events) = daily_events.
Proof.
  unfold update_daily_events.
  destruct (fetch_economic_events w) as [t [events|e']]; simpl;
    [discriminate | reflexivity].
Qed.

(** The guard catches the exception of a run and returns the empty
    list, if the report of the failure can be written. *)
Lemma caught_run_returns_empty (w : World F) now release (e : string) :
  now_eastern w = Ok now -> release_date now = Ok release ->
  outcome (guarded_run w now release) = Raise e ->
  console w ("Error fetching economic events: " ++ e) = Ok tt ->
  outcome (fetch_economic_events w) = Ok [].
Proof.
  intros Hnow Hrel Hrun Hlog. rewrite fetch_economic_events_unfold.
  rewrite (outcome_bind_ok _ _ now) by (simpl; assumption).
  rewrite (outcome_bind_ok _ _ release) by (simpl; assumption).
  rewrite (outcome_try_raise _ _ e) by assumption.
  unfold py_print. rewrite Hlog. reflexivity.
Qed.

(** C1, as amended.  If the guarded part of a refresh run raises,
    whether or not an indicator was completed, and the report of the
    failure is written to the console, the run returns the empty list
    and the cache is replaced by the empty list: the previous list is
    not retained.  Nothing is sent to the chat. *)
Theorem failed_run_empties_cache (w : World F) (daily_events : list Event)
    (now : datetime) (release : Z) (e : string) :
  now_eastern w = Ok now ->
  release_date now = Ok release ->
  outcome (guarded_run w now release) = Raise e ->
  console w ("Error fetching economic events: " ++ e) = Ok tt ->
  snd (update_daily_events w daily_events) = [] /\
  delivered (fst (update_daily_events w daily_events)) = [].
Proof.
  intros Hnow Hrel Hrun Hlog. split; [|apply update_daily_events_silent].
  pose proof (caught_run_returns_empty w now release e Hnow Hrel Hrun Hlog) as Ho.
  unfold update_daily_events.
  destruct (fetch_economic_events w) as [t [events|e']]; simpl in *;
    congruence.
Qed.

End Refresh.

Lemma failed_run_empties_cache_witness :
  now_eastern broken = Ok wed_1000 /\
  release_date wed_1000 = Ok 738888 /\
  outcome (guarded_run broken wed_1000 738888)
    = Raise "'ascii' codec can't encode character" /\
  snd (update_daily_events broken [old_event]) = [] /\
  delivered (fst (update_daily_events broken [old_event])) = [].
Proof.
  split; [reflexivity|]. split; [reflexivity|]. split; [reflexivity|].
  apply (failed_run_empties_cache broken [old_event] wed_1000 738888
           "'ascii' codec can't encode character"); reflexivity.
Defined.

(** C1 as stated fails.  The gateway is down and the report of the
    first failure cannot be written: the guarded part raises before any
    indicator is completed.  The cache held one event; after the run it
    is empty. *)
Lemma failed_run_loses_cache :
  guarded_run broken wed_1000 738888
    = ([ FredInfo "CPIAUCSL" ], Raise "'ascii' codec can't encode character") /\
  update_daily_events broken [old_event]
    = ([ FredInfo "CPIAUCSL";
         Printed "Error fetching economic events: 'ascii' codec can't encode character" ],
       []) /\
  snd (update_daily_events broken [old_event]) <> [old_event].
Proof. repeat split; vm_compute; congruence. Qed.

(** ** Partial results of a refresh *)

Section Partial.

Context {F : Type} `{Float64 F}.

Lemma leb_same (s : string) : String.leb s s = true.
Proof. destruct (String.leb_total s s); assumption. Qed.

(** Sorting a list whose events carry one and the same date leaves it
    as it is. *)
Lemma sorted_by_time_same_date (t : string) (events : list Event) :
  Forall (fun ev => time ev = t) events -> sorted_by_time events = events.
Proof.
  induction 1 as [|ev rest Hev Hrest IH]; [reflexivity|].
  unfold sorted_by_time in *. simpl. rewrite IH.
  destruct Hrest as [|ev' rest' Hev' _]; [reflexivity|].
  simpl. rewrite Hev, Hev', leb_same. reflexivity.
Qed.











End Partial.



(** ** The calendar *)

Section CalendarFacts.

Lemma digit_val_digit (d : Z) : 0 <= d < 10 -> digit_val (digit d) = Some d.
Proof.
  intros Hd.
  assert (d = 0 \/ d = 1 \/ d = 2 \/ d = 3 \/ d = 4 \/ d = 5 \/ d = 6 \/
          d = 7 \/ d = 8 \/ d = 9) as Hc by lia.
  repeat destruct Hc as [-> | Hc]; try subst d; reflexivity.
Qed.

Lemma int2_digits (x : Z) :
  0 <= x < 100 -> int2 (digit (x / 10)) (digit (x mod 10)) = Some x.
Proof.
  intros Hx. unfold int2.
  rewrite !digit_val_digit by (Z.to_euclidean_division_equations; lia).
  f_equal. Z.to_euclidean_division_equations; lia.
Qed.

Lemma int4_digits (x : Z) :
  0 <= x < 10000 ->
  int4 (digit (x / 1000)) (digit (x / 100 mod 10))
       (digit (x / 10 mod 10)) (digit (x mod 10)) = Some x.
Proof.
  intros Hx. unfold int4, int2.
  rewrite !digit_val_digit by (Z.to_euclidean_division_equations; lia).
  f_equal. Z.to_euclidean_division_equations; lia.
Qed.

Lemma append_cons (c : ascii) (s t : string) :
  String c s ++ t = String c (s ++ t).
Proof. reflexivity. Qed.

Lemma append_empty (t : string) : "" ++ t = t.
Proof. reflexivity. Qed.

(** Parsing the text of a date gives midnight of that date. *)
Lemma fromisoformat_date (y m d : Z) :
  1 <= y <= 9999 -> 1 <= m <= 12 -> 1 <= d <= days_in_month y m ->
  fromisoformat (fmt04d y ++ "-" ++ fmt02d m ++ "-" ++ fmt02d d)
  = Ok (mk_datetime (ymd2ord y m d) 0 0 0 0).
Proof.
  intros Hy Hm Hd.
  assert (d <= 31) as Hd31.
  { unfold days_in_month, DAYS_IN_MONTH in Hd.
    destruct ((m =? 2) && is_leap y); [lia|].
    assert (m = 1 \/ m = 2 \/ m = 3 \/ m = 4 \/ m = 5 \/ m = 6 \/ m = 7 \/
            m = 8 \/ m = 9 \/ m = 10 \/ m = 11 \/ m = 12) as Hc by lia.
    repeat destruct Hc as [-> | Hc]; try subst m; lia. }
  unfold fmt04d, fmt02d.
  destruct (Z.leb_spec 0 y); [|lia]. destruct (Z.ltb_spec y 10000); [|lia].
  destruct (Z.leb_spec 0 m); [|lia]. destruct (Z.ltb_spec m 100); [|lia].
  destruct (Z.leb_spec 0 d); [|lia]. destruct (Z.ltb_spec d 100); [|lia].
  cbn [andb]. repeat (rewrite append_cons || rewrite append_empty).
  unfold fromisoformat. cbv beta iota zeta.
  rewrite int4_digits, !int2_digits by lia.
  unfold check_date_fields, check_time_fields.
  destruct (Z.leb_spec 1 y); [|lia]. destruct (Z.leb_spec y 9999); [|lia].
  destruct (Z.leb_spec 1 m); [|lia]. destruct (Z.leb_spec m 12); [|lia].
  destruct (Z.leb_spec 1 d); [|lia].
  destruct (Z.leb_spec d (days_in_month y m)); [|lia].
  reflexivity.
Qed.

(** The year, the years of the cycle and the day of the year of an
    ordinal. *)
Lemma ordinal_decomposition (n : Z) :
  0 <= n < MAXORDINAL ->
  let n400 := n / DI400Y in
  let r400 := n mod DI400Y in
  let n100 := r400 / DI100Y in
  let r100 := r400 mod DI100Y in
  let n4 := r100 / DI4Y in
  let r4 := r100 mod DI4Y in
  let n1 := r4 / 365 in
  let r1 := r4 mod 365 in
  n = DI400Y * n400 + DI100Y * n100 + DI4Y * n4 + 365 * n1 + r1 /\
  0 <= n400 <= 24 /\ 0 <= n100 <= 4 /\ 0 <= n4 <= 24 /\ 0 <= n1 <= 4 /\
  0 <= r1 < 365 /\
  (n100 = 4 -> n4 = 0 /\ n1 = 0 /\ r1 = 0) /\
  (n1 = 4 -> n4 < 24 /\ r1 = 0) /\
  400 * n400 + 100 * n100 + 4 * n4 + n1 <= 9999 /\
  (n1 <> 4 -> n100 <> 4 -> 400 * n400 + 100 * n100 + 4 * n4 + n1 <= 9998).
Proof.
  unfold MAXORDINAL, DI400Y, DI100Y, DI4Y. intros Hn. cbv zeta.
  Z.to_euclidean_division_equations. lia.
Qed.

(** Every day of a year has a month and a day in it, and they count
    back to the day of the year: by inspection of the 365 days, for
    both kinds of year. *)
Lemma month_day_checked :
  forallb (fun n => month_day_ok true n && month_day_ok false n)
    (map Z.of_nat (seq 0 365)) = true.
Proof. vm_compute. reflexivity. Qed.

Lemma month_day_spec (leapyear : bool) (n : Z) :
  0 <= n < 365 -> month_day_ok leapyear n = true.
Proof.
  intros Hn. pose proof month_day_checked as Hall.
  rewrite forallb_forall in Hall.
  specialize (Hall n). rewrite in_map_iff in Hall.
  assert (month_day_ok true n && month_day_ok false n = true) as Hb.
  { apply Hall. exists (Z.to_nat n). split; [lia|]. apply in_seq. lia. }
  apply andb_prop in Hb. destruct leapyear; tauto.
Qed.

Lemma is_leap_of_cycle (a b c e : Z) :
  0 <= a -> 0 <= b <= 3 -> 0 <= c <= 24 -> 0 <= e <= 3 ->
  is_leap (a * 400 + 1 + b * 100 + c * 4 + e)
  = (e =? 3) && (negb (c =? 24) || (b =? 3)).
Proof.
  intros Ha Hb Hc He. unfold is_leap.
  destruct (Z.eqb_spec e 3), (Z.eqb_spec c 24), (Z.eqb_spec b 3);
    repeat match goal with
           | |- context [?x mod ?k =? 0] => destruct (Z.eqb_spec (x mod k) 0)
           end; simpl; try reflexivity; exfalso;
    Z.to_euclidean_division_equations; lia.
Qed.

(** The year, month and day of an ordinal are a date of the calendar,
    and the date counts back to the ordinal. *)
Lemma ord2ymd_spec (ord : Z) :
  1 <= ord <= MAXORDINAL ->
  1 <= year_of ord <= 9999 /\
  1 <= month_of ord <= 12 /\
  1 <= day_of ord <= days_in_month (year_of ord) (month_of ord) /\
  ymd2ord (year_of ord) (month_of ord) (day_of ord) = ord.
Proof.
  intros Hord. unfold year_of, month_of, day_of, ord2ymd.
  pose proof (ordinal_decomposition (ord - 1) ltac:(lia)) as Hdec.
  cbv zeta in Hdec.
  set (a := (ord - 1) / DI400Y) in *.
  set (b := (ord - 1) mod DI400Y / DI100Y) in *.
  set (c := (ord - 1) mod DI400Y mod DI100Y / DI4Y) in *.
  set (e := (ord - 1) mod DI400Y mod DI100Y mod DI4Y / 365) in *.
  set (r := (ord - 1) mod DI400Y mod DI100Y mod DI4Y mod 365) in *.
  destruct Hdec as (Hn & Ha & Hb & Hc & He & Hr & Hb4 & He4 & Hy & Hy').
  clearbody a b c e r. unfold DI400Y, DI100Y, DI4Y in Hn.
  destruct (Z.eqb_spec e 4) as [E4|E4]; [|destruct (Z.eqb_spec b 4) as [B4|B4]];
    cbn [orb fst snd].
  - (* the last day of a leap year *)
    destruct (He4 E4) as [Hc' Hr']. subst e r.
    assert (b <> 4) by (intros ->; lia).
    unfold ymd2ord, days_before_year, days_before_month, days_in_month.
    replace (a * 400 + 1 + b * 100 + c * 4 + 4 - 1)
      with (a * 400 + 1 + b * 100 + (c + 1) * 4 + (-1 + 0)) by lia.
    assert (is_leap (a * 400 + 1 + b * 100 + c * 4 + 3) = true) as Hleap.
    { rewrite is_leap_of_cycle by lia.
      destruct (Z.eqb_spec c 24); [lia | reflexivity]. }
    replace (a * 400 + 1 + b * 100 + (c + 1) * 4 + (-1 + 0))
      with (a * 400 + 1 + b * 100 + c * 4 + 3) by lia.
    rewrite Hleap. cbn.
    repeat split; try lia.
    Z.to_euclidean_division_equations; lia.
  - (* the last day of a cycle of four hundred years *)
    destruct (Hb4 B4) as (-> & -> & ->). subst b.
    unfold ymd2ord, days_before_year, days_before_month, days_in_month.
    assert (is_leap (a * 400 + 1 + 4 * 100 + 0 * 4 + 0 - 1) = true) as Hleap.
    { unfold is_leap.
      repeat match goal with
             | |- context [?x mod ?k =? 0] => destruct (Z.eqb_spec (x mod k) 0)
             end; simpl; try reflexivity; exfalso;
        Z.to_euclidean_division_equations; lia. }
    rewrite Hleap. cbn.
    repeat split; try lia.
    Z.to_euclidean_division_equations; lia.
  - (* the other days *)
    rewrite <- (is_leap_of_cycle a b c e) by lia.
    set (year := a * 400 + 1 + b * 100 + c * 4 + e) in *.
    pose proof (month_day_spec (is_leap year) r Hr) as Hmd.
    unfold month_day_ok in Hmd.
    destruct (month_day (is_leap year) r) as [m d]. cbn [fst snd].
    repeat (apply andb_prop in Hmd; destruct Hmd as [Hmd ?]).
    unfold ymd2ord, days_before_year, days_before_month, days_in_month.
    repeat match goal with
           | Hx : (_ <=? _) = true |- _ => apply Z.leb_le in Hx
           | Hx : (_ =? _) = true |- _ => apply Z.eqb_eq in Hx
           end.
    repeat split; try lia.
    assert (days_before_year year = ord - 1 - r) as Hdby.
    { unfold days_before_year. subst year.
      Z.to_euclidean_division_equations; lia. }
    unfold days_before_year in Hdby. lia.
Qed.

(** The text of a date parses back to midnight of that date. *)
Lemma fromisoformat_isoformat (ord : Z) :
  1 <= ord <= MAXORDINAL ->
  fromisoformat (isoformat ord) = Ok (mk_datetime ord 0 0 0 0).
Proof.
  intros Hord. destruct (ord2ymd_spec ord Hord) as (Hy & Hm & Hd & Hback).
  unfold isoformat, year_of, month_of, day_of in *.
  destruct (ord2ymd ord) as [[y m] d]. cbn [fst snd] in *.
  rewrite fromisoformat_date by assumption. rewrite Hback. reflexivity.
Qed.

(** Parsing the text of a date and a time of day, after any separator,
    gives that date and that time. *)
Lemma fromisoformat_date_time (y m d h mi sec : Z) (sep : ascii) :
  1 <= y <= 9999 -> 1 <= m <= 12 -> 1 <= d <= days_in_month y m ->
  0 <= h <= 23 -> 0 <= mi <= 59 -> 0 <= sec <= 59 ->
  fromisoformat
    ((fmt04d y ++ "-" ++ fmt02d m ++ "-" ++ fmt02d d)
     ++ String sep (fmt02d h ++ ":" ++ fmt02d mi ++ ":" ++ fmt02d sec))
  = Ok (mk_datetime (ymd2ord y m d) h mi sec 0).
Proof.
  intros Hy Hm Hd Hh Hmi Hsec.
  assert (d <= 31) as Hd31.
  { unfold days_in_month, DAYS_IN_MONTH in Hd.
    destruct ((m =? 2) && is_leap y); [lia|].
    assert (m = 1 \/ m = 2 \/ m = 3 \/ m = 4 \/ m = 5 \/ m = 6 \/ m = 7 \/
            m = 8 \/ m = 9 \/ m = 10 \/ m = 11 \/ m = 12) as Hc by lia.
    repeat destruct Hc as [-> | Hc]; try subst m; lia. }
  unfold fmt04d, fmt02d.
  destruct (Z.leb_spec 0 y); [|lia]. destruct (Z.ltb_spec y 10000); [|lia].
  destruct (Z.leb_spec 0 m); [|lia]. destruct (Z.ltb_spec m 100); [|lia].
  destruct (Z.leb_spec 0 d); [|lia]. destruct (Z.ltb_spec d 100); [|lia].
  destruct (Z.leb_spec 0 h); [|lia]. destruct (Z.ltb_spec h 100); [|lia].
  destruct (Z.leb_spec 0 mi); [|lia]. destruct (Z.ltb_spec mi 100); [|lia].
  destruct (Z.leb_spec 0 sec); [|lia]. destruct (Z.ltb_spec sec 100); [|lia].
  cbn [andb]. repeat (rewrite append_cons || rewrite append_empty).
  unfold fromisoformat, parse_isoformat_time, parse_fraction, is_offset.
  cbv beta iota zeta.
  rewrite int4_digits, !int2_digits by lia.
  unfold check_date_fields, check_time_fields.
  destruct (Z.leb_spec 1 y); [|lia]. destruct (Z.leb_spec y 9999); [|lia].
  destruct (Z.leb_spec 1 m); [|lia]. destruct (Z.leb_spec m 12); [|lia].
  destruct (Z.leb_spec 1 d); [|lia].
  destruct (Z.leb_spec d (days_in_month y m)); [|lia].
  destruct (Z.leb_spec 0 h); [|lia]. destruct (Z.leb_spec h 23); [|lia].
  destruct (Z.leb_spec 0 mi); [|lia]. destruct (Z.leb_spec mi 59); [|lia].
  destruct (Z.leb_spec 0 sec); [|lia]. destruct (Z.leb_spec sec 59); [|lia].
  reflexivity.
Qed.

End CalendarFacts.

(** ** The notifier *)

Section Notifier.

Context {F : Type} `{Float64 F}.

Lemma for_each_flat {A : Type} (l : list A) (body : A -> io (effect F) unit) :
  Forall (fun x => outcome (body x) = Ok tt) l ->
  for_each l body = (flat_map (fun x => trace (body x)) l, Ok tt).
Proof.
  induction 1 as [|x l Hx Hl IH]; [reflexivity|].
  simpl. rewrite IH. unfold bind. destruct (body x) as [t r].
  simpl in Hx. subst r. reflexivity.
Qed.

(** The destinations of the registry that resolve to a channel. *)
Lemma notify_all (w : World F) (ids : list Z) (m : message) :
  for_each ids (fun channel_id =>
    match get_channel w channel_id return io (effect F) unit with
    | Some channel => emit (Deliver (ChannelSend channel) m)
    | None => ret tt
    end)
  = (map (fun channel => Deliver (ChannelSend channel) m)
       (resolve w ids), Ok tt).
Proof.
  induction ids as [|id ids IH]; [reflexivity|].
  simpl. rewrite IH. destruct (get_channel w id); reflexivity.
Qed.

(** What the notifier does with one cached event. *)
Lemma check_event_cases (w : World F) (now : datetime) (CH : gset Z)
    (event : Event) (event_time : datetime) :
  fromisoformat (time event) = Ok event_time ->
  check_event w now CH event =
  (if (hour event_time =? 0) && (minute event_time =? 0) then []
   else if (minutes 14 <=? to_us event_time - to_us now)
           && (to_us event_time - to_us now <=? minutes 15)
   then map (fun channel =>
               Deliver (ChannelSend channel) (notification event event_time))
          (resolve w (elements CH))
   else [],
   Ok tt).
Proof.
  intros Hp. unfold check_event. rewrite Hp. unfold lift, bind.
  destruct ((hour event_time =? 0) && (minute event_time =? 0));
    [reflexivity|].
  destruct ((minutes 14 <=? to_us event_time - to_us now)
            && (to_us event_time - to_us now <=? minutes 15));
    [|reflexivity].
  rewrite notify_all. reflexivity.
Qed.

(** The outcome of the notifier for one event, by whether it is due. *)
Lemma check_event_due (w : World F) (now : datetime) (CH : gset Z)
    (event : Event) (t : datetime) :
  fromisoformat (time event) = Ok t ->
  check_event w now CH event
  = (if due now event then notices w CH event t else [], Ok tt).
Proof.
  intros Hp. rewrite (check_event_cases _ _ _ _ _ Hp). unfold due, notices.
  rewrite Hp.
  destruct ((hour t =? 0) && (minute t =? 0)); [reflexivity|].
  cbn [negb andb].
  destruct (minutes 14 <=? to_us t - to_us now); [|reflexivity].
  cbn [andb]. destruct (to_us t - to_us now <=? minutes 15); reflexivity.
Qed.

Lemma due_spec (now : datetime) (event : Event) (t : datetime) :
  fromisoformat (time event) = Ok t ->
  due now event = true <->
  ~ (hour t = 0 /\ minute t = 0) /\
  minutes 14 <= to_us t - to_us now <= minutes 15.
Proof.
  intros Hp. unfold due. rewrite Hp.
  destruct (Z.eqb_spec (hour t) 0), (Z.eqb_spec (minute t) 0);
    destruct (Z.leb_spec (minutes 14) (to_us t - to_us now));
    destruct (Z.leb_spec (to_us t - to_us now) (minutes 15));
    cbn [negb andb]; split; try discriminate; try tauto; try lia;
    intros _; (split; [tauto | lia]).
Qed.

(** A tick over a cache whose time texts are read returns, and its
    messages are those of the events that are due, event by event in
    cache order. *)
Lemma check_events_chunks (w : World F) (daily_events : list Event)
    (CH : gset Z) :
  readable daily_events ->
  outcome (check_events w daily_events CH) = Ok tt /\
  exists chunks,
    trace (check_events w daily_events CH) = concat chunks /\
    Forall2 (owed w CH) (List.filter (due (now_utc w)) daily_events) chunks.
Proof.
  intros Hparse. unfold check_events.
  rewrite for_each_flat.
  2:{ eapply Forall_impl; [exact Hparse|].
      intros event [t Ht]. rewrite (check_event_due _ _ _ _ _ Ht).
      reflexivity. }
  split; [reflexivity|]. unfold trace. cbn [fst].
  induction Hparse as [|event rest [t Ht] _ (chunks & Hcat & Hall)].
  - exists []. split; [reflexivity | constructor].
  - cbn [flat_map List.filter]. rewrite (check_event_due _ _ _ _ _ Ht).
    unfold trace in *. cbn [fst]. rewrite Hcat.
    destruct (due (now_utc w) event).
    + exists (notices w CH event t :: chunks).
      split; [reflexivity|]. constructor; [|exact Hall].
      exists t. split; [exact Ht | reflexivity].
    + exists chunks. split; [reflexivity | exact Hall].
Qed.

(** C4, as amended.  On a tick over a cache whose time texts are all
    read (a date, or a date, a separator and a time of day, with or
    without a fraction of three or six digits and an offset; the time
    of an event is the wall-clock time of its text: the offset is not
    applied), the notifier returns, and the messages of the tick are
    those of the events that are due, event by event in cache order:
    for each of them one notification to every registered destination
    that resolves to a channel, in whatever order the registry is gone
    through.  An event is due exactly when its hour or its minute is
    not zero and the time until it is between 14 and 15 minutes, bounds
    included; so an event whose hour and minute are zero, as for every
    date-only text, is skipped, and so is an event outside the
    window.  The registry is gone through once: each registered
    destination is met once. *)
Theorem notifier_tick (w : World F) (daily_events : list Event) (CH : gset Z) :
  readable daily_events ->
  outcome (check_events w daily_events CH) = Ok tt /\
  (exists chunks,
     trace (check_events w daily_events CH) = concat chunks /\
     Forall2 (owed w CH) (List.filter (due (now_utc w)) daily_events)
       chunks) /\
  (forall event t,
     fromisoformat (time event) = Ok t ->
     (due (now_utc w) event = true <->
      ~ (hour t = 0 /\ minute t = 0) /\
      minutes 14 <= to_us t - to_us (now_utc w) <= minutes 15) /\
     notices w CH event t
     = map (fun channel =>
              Deliver (ChannelSend channel) (notification event t))
         (resolve w (elements CH))) /\
  NoDup (elements CH) /\
  (forall id, In id (elements CH) <-> id ∈ CH).
Proof.
  intros Hparse.
  destruct (check_events_chunks w daily_events CH Hparse) as [Ho Hchunks].
  split; [exact Ho|]. split; [exact Hchunks|]. split; [|split].
  - intros event t Ht. split; [apply due_spec; exact Ht | reflexivity].
  - apply NoDup_elements.
  - intros id. rewrite <- list_elem_of_In. apply elem_of_elements.
Qed.

End Notifier.

Lemma notifier_tick_witness :
  readable [afternoon_event; later_event; with_offset] /\
  outcome (check_events calm [afternoon_event; later_event; with_offset]
             {[ 1; 2 ]})
  = Ok tt /\
  List.filter (due (now_utc calm)) [afternoon_event; later_event; with_offset]
  = [afternoon_event; with_offset] /\
  length (trace (check_events calm [afternoon_event; later_event; with_offset]
                   {[ 1; 2 ]}))
  = 4%nat.
Proof.
  assert (readable [afternoon_event; later_event; with_offset]) as Hread
    by (repeat constructor; eexists; vm_compute; reflexivity).
  split; [exact Hread|].
  destruct (notifier_tick calm [afternoon_event; later_event; with_offset]
              {[ 1; 2 ]} Hread) as (Ho & _).
  split; [exact Ho|]. split; vm_compute; reflexivity.
Defined.

(** C4 as stated fails.  At 23:46:00 two cached events lie inside the
    window: one at 00:00:20 and one at 00:01:00, both with a time of
    day.  Destinations 1 and 2 are registered; 2 does not resolve to a
    channel.  The only message of the tick is the notification of the
    second event to destination 1: the first event is skipped, because
    its hour and minute are zero, and destination 2 receives nothing. *)
Lemma notifier_tick_misses :
  fromisoformat (time just_after_midnight) = Ok (mk_datetime 738888 0 0 20 0) /\
  fromisoformat (time one_past_midnight) = Ok (mk_datetime 738888 0 1 0 0) /\
  minutes 14 <= to_us (mk_datetime 738888 0 0 20 0) - to_us (now_utc late_evening)
    <= minutes 15 /\
  minutes 14 <= to_us (mk_datetime 738888 0 1 0 0) - to_us (now_utc late_evening)
    <= minutes 15 /\
  elements ({[ 1; 2 ]} : gset Z) ≡ₚ [1; 2] /\
  channel_messages
    (trace (check_events late_evening
              [just_after_midnight; one_past_midnight] {[ 1; 2 ]}))
  = [ (1, notification one_past_midnight (mk_datetime 738888 0 1 0 0)) ].
Proof.
  repeat split; try (vm_compute; congruence).
  vm_compute. apply perm_swap.
Qed.

(** ** The cache a refresh leaves, and the notifier *)

Section DateOnly.

Context {F : Type} `{Float64 F}.

Lemma bind_ok_inv {E A B : Type} (m : io E A) (f : A -> io E B) (b : B) :
  outcome (bind m f) = Ok b ->
  exists a, outcome m = Ok a /\ outcome (f a) = Ok b.
Proof.
  destruct m as [t [a|e]]; simpl; [|discriminate].
  destruct (f a) as [t' r] eqn:Ef. simpl. intros ->.
  exists a. rewrite Ef. split; reflexivity.
Qed.

(** The time of a fetched event is the text of the date of the run. *)
Lemma fetch_indicator_time (w : World F) now release key label (ev : Event) :
  outcome (fetch_indicator w now release key label) = Ok ev ->
  time ev = isoformat release.
Proof.
  unfold fetch_indicator. intros Ho.
  repeat (apply bind_ok_inv in Ho; destruct Ho as (? & _ & Ho)).
  simpl in Ho. injection Ho as <-. reflexivity.
Qed.

Lemma indicators_loop_time (w : World F) now release catalog events result :
  Forall (fun ev => time ev = isoformat release) events ->
  outcome (indicators_loop w now release catalog events) = Ok result ->
  Forall (fun ev => time ev = isoformat release) result.
Proof.
  revert events. induction catalog as [|[key label] rest IH];
    intros events Hev Ho.
  - simpl in Ho. injection Ho as <-. assumption.
  - simpl in Ho. apply bind_ok_inv in Ho. destruct Ho as (events' & Hstep & Ho).
    apply (IH events'); [|assumption].
    destruct (outcome (fetch_indicator w now release key label))
      as [ev|e] eqn:Ef.
    + rewrite (outcome_try_ok _ _ (events ++ [ev])%list) in Hstep.
      * injection Hstep as <-. apply Forall_app. split; [assumption|].
        constructor; [|constructor].
        apply (fetch_indicator_time w now release key label). assumption.
      * rewrite (outcome_bind_ok _ _ ev) by assumption. reflexivity.
    + rewrite (outcome_try_raise _ _ e) in Hstep
        by (apply outcome_bind_raise; assumption).
      apply bind_ok_inv in Hstep. destruct Hstep as (? & _ & Hstep).
      simpl in Hstep. injection Hstep as <-. assumption.
Qed.

(** Every event a fetch returns carries the date of the run, and no
    time of day. *)
Lemma fetch_economic_events_time (w : World F) (events : list Event) :
  clock_in_range w ->
  outcome (fetch_economic_events w) = Ok events ->
  exists release, 1 <= release <= MAXORDINAL /\
    Forall (fun ev => time ev = isoformat release) events.
Proof.
  intros Hclock Ho. rewrite fetch_economic_events_unfold in Ho.
  apply bind_ok_inv in Ho. destruct Ho as (now & Hnow & Ho).
  apply bind_ok_inv in Ho. destruct Ho as (release & Hrel & Ho).
  simpl in Hnow, Hrel.
  exists release. split.
  { apply (release_date_range now); [apply Hclock|]; assumption. }
  destruct (outcome (guarded_run w now release)) as [evs|e] eqn:Eg.
  - rewrite (outcome_try_ok _ _ evs) in Ho by assumption.
    injection Ho as <-. unfold guarded_run in Eg.
    apply bind_ok_inv in Eg. destruct Eg as (evs' & Hloop & Eg).
    simpl in Eg. injection Eg as <-.
    apply indicators_loop_time in Hloop; [|constructor].
    rewrite (sorted_by_time_same_date (isoformat release)); assumption.
  - rewrite (outcome_try_raise _ _ e) in Ho by assumption.
    apply bind_ok_inv in Ho. destruct Ho as (? & _ & Ho).
    simpl in Ho. injection Ho as <-. constructor.
Qed.

(** The events of a reachable cache are filed under a date. *)
Lemma reachable_dated (daily_events : list Event) :
  reachable daily_events ->
  Forall (fun ev => exists d, 1 <= d <= MAXORDINAL /\ time ev = isoformat d)
    daily_events.
Proof.
  induction 1 as [|w daily_events Hclock _ IH]; [constructor|].
  unfold update_daily_events.
  destruct (fetch_economic_events w) as [t [events|e]] eqn:Ef;
    cbn [snd]; [|assumption].
  destruct (fetch_economic_events_time w events Hclock) as (release & Hr & Hall).
  { rewrite Ef. reflexivity. }
  eapply Forall_impl; [exact Hall|]. intros ev Hev. eauto.
Qed.

(** C10.  Every record of a cache that a refresh has produced carries
    a date and no time of day: its time text is the ISO text of a date
    and parses to midnight of that date.  The notifier skips every such
    record: on a cache produced by refreshes, whatever the time of the
    tick and whatever the registry, it sends nothing. *)
Theorem refreshed_cache_never_notifies (daily_events : list Event) :
  reachable daily_events ->
  Forall (fun ev => exists d,
            time ev = isoformat d /\
            fromisoformat (time ev) = Ok (mk_datetime d 0 0 0 0))
    daily_events /\
  (forall (w : World F) (now : datetime) (CH : gset Z) event t,
     fromisoformat (time event) = Ok t -> hour t = 0 -> minute t = 0 ->
     check_event w now CH event = ([], Ok tt)) /\
  forall (w : World F) (CH : gset Z),
    check_events w daily_events CH = ([], Ok tt).
Proof.
  intros Hreach. pose proof (reachable_dated _ Hreach) as Hdated.
  assert (Forall (fun ev => exists d,
            time ev = isoformat d /\
            fromisoformat (time ev) = Ok (mk_datetime d 0 0 0 0))
            daily_events) as Hmid.
  { eapply Forall_impl; [exact Hdated|]. intros ev (d & Hd & Ht).
    exists d. split; [assumption|]. rewrite Ht.
    apply fromisoformat_isoformat. assumption. }
  split; [assumption|]. split.
  { intros w now CH event t Hp Hh Hm.
    rewrite (check_event_cases _ _ _ _ _ Hp), Hh, Hm. reflexivity. }
  intros w CH.
  unfold check_events. rewrite for_each_flat.
  - f_equal. clear Hreach Hdated.
    induction Hmid as [|ev rest (d & _ & Hp) _ IH]; [reflexivity|].
    cbn [flat_map]. rewrite IH, (check_event_cases _ _ _ _ _ Hp). reflexivity.
  - eapply Forall_impl; [exact Hmid|]. intros ev (d & _ & Hp).
    rewrite (check_event_cases _ _ _ _ _ Hp). reflexivity.
Qed.

End DateOnly.

Lemma calm_clock_in_range : clock_in_range calm.
Proof. intros now [= <-]. vm_compute. split; discriminate. Qed.

Lemma refreshed_cache_never_notifies_witness :
  reachable (snd (update_daily_events calm [])) /\
  length (snd (update_daily_events calm [])) = 21%nat /\
  check_events late_evening (snd (update_daily_events calm [])) {[ 1; 2 ]}
  = ([], Ok tt).
Proof.
  assert (reachable (snd (update_daily_events calm []))) as Hreach.
  { apply reach_refresh; [exact calm_clock_in_range | apply reach_start]. }
  split; [exact Hreach|]. split; [vm_compute; reflexivity|].
  apply (refreshed_cache_never_notifies _ Hreach).
Defined.

(** ** The chart relay *)

Section ChartRelay.

Context {F : Type} `{Float64 F}.

Lemma valid_timeframes_lookup (timeframe timeframe_name : string) :
  In timeframe ["d"; "w"; "m"] ->
  valid_timeframes !! timeframe = Some timeframe_name ->
  p_map !! timeframe_name = Some timeframe /\
  in_list timeframe ["3"; "5"; "15"] = false.
Proof.
  intros Hin Hname. simpl in Hin.
  destruct Hin as [<- | [<- | [<- | []]]];
    vm_compute in Hname; injection Hname as <-; split; reflexivity.
Qed.

(** C8.  For the timeframe tokens 3, 5 and 15 (in either case) the
    relay replies with the fixed message about Elite users and makes no
    HTTP request.  For a timeframe d, w or m, when the HTTP request
    raises, returns a status other than 200, or its body cannot be read,
    the relay still returns normally: after the one request, its reply
    is an embed whose image is the chart URL followed by [&rand=] and
    the Unix time, with no file attached and no error text. *)
Theorem chart_relay (w : World F) (channel : Z) (ticker timeframe : string) :
  (in_list (lower timeframe) ["3"; "5"; "15"] = true ->
   send_chart w channel ticker timeframe
   = ([ Deliver (ChannelSend channel)
          (text "Intraday charts are only available for FINVIZ*Elite users.") ],
      Ok tt) /\
   List.filter is_http (trace (send_chart w channel ticker timeframe)) = []) /\
  (forall timeframe_name,
     In (lower timeframe) ["d"; "w"; "m"] ->
     valid_timeframes !! lower timeframe = Some timeframe_name ->
     let p := lower timeframe in
     let chart_url := chart_url_of (upper ticker) p in
     let headers := chart_headers (upper ticker) p in
     fetch_fails (http_get w chart_url headers) = true ->
     send_chart w channel ticker timeframe
     = ([ HttpGet chart_url headers;
          Deliver (ChannelSend channel)
            (mk_message None
               (Some (mk_embed
                        (upper ticker ++ " " ++ timeframe_name ++ " Chart")
                        None 65280 []
                        (Some (chart_url ++ "&rand=" ++ str_of_Z (unix_time w)))))
               None) ],
        Ok tt) /\
     shown_texts (trace (send_chart w channel ticker timeframe)) = []).
Proof.
  split.
  - intros Hintra. unfold send_chart. cbv zeta. rewrite Hintra.
    split; reflexivity.
  - intros timeframe_name Hin Hname p chart_url headers Hfail.
    destruct (valid_timeframes_lookup _ _ Hin Hname) as [Hp Hnot].
    assert (send_chart w channel ticker timeframe
            = ([ HttpGet chart_url headers;
                 Deliver (ChannelSend channel)
                   (mk_message None
                      (Some (mk_embed
                               (upper ticker ++ " " ++ timeframe_name ++ " Chart")
                               None 65280 []
                               (Some (chart_url ++ "&rand="
                                      ++ str_of_Z (unix_time w)))))
                      None) ],
               Ok tt)) as Hrun.
    { unfold send_chart. cbv zeta. rewrite Hnot, Hname.
      unfold getitem. rewrite Hp. unfold lift at 1. unfold bind at 1.
      fold p. fold chart_url. fold headers.
      unfold fetch_fails in Hfail.
      destruct (http_get w chart_url headers) as [[status body]|e];
        [|reflexivity].
      cbn [fst snd lift emit bind try_except raise app].
      destruct (Z.eqb_spec status 200) as [->|Hs]; [|reflexivity].
      cbn [negb orb] in Hfail. destruct body as [image|e]; [discriminate|].
      reflexivity. }
    rewrite Hrun. split; reflexivity.
Qed.

End ChartRelay.

Lemma chart_relay_witness :
  send_chart calm 7 "aapl" "15"
  = ([ Deliver (ChannelSend 7)
         (text "Intraday charts are only available for FINVIZ*Elite users.") ],
     Ok tt) /\
  trace (send_chart calm 7 "aapl" "D")
  = [ HttpGet "https://finviz.com/chart.ashx?t=AAPL&ty=c&ta=1&p=d&s=l"
        (chart_headers "AAPL" "d");
      Deliver (ChannelSend 7)
        (mk_message None
           (Some (mk_embed "AAPL daily Chart" None 65280 []
                    (Some "https://finviz.com/chart.ashx?t=AAPL&ty=c&ta=1&p=d&s=l&rand=1704294000")))
           None) ].
Proof.
  destruct (chart_relay calm 7 "aapl" "15") as [Hintra _].
  destruct (chart_relay calm 7 "aapl" "D") as [_ Hfall].
  split.
  - apply Hintra. reflexivity.
  - destruct (Hfall "daily") as [Hrun _].
    + simpl. auto.
    + reflexivity.
    + reflexivity.
    + rewrite Hrun. reflexivity.
Defined.

(** ** The two forms of the commands *)

Section TwoForms.

Context {F : Type} `{Float64 F}.

Lemma slash_high_impact_fields_same (events : list Event) (fields : list field) :
  slash_high_impact_fields events fields = high_impact_fields events fields.
Proof.
  revert fields. induction events as [|event rest IH]; intros fields;
    [reflexivity|].
  simpl. destruct (fromisoformat (time event)); [apply IH | reflexivity].
Qed.

Lemma slash_other_events_loop_same (events : list Event) (st : compact) :
  slash_other_events_loop events st = other_events_loop events st.
Proof.
  revert st. induction events as [|event rest IH]; intros st; [reflexivity|].
  simpl. destruct (fromisoformat (time event)); [apply IH | reflexivity].
Qed.

Lemma slash_flush_same (st : compact) : slash_flush st = flush st.
Proof. reflexivity. Qed.

(** The chart relay always returns. *)
Lemma valid_timeframes_values (timeframe timeframe_name : string) :
  valid_timeframes !! timeframe = Some timeframe_name ->
  exists p, p_map !! timeframe_name = Some p.
Proof.
  unfold valid_timeframes. intros Hl.
  repeat (apply lookup_insert_Some in Hl;
          destruct Hl as [[_ <-] | [_ Hl]]; [eexists; reflexivity|]).
  rewrite lookup_empty in Hl. discriminate.
Qed.






End TwoForms.


(** With a chart site that answers and an interaction whose response
    cannot be edited, the slash form of the chart command sends the
    chart twice. *)
Lemma slash_chart_sends_twice :
  map fst (channel_messages (trace (send_chart no_edit 7 "aapl" "d"))) = [7] /\
  map fst (channel_messages (trace (slash_chart no_edit 7 "aapl" "d")))
  = [7; 7] /\
  map fst (channel_messages (trace (slash_chart expired 7 "aapl" "d"))) = [7].
Proof. repeat split; vm_compute; reflexivity. Qed.

(** ** The correlation command *)

Section Correlation.

Context {F : Type} `{Float64 F}.

(** C5, as amended.  The handler has no test of its own on the number
    of points, and a coefficient that is not a number is not an error.
    When the two series are fetched: with fewer than two overlapping
    points (dates that both series have, with both values present) the
    coefficient is NaN and the reply is the usual embed, showing "nan";
    with two or more the reply is the embed with the coefficient that
    the statistics routine returns, rendered with two decimals, and the
    error text is sent only if the routine raises. *)
Theorem get_correlation_reply (w : World F) (series1 series2 : string)
    (days : Z) (start_date : datetime) (data1 data2 : Series F) :
  datetime_add_days (now_local w) (- days) = Ok start_date ->
  let q := mk_query (Some (BoundDatetime start_date)) None None in
  get_series w series1 q = Ok data1 ->
  get_series w series2 q = Ok data2 ->
  let pairs := overlapping data1 data2 in
  ((length pairs < 2)%nat ->
   get_correlation w series1 series2 days
   = ([ FredSeries series1 q; FredSeries series2 q;
        Deliver CtxSend
          (with_embed (correlation_embed series1 series2 days "nan")) ],
      Ok tt)) /\
  ((2 <= length pairs)%nat ->
   get_correlation w series1 series2 days
   = ([ FredSeries series1 q; FredSeries series2 q;
        Deliver CtxSend
          match corrcoef w pairs with
          | Ok correlation =>
              with_embed
                (correlation_embed series1 series2 days (fmt_2f correlation))
          | Raise e => text ("Error calculating correlation: " ++ e)
          end ],
      Ok tt)).
Proof.
  intros Hstart q H1 H2 pairs. subst q pairs.
  unfold get_correlation, fred_get_series, series_corr.
  rewrite Hstart. cbn [lift emit bind try_except app]. rewrite H1.
  cbn [lift emit bind try_except app]. rewrite H2.
  cbn [lift emit bind try_except app]. cbv zeta.
  split; intros Hlen.
  - apply Nat.ltb_lt in Hlen. rewrite Hlen.
    cbn [lift emit bind try_except app fst snd].
    unfold correlation_embed. rewrite fmt_2f_nan. reflexivity.
  - apply Nat.ltb_ge in Hlen. rewrite Hlen.
    destruct (corrcoef w _); reflexivity.
Qed.

End Correlation.

Lemma get_correlation_reply_witness :
  get_correlation calm "VIXCLS" "DCOILWTICO" 90
  = ([ FredSeries "VIXCLS"
         (mk_query (Some (BoundDatetime (mk_datetime 738798 10 0 0 0)))
            None None);
       FredSeries "DCOILWTICO"
         (mk_query (Some (BoundDatetime (mk_datetime 738798 10 0 0 0)))
            None None);
       Deliver CtxSend
         (with_embed (correlation_embed "VIXCLS" "DCOILWTICO" 90 "1.00")) ],
     Ok tt).
Proof.
  destruct (get_correlation_reply calm "VIXCLS" "DCOILWTICO" 90
              (mk_datetime 738798 10 0 0 0) two_observations two_observations
              eq_refl eq_refl eq_refl) as [_ Hmany].
  apply Hmany. vm_compute. lia.
Defined.

(** C5 as stated fails.  The two series share one date only: the reply
    is the usual embed, showing "nan", and no error text.  A series
    with a single observation, which is missing, correlated with
    itself: the reply shows "nan", not 1.00. *)
Lemma correlation_of_one_point :
  overlapping
    [ (738870, Dec 100); (738880, Dec 200) ]
    [ (738880, Dec 300); (738881, Dec 400) ]
  = [ (Dec 200, Dec 300) ] /\
  delivered (trace (get_correlation sparse "VIXCLS" "DCOILWTICO" 90))
  = [ with_embed (correlation_embed "VIXCLS" "DCOILWTICO" 90 "nan") ] /\
  shown_texts (trace (get_correlation sparse "VIXCLS" "DCOILWTICO" 90)) = [] /\
  outcome (get_correlation sparse "VIXCLS" "DCOILWTICO" 90) = Ok tt /\
  delivered (trace (get_correlation stale "UNRATE" "UNRATE" 90))
  = [ with_embed (correlation_embed "UNRATE" "UNRATE" 90 "nan") ].
Proof. repeat split; vm_compute; reflexivity. Qed.

(** * More of the program *)

(** ** The date of a run *)

Section ReleaseDateMore.

Lemma skip_weekend_distance (d d' : datetime) :
  skip_weekend d = Ok d' ->
  ordinal d' = ordinal d
               + (if 5 <=? weekday (ordinal d) then 7 - weekday (ordinal d) else 0).
Proof.
  funelim (skip_weekend d); intros E.
  - injection E as <-.
    match goal with Hf : (5 <=? _) = false |- _ => rewrite Hf end. lia.
  - pose proof (datetime_add_days_ok _ _ _ Hadd) as [Ho _].
    rewrite (H _ E), Ho, Hwk.
    pose proof (proj1 (Z.leb_le _ _) Hwk) as Hwk'.
    destruct (Z.leb_spec 5 (weekday (ordinal next_day + 1)));
      unfold weekday in *; Z.to_euclidean_division_equations; lia.
  - discriminate.
Qed.

Lemma skip_weekend_sunday (d : datetime) :
  weekday (ordinal d) = 6 -> 1 <= ordinal d -> ordinal d + 1 <= MAXORDINAL ->
  skip_weekend d =
  Ok (mk_datetime (ordinal d + 1) (hour d) (minute d) (second d) (microsecond d)).
Proof.
  intros Hw Hmin Hmax.
  rewrite skip_weekend_unfold, Hw. simpl.
  unfold datetime_add_days, add_days.
  destruct (Z.leb_spec 1 (ordinal d + 1)); [|lia].
  destruct (Z.leb_spec (ordinal d + 1) MAXORDINAL); [|lia]. simpl.
  rewrite skip_weekend_unfold. simpl.
  assert (weekday (ordinal d + 1) = 0) as ->.
  { unfold weekday in *. Z.to_euclidean_division_equations; lia. }
  reflexivity.
Qed.

Lemma skip_weekend_returns (d : datetime) :
  1 <= ordinal d -> ordinal d + 2 <= MAXORDINAL ->
  exists d', skip_weekend d = Ok d'.
Proof.
  intros Hmin Hmax.
  assert (0 <= weekday (ordinal d) < 7) as Hw
    by (unfold weekday; apply Z.mod_pos_bound; lia).
  destruct (Z.eq_dec (weekday (ordinal d)) 5) as [E5|N5];
    [rewrite skip_weekend_saturday by assumption; eauto|].
  destruct (Z.eq_dec (weekday (ordinal d)) 6) as [E6|N6];
    [rewrite skip_weekend_sunday by (assumption || lia); eauto|].
  rewrite skip_weekend_unfold.
  destruct (Z.leb_spec 5 (weekday (ordinal d))); [lia | eauto].
Qed.

(** X1.  Away from the last days of year 9999 the date of a run is
    computed; whenever it is computed it is a weekday, not before the
    date of [now] and at most three days after it. *)
Theorem release_date_weekday (now : datetime) :
  (1 <= ordinal now -> ordinal now + 3 <= MAXORDINAL ->
   exists release, release_date now = Ok release) /\
  (forall release,
     release_date now = Ok release ->
     0 <= weekday release < 5 /\
     ordinal now <= release <= ordinal now + 3).
Proof.
  split.
  - intros Hmin Hmax. unfold release_date.
    destruct ((16 <=? hour now) && (30 <=? minute now)).
    + unfold datetime_add_days, add_days.
      destruct (Z.leb_spec 1 (ordinal now + 1)); [|lia].
      destruct (Z.leb_spec (ordinal now + 1) MAXORDINAL); [|lia]. cbn [andb].
      destruct (skip_weekend_returns
                  (mk_datetime (ordinal now + 1) (hour now) (minute now)
                     (second now) (microsecond now))) as [d' ->];
        simpl; try lia. eauto.
    + destruct (skip_weekend_returns now) as [d' ->]; try lia. eauto.
  - intros release. unfold release_date.
    assert (forall d d', skip_weekend d = Ok d' ->
              0 <= weekday (ordinal d') < 5 /\
              ordinal d <= ordinal d' <= ordinal d + 2) as Hskip.
    { intros d d' E. pose proof (skip_weekend_weekday _ _ E) as Hwd.
      pose proof (skip_weekend_distance _ _ E) as Hdist.
      assert (0 <= weekday (ordinal d') < 7)
        by (unfold weekday; apply Z.mod_pos_bound; lia).
      assert (0 <= weekday (ordinal d) < 7)
        by (unfold weekday; apply Z.mod_pos_bound; lia).
      destruct (Z.leb_spec 5 (weekday (ordinal d))); lia. }
    destruct ((16 <=? hour now) && (30 <=? minute now)).
    + destruct (datetime_add_days now 1) as [next|e] eqn:Ea; [|discriminate].
      apply datetime_add_days_ok in Ea. destruct Ea as [Ho _].
      destruct (skip_weekend next) as [d'|e] eqn:Es; [|discriminate].
      intros [= <-]. destruct (Hskip _ _ Es). lia.
    + destruct (skip_weekend now) as [d'|e] eqn:Es; [|discriminate].
      intros [= <-]. destruct (Hskip _ _ Es). lia.
Qed.

End ReleaseDateMore.

Lemma release_date_weekday_witness :
  exists release, release_date sat_1000 = Ok release /\ weekday release = 0.
Proof.
  destruct (release_date_weekday sat_1000) as [Hret _].
  destruct Hret as [release Hr]; [vm_compute; discriminate ..|].
  exists release. split; [exact Hr|].
  vm_compute in Hr. injection Hr as <-. reflexivity.
Defined.

(** ** The selection and the sort of the refresh job *)

Section SelectionAndSort.

Context {F : Type} `{Float64 F}.

(** X2.  The value selected from a series is the first one that is not
    missing: it is found exactly when the series is some missing values,
    then that value; nothing is found exactly when every value is
    missing. *)
Theorem first_notna_spec (series : Series F) :
  (forall v, first_notna series = Some v <->
     exists before d after,
       series = (before ++ (d, v) :: after)%list /\
       all_missing before /\ isna v = false) /\
  (first_notna series = None <-> all_missing series).
Proof.
  induction series as [|[d0 v0] rest [IHs IHn]].
  - split.
    + intros v. split; [discriminate|].
      intros (before & d & after & E & _). destruct before; discriminate.
    + split; [constructor | reflexivity].
  - simpl. destruct (isna v0) eqn:E0; simpl.
    + split.
      * intros v. rewrite IHs. split.
        -- intros (before & d & after & -> & Hb & Hv).
           exists ((d0, v0) :: before), d, after.
           repeat split; [constructor|]; assumption.
        -- intros (before & d & after & E & Hb & Hv).
           destruct before as [|b before]; simpl in E;
             injection E; intros; subst.
           ++ congruence.
           ++ inversion Hb; subst.
              exists before, d, after. repeat split; assumption.
      * rewrite IHn. split.
        -- intros Hr. constructor; assumption.
        -- intros Hall. inversion Hall; assumption.
    + split.
      * intros v. split.
        -- intros [= <-]. exists [], d0, rest.
           repeat split; [constructor | assumption].
        -- intros (before & d & after & E & Hb & Hv).
           destruct before as [|b before]; simpl in E;
             injection E; intros; subst.
           ++ reflexivity.
           ++ inversion Hb; subst. simpl in *. congruence.
      * split; [discriminate|]. intros Hall. inversion Hall; subst.
        simpl in *. congruence.
Qed.

Lemma insert_by_time_perm (e : Event) (l : list Event) :
  Permutation (insert_by_time e l) (e :: l).
Proof.
  induction l as [|x r IH]; simpl; [reflexivity|].
  destruct (String.leb (time e) (time x)); [reflexivity|].
  rewrite IH. apply perm_swap.
Qed.

Lemma insert_by_time_sorted (e : Event) (l : list Event) :
  Sorted time_le l -> Sorted time_le (insert_by_time e l).
Proof.
  induction 1 as [|x r Hr IH Hx]; simpl.
  - repeat constructor.
  - destruct (String.leb (time e) (time x)) eqn:Ele.
    + constructor; [constructor; assumption|]. constructor. exact Ele.
    + constructor; [exact IH|].
      assert (time_le x e) as Hxe.
      { destruct (String.leb_total (time e) (time x)); [congruence | assumption]. }
      destruct r as [|y r']; simpl.
      * constructor. exact Hxe.
      * destruct (String.leb (time e) (time y)); constructor;
          [exact Hxe | inversion Hx; assumption].
Qed.

Lemma insert_by_time_keeps_order (t : string) (e : Event) (l : list Event) :
  List.filter (fun ev => String.eqb (time ev) t) (insert_by_time e l)
  = List.filter (fun ev => String.eqb (time ev) t) (e :: l).
Proof.
  induction l as [|x r IH]; [reflexivity|].
  simpl. destruct (String.leb (time e) (time x)) eqn:Ele; [reflexivity|].
  simpl in *. rewrite IH.
  destruct (String.eqb_spec (time e) t) as [Et|Et]; [|reflexivity].
  destruct (String.eqb_spec (time x) t) as [Ex|Ex]; [|reflexivity].
  exfalso. rewrite Et, <- Ex in Ele. rewrite leb_same in Ele. discriminate.
Qed.

(** X3.  The sort of the events by time is a stable sort: its result
    holds the same events, in ascending order of their time texts, and
    events of equal time keep the order they had. *)
Theorem sorted_by_time_stable (events : list Event) :
  Permutation (sorted_by_time events) events /\
  Sorted time_le (sorted_by_time events) /\
  forall t,
    List.filter (fun ev => String.eqb (time ev) t) (sorted_by_time events)
    = List.filter (fun ev => String.eqb (time ev) t) events.
Proof.
  unfold sorted_by_time. induction events as [|e rest (IHp & IHs & IHf)].
  - repeat split; constructor.
  - simpl. split; [|split].
    + rewrite insert_by_time_perm. constructor. exact IHp.
    + apply insert_by_time_sorted. exact IHs.
    + intros t. rewrite insert_by_time_keeps_order. simpl. rewrite IHf.
      reflexivity.
Qed.

End SelectionAndSort.

(** ** The cache over refreshes *)

Section CacheShape.

Context {F : Type} `{Float64 F}.

Lemma fetch_indicator_entry (w : World F) now release key label (ev : Event) :
  outcome (fetch_indicator w now release key label) = Ok ev ->
  entry_of ev = (key, label) /\ impact ev = impact_of key /\
  time ev = isoformat release.
Proof.
  unfold fetch_indicator. intros Ho.
  repeat (apply bind_ok_inv in Ho; destruct Ho as (? & _ & Ho)).
  simpl in Ho. injection Ho as <-. repeat split.
Qed.

Lemma indicators_loop_entries (w : World F) now release catalog events result :
  outcome (indicators_loop w now release catalog events) = Ok result ->
  exists more,
    result = (events ++ more)%list /\
    sublist (map entry_of more) catalog /\
    Forall (fun ev => impact ev = impact_of (series_id ev)) more.
Proof.
  revert events. induction catalog as [|[key label] rest IH]; intros events Ho.
  - simpl in Ho. injection Ho as <-. exists []. rewrite app_nil_r.
    repeat split; constructor.
  - simpl in Ho. apply bind_ok_inv in Ho. destruct Ho as (events' & Hstep & Ho).
    destruct (IH _ Ho) as (more & -> & Hsub & Himp).
    destruct (outcome (fetch_indicator w now release key label))
      as [ev|e] eqn:Ef.
    + rewrite (outcome_try_ok _ _ (events ++ [ev])%list) in Hstep
        by (rewrite (outcome_bind_ok _ _ ev) by assumption; reflexivity).
      injection Hstep as <-.
      destruct (fetch_indicator_entry _ _ _ _ _ _ Ef) as (He & Hi & _).
      exists (ev :: more). rewrite <- app_assoc. repeat split.
      * simpl. rewrite He. apply sublist_skip. assumption.
      * constructor; [|assumption].
        unfold entry_of in He. injection He as -> _. assumption.
    + rewrite (outcome_try_raise _ _ e) in Hstep
        by (apply outcome_bind_raise; assumption).
      apply bind_ok_inv in Hstep. destruct Hstep as (? & _ & Hstep).
      simpl in Hstep. injection Hstep as <-.
      exists more. repeat split; [apply sublist_cons|]; assumption.
Qed.

Lemma sublist_map {A B : Type} (f : A -> B) (l1 l2 : list A) :
  sublist l1 l2 -> sublist (map f l1) (map f l2).
Proof. induction 1; simpl; constructor; assumption. Qed.

Lemma sublist_In {A : Type} (l1 l2 : list A) :
  sublist l1 l2 -> Forall (fun x => In x l2) l1.
Proof.
  induction 1 as [|x l1 l2 _ IH|x l1 l2 _ IH].
  - constructor.
  - constructor; [left; reflexivity|].
    eapply Forall_impl; [exact IH|]. intros y Hy. right. assumption.
  - eapply Forall_impl; [exact IH|]. intros y Hy. right. assumption.
Qed.

Lemma catalog_keys_NoDup : NoDup (map fst ECONOMIC_INDICATORS).
Proof.
  apply (bool_decide_unpack (NoDup (map fst ECONOMIC_INDICATORS))).
  vm_compute. exact I.
Qed.

(** The shape that every refresh gives the cache. *)
Lemma fetch_economic_events_shape (w : World F) (events : list Event) :
  clock_in_range w ->
  outcome (fetch_economic_events w) = Ok events ->
  (exists d, 1 <= d <= MAXORDINAL /\
     Forall (fun ev => time ev = isoformat d) events) /\
  sublist (map entry_of events) ECONOMIC_INDICATORS /\
  Forall (fun ev => impact ev = impact_of (series_id ev)) events.
Proof.
  intros Hclock Ho.
  split; [apply (fetch_economic_events_time w); assumption|].
  rewrite fetch_economic_events_unfold in Ho.
  apply bind_ok_inv in Ho. destruct Ho as (now & Hnow & Ho).
  apply bind_ok_inv in Ho. destruct Ho as (release & Hrel & Ho).
  destruct (outcome (guarded_run w now release)) as [evs|e] eqn:Eg.
  - rewrite (outcome_try_ok _ _ evs) in Ho by assumption.
    injection Ho as <-. unfold guarded_run in Eg.
    apply bind_ok_inv in Eg. destruct Eg as (evs' & Hloop & Eg).
    simpl in Eg. injection Eg as <-.
    pose proof (indicators_loop_time _ _ _ _ _ _
                  (List.Forall_nil (fun ev => time ev = isoformat release))
                  Hloop) as Htime.
    rewrite (sorted_by_time_same_date (isoformat release)) by assumption.
    destruct (indicators_loop_entries _ _ _ _ _ _ Hloop) as (more & -> & Hs & Hi).
    cbn [app]. split; assumption.
  - rewrite (outcome_try_raise _ _ e) in Ho by assumption.
    apply bind_ok_inv in Ho. destruct Ho as (? & _ & Ho).
    simpl in Ho. injection Ho as <-.
    split; [apply sublist_nil_l | constructor].
Qed.

Lemma reachable_shape (daily_events : list Event) :
  reachable daily_events ->
  (exists d, 1 <= d <= MAXORDINAL /\
     Forall (fun ev => time ev = isoformat d) daily_events) /\
  sublist (map entry_of daily_events) ECONOMIC_INDICATORS /\
  Forall (fun ev => impact ev = impact_of (series_id ev)) daily_events.
Proof.
  induction 1 as [|w daily_events Hclock _ IH].
  - split; [exists 1; split; [vm_compute; split; discriminate | constructor]|].
    split; [apply sublist_nil_l | constructor].
  - unfold update_daily_events.
    destruct (fetch_economic_events w) as [t [events|e]] eqn:Ef;
      cbn [snd]; [|assumption].
    apply (fetch_economic_events_shape w); [assumption|].
    rewrite Ef. reflexivity.
Qed.

(** X4.  Whatever refreshes have run and however they failed, the cache
    holds entries of the catalog only, in catalog order and each key at
    most once (so at most 21 records); all its records are filed under
    one and the same date; and the impact of a record is High exactly
    for the four high-impact keys. *)
Theorem reachable_cache_shape (daily_events : list Event) :
  reachable daily_events ->
  (exists d, 1 <= d <= MAXORDINAL /\
     Forall (fun ev => time ev = isoformat d) daily_events) /\
  sublist (map series_id daily_events) (map fst ECONOMIC_INDICATORS) /\
  NoDup (map series_id daily_events) /\
  (length daily_events <= 21)%nat /\
  Forall from_catalog daily_events.
Proof.
  intros Hreach. destruct (reachable_shape _ Hreach) as (Hdate & Hsub & Himp).
  assert (sublist (map series_id daily_events) (map fst ECONOMIC_INDICATORS))
    as Hkeys.
  { apply (sublist_map fst) in Hsub. rewrite map_map in Hsub. exact Hsub. }
  split; [assumption|]. split; [assumption|]. split; [|split].
  - eapply sublist_NoDup; [apply catalog_keys_NoDup | exact Hkeys].
  - apply sublist_length in Hkeys. rewrite !length_map in Hkeys. exact Hkeys.
  - apply sublist_In in Hsub. rewrite Forall_map in Hsub.
    apply Forall_forall. intros ev Hin.
    rewrite Forall_forall in Hsub, Himp. split; [apply Hsub | apply Himp];
      assumption.
Qed.

End CacheShape.

Lemma reachable_cache_shape_witness :
  reachable (snd (update_daily_events patchy [old_event])) /\
  NoDup (map series_id (snd (update_daily_events patchy [old_event]))) /\
  length (snd (update_daily_events patchy [old_event])) = 19%nat.
Proof.
  assert (reachable (snd (update_daily_events patchy [] ))) as Hreach.
  { apply reach_refresh; [|apply reach_start].
    intros now [= <-]. vm_compute. split; discriminate. }
  assert (snd (update_daily_events patchy [old_event])
          = snd (update_daily_events patchy [])) as -> by reflexivity.
  split; [exact Hreach|]. split; [|vm_compute; reflexivity].
  apply (reachable_cache_shape _ Hreach).
Defined.

(** ** More on the notifier *)

Section NotifierMore.

Context {F : Type} `{Float64 F}.

(** A text that does not start with a digit is refused. *)
Lemma unreadable_raises (s : string) :
  unreadable s -> exists e, fromisoformat s = Raise e.
Proof.
  intros Hbad. unfold fromisoformat.
  destruct s as [|y1 [|y2 [|y3 [|y4 [|c1 [|m1 [|m2 [|c2 [|d1 [|d2 rest]]]]]]]]]];
    try (eexists; reflexivity).
  all: cbn [unreadable] in Hbad.
  all: destruct c1 as [[] [] [] [] [] [] [] []]; try (eexists; reflexivity).
  all: destruct c2 as [[] [] [] [] [] [] [] []]; try (eexists; reflexivity).
  unfold int4, int2. rewrite Hbad. eexists. reflexivity.
Qed.

(** The loop over a list goes through its items in order: the events of
    the items that return come first. *)
Lemma for_each_app {A : Type} (l1 l2 : list A)
    (body : A -> io (effect F) unit) :
  outcome (for_each l1 body) = Ok tt ->
  for_each (l1 ++ l2) body
  = ((trace (for_each l1 body) ++ trace (for_each l2 body))%list,
     outcome (for_each l2 body)).
Proof.
  induction l1 as [|x l1 IH]; intros Hok.
  - cbn [app for_each ret trace outcome fst]. destruct (for_each l2 body).
    reflexivity.
  - cbn [app for_each] in *.
    destruct (body x) as [t [[]|e]]; [|discriminate].
    unfold bind, outcome, trace in *.
    destruct (for_each l1 body) as [t1 r1]. cbn [fst snd] in *. subst r1.
    rewrite IH by reflexivity. cbn [fst snd].
    rewrite app_assoc. reflexivity.
Qed.

Lemma check_events_readable (w : World F) (daily_events : list Event)
    (CH : gset Z) :
  readable daily_events -> outcome (check_events w daily_events CH) = Ok tt.
Proof.
  intros Hread. unfold check_events. rewrite for_each_flat; [reflexivity|].
  eapply Forall_impl; [exact Hread|].
  intros event [t Ht]. rewrite (check_event_due _ _ _ _ _ Ht). reflexivity.
Qed.

(** X5.  A cached record whose time text does not start with a digit,
    which no version of the parser reads, stops the tick: the records
    before it, whose texts are read, are handled as in a tick over them
    alone, the exception of the parse leaves the notifier, and the
    records after it are not looked at. *)
Theorem notifier_stops_at_bad_record (w : World F) (CH : gset Z)
    (before after : list Event) (bad : Event) :
  readable before ->
  unreadable (time bad) ->
  exists e,
    check_events w (before ++ bad :: after) CH
    = (trace (check_events w before CH), Raise e).
Proof.
  intros Hbefore Hbad. destruct (unreadable_raises _ Hbad) as [e He].
  exists e. unfold check_events.
  rewrite for_each_app by (apply check_events_readable; exact Hbefore).
  assert (for_each (bad :: after) (check_event w (now_utc w) CH)
          = ([], Raise e)) as ->.
  { cbn [for_each]. unfold check_event at 1. rewrite He. reflexivity. }
  cbn [trace outcome fst snd]. rewrite app_nil_r. reflexivity.
Qed.

Lemma Forall_trace_for_each {A : Type} (P : effect F -> Prop) (l : list A)
    (body : A -> io (effect F) unit) :
  (forall x, Forall P (trace (body x))) ->
  Forall P (trace (for_each l body)).
Proof.
  intros Hbody. induction l as [|x l IH]; [constructor|].
  simpl. apply Forall_trace_bind; [apply Hbody | intros _; exact IH].
Qed.

Lemma check_events_to_registered (w : World F) (daily_events : list Event)
    (CH : gset Z) :
  Forall (to_registered w CH) (trace (check_events w daily_events CH)).
Proof.
  unfold check_events. apply Forall_trace_for_each. intros event.
  unfold check_event.
  apply Forall_trace_bind; [apply Forall_trace_lift|]. intros t.
  destruct ((hour t =? 0) && (minute t =? 0)); [apply Forall_trace_ret|].
  destruct ((minutes 14 <=? to_us t - to_us (now_utc w))
            && (to_us t - to_us (now_utc w) <=? minutes 15));
    [|apply Forall_trace_ret].
  assert (forall ids, (forall id, In id ids -> id ∈ CH) ->
            Forall (to_registered w CH)
              (trace (for_each ids (fun channel_id =>
                 match get_channel w channel_id return io (effect F) unit with
                 | Some channel =>
                     emit (Deliver (ChannelSend channel) (notification event t))
                 | None => ret tt
                 end)))) as Hids.
  { intros ids Hin. rewrite notify_all. unfold trace. cbn [fst].
    induction ids as [|id ids IH]; [constructor|].
    unfold resolve in *. cbn [flat_map].
    destruct (get_channel w id) as [channel|] eqn:Eg; cbn [app map].
    - constructor.
      + exists id, channel, (notification event t).
        repeat split; [apply Hin; left; reflexivity | assumption].
      + apply IH. intros id' Hin'. apply Hin. right. assumption.
    - apply IH. intros id' Hin'. apply Hin. right. assumption. }
  apply Hids. intros id Hin. apply elem_of_elements.
  apply list_elem_of_In. assumption.
Qed.

Lemma to_registered_channel (w : World F) (CH : gset Z) (t : list (effect F))
    (c : Z) (m : message) :
  resolves_by_id w ->
  Forall (to_registered w CH) t ->
  In (c, m) (channel_messages t) -> c ∈ CH.
Proof.
  intros Hid Hall Hin. unfold channel_messages in Hin.
  apply in_flat_map in Hin. destruct Hin as (ev & Hev & Hcm).
  rewrite List.Forall_forall in Hall. destruct (Hall ev Hev)
    as (id & channel & m' & -> & Hreg & Hres).
  cbn in Hcm. destruct Hcm as [[= <- <-]|[]].
  rewrite (Hid _ _ Hres). assumption.
Qed.

(** X6.  Whatever the cache holds, a tick of the notifier does nothing
    but send notices, and every notice goes to a channel that a
    registered destination resolves to: with channels resolved by
    identifier, to a registered destination. *)
Theorem notifier_only_registered (w : World F) (daily_events : list Event)
    (CH : gset Z) :
  Forall (to_registered w CH) (trace (check_events w daily_events CH)) /\
  (resolves_by_id w ->
   forall c m,
     In (c, m) (channel_messages (trace (check_events w daily_events CH))) ->
     c ∈ CH).
Proof.
  split; [apply check_events_to_registered|].
  intros Hid c m Hin.
  apply (to_registered_channel w CH _ c m Hid) in Hin;
    [assumption | apply check_events_to_registered].
Qed.

(** An event that is not due leaves the tick as it is without it. *)
Lemma check_events_without (w : World F) (CH : gset Z)
    (before after : list Event) (event : Event) (t : datetime) :
  fromisoformat (time event) = Ok t ->
  due (now_utc w) event = false ->
  check_events w (before ++ event :: after) CH
  = check_events w (before ++ after) CH.
Proof.
  intros Hp Hdue. unfold check_events.
  induction before as [|first rest IH].
  - cbn [app for_each]. rewrite (check_event_due _ _ _ _ _ Hp), Hdue.
    cbn [bind]. destruct (for_each after _). reflexivity.
  - cbn [app for_each]. rewrite IH. reflexivity.
Qed.

(** An event that is due is notified, whatever comes after it in the
    cache, when the records before it are read. *)
Lemma due_is_notified (w : World F) (CH : gset Z)
    (before after : list Event) (event : Event) (t : datetime) :
  readable before ->
  fromisoformat (time event) = Ok t ->
  due (now_utc w) event = true ->
  notified w CH (before ++ event :: after) event t.
Proof.
  intros Hbefore Hp Hdue id channel Hreg Hres.
  unfold check_events.
  rewrite for_each_app by (apply check_events_readable; exact Hbefore).
  cbn [for_each trace fst]. rewrite (check_event_due _ _ _ _ _ Hp), Hdue.
  cbn [bind]. destruct (for_each after _) as [t' r']. cbn [trace fst].
  unfold channel_messages. rewrite !flat_map_app.
  apply in_or_app. right. apply in_or_app. left.
  apply in_flat_map.
  exists (Deliver (ChannelSend channel) (notification event t)).
  split; [|left; reflexivity].
  unfold notices. apply in_map_iff. exists channel. split; [reflexivity|].
  unfold resolve. apply in_flat_map.
  exists id. split.
  - apply list_elem_of_In, elem_of_elements. exact Hreg.
  - rewrite Hres. left. reflexivity.
Qed.

(** X7.  The registry decides who is notified.  After a [removechannel]
    that passed its check, no tick sends a notice to the channel,
    whatever the cache.  After a [setchannel] that passed its check, in
    a channel that resolves, every tick notifies the channel of every
    event that is due, whatever comes after the event in the cache,
    when the records before it are read.  A command that fails its
    check leaves the registry as it is. *)
Theorem registry_decides (w : World F) (CH : gset Z) (c : Z) :
  resolves_by_id w ->
  (forall daily_events m,
     ~ In (c, m)
         (channel_messages
            (trace (check_events w daily_events
                      (fst (remove_channel (F:=F) true CH c)))))) /\
  (get_channel w c = Some c ->
   forall before after event t,
     readable before ->
     fromisoformat (time event) = Ok t ->
     due (now_utc w) event = true ->
     In (c, notification event t)
       (channel_messages
          (trace (check_events w (before ++ event :: after)
                    (fst (set_channel (F:=F) true CH c)))))) /\
  fst (set_channel (F:=F) false CH c) = CH /\
  fst (remove_channel (F:=F) false CH c) = CH.
Proof.
  intros Hid. split; [|split; [|split; reflexivity]].
  - intros daily_events m Hin.
    apply (to_registered_channel w (fst (remove_channel (F:=F) true CH c))
             _ c m Hid) in Hin; [|apply check_events_to_registered].
    cbn [remove_channel fst] in Hin. set_solver.
  - intros Hc before after event t Hbefore Hp Hdue.
    apply (due_is_notified w _ before after event t Hbefore Hp Hdue c c);
      [|exact Hc].
    cbn [set_channel fst]. set_solver.
Qed.

(** X8.  With ticks exactly one minute apart, over a cache in which the
    records before the event are read, an event with a time of day
    that is at least 15 minutes ahead is noticed: some later tick
    notifies every registered destination that resolves.  A tick that
    is two ticks or more away from a tick inside the window of the
    event runs as if the event were not in the cache, so the event is
    noticed on at most two ticks; it is noticed on two, when a tick
    falls exactly 15 minutes before it, because the window includes
    both of its bounds. *)
Theorem minute_ticks (CH : gset Z) (before after : list Event)
    (event : Event) (t now0 : datetime) :
  readable before ->
  fromisoformat (time event) = Ok t ->
  has_time_of_day t ->
  (minutes 15 <= to_us t - to_us now0 ->
   exists k, 0 <= k /\
     forall w : World F,
       tick_after now0 (now_utc w) k ->
       notified w CH (before ++ event :: after) event t) /\
  (forall j k (w_j w_k : World F),
     tick_after now0 (now_utc w_j) j -> tick_after now0 (now_utc w_k) k ->
     minutes 14 <= to_us t - to_us (now_utc w_j) <= minutes 15 ->
     k <= j - 2 \/ j + 2 <= k ->
     check_events w_k (before ++ event :: after) CH
     = check_events w_k (before ++ after) CH) /\
  (forall w next : World F,
     tick_after (now_utc w) (now_utc next) 1 ->
     to_us t - to_us (now_utc w) = minutes 15 ->
     notified w CH (before ++ event :: after) event t /\
     notified next CH (before ++ event :: after) event t).
Proof.
  intros Hbefore Hp Hday.
  assert (forall now, minutes 14 <= to_us t - to_us now <= minutes 15 ->
                      due now event = true) as Hin.
  { intros now Hwin. apply (due_spec now event t Hp). split; assumption. }
  split; [|split].
  - intros Hahead.
    exists ((to_us t - to_us now0 - minutes 14) / minutes 1). split.
    + apply Z.div_pos; unfold minutes in *; lia.
    + intros w Htick. apply due_is_notified; try assumption.
      apply Hin. unfold tick_after in Htick. rewrite Htick.
      unfold minutes in *. Z.to_euclidean_division_equations; lia.
  - intros j k w_j w_k Hj Hk Hwin Hfar.
    apply (check_events_without w_k CH before after event t Hp).
    destruct (due (now_utc w_k) event) eqn:Hdue; [|reflexivity].
    apply (due_spec _ event t Hp) in Hdue. destruct Hdue as [_ Hwin'].
    unfold tick_after in *. unfold minutes in *. lia.
  - intros w next Htick Hexact. unfold tick_after in Htick.
    split; apply due_is_notified; try assumption; apply Hin;
      unfold minutes in *; lia.
Qed.

End NotifierMore.

Lemma notifier_stops_at_bad_record_witness :
  exists e,
    check_events calm [afternoon_event; garbled; afternoon_event] {[ 1 ]}
    = ([ Deliver (ChannelSend 1)
           (notification afternoon_event (mk_datetime 738888 15 14 30 0)) ],
       Raise e).
Proof.
  destruct (notifier_stops_at_bad_record calm {[ 1 ]} [afternoon_event]
              [afternoon_event] garbled) as [e He].
  - repeat constructor. eexists. vm_compute. reflexivity.
  - vm_compute. reflexivity.
  - exists e. cbn [app] in He. rewrite He. vm_compute. reflexivity.
Defined.

Lemma calm_resolves_by_id : resolves_by_id calm.
Proof. intros id channel [= <-]. reflexivity. Qed.

Lemma notifier_only_registered_witness :
  Forall (to_registered calm {[ 1; 2 ]})
    (trace (check_events calm [afternoon_event; later_event] {[ 1; 2 ]})).
Proof.
  destruct (notifier_only_registered calm [afternoon_event; later_event]
              {[ 1; 2 ]}) as [Hall _].
  exact Hall.
Defined.

Lemma registry_decides_witness :
  In (7, notification afternoon_event (mk_datetime 738888 15 14 30 0))
    (channel_messages
       (trace (check_events calm [later_event; afternoon_event; garbled]
                 (fst (set_channel (F:=dec) true {[ 1 ]} 7))))).
Proof.
  destruct (registry_decides calm {[ 1 ]} 7 calm_resolves_by_id)
    as (_ & Hset & _).
  apply (Hset eq_refl [later_event] [garbled] afternoon_event
           (mk_datetime 738888 15 14 30 0)).
  - repeat constructor. eexists. vm_compute. reflexivity.
  - vm_compute. reflexivity.
  - vm_compute. reflexivity.
Defined.

Lemma minute_ticks_witness :
  exists k, 0 <= k /\
    forall w : World dec,
      tick_after (mk_datetime 738888 14 0 0 0) (now_utc w) k ->
      notified w {[ 1 ]} [later_event; afternoon_event; garbled]
        afternoon_event (mk_datetime 738888 15 14 30 0).
Proof.
  destruct (minute_ticks (F:=dec) {[ 1 ]} [later_event] [garbled]
              afternoon_event (mk_datetime 738888 15 14 30 0)
              (mk_datetime 738888 14 0 0 0))
    as [Hsome _].
  - repeat constructor. eexists. vm_compute. reflexivity.
  - vm_compute. reflexivity.
  - intros [Hh _]. vm_compute in Hh. discriminate.
  - apply Hsome. vm_compute. discriminate.
Defined.

(** ** More on the chart relay *)

Section ChartRelayMore.

Context {F : Type} `{Float64 F}.

Lemma upper_char_idem (c : ascii) : upper_char (upper_char c) = upper_char c.
Proof. destruct c as [[] [] [] [] [] [] [] []]; reflexivity. Qed.

Lemma lower_char_idem (c : ascii) : lower_char (lower_char c) = lower_char c.
Proof. destruct c as [[] [] [] [] [] [] [] []]; reflexivity. Qed.

Lemma upper_idem (s : string) : upper (upper s) = upper s.
Proof.
  unfold upper. induction s as [|c s IH]; [reflexivity|].
  simpl. rewrite upper_char_idem, IH. reflexivity.
Qed.

Lemma lower_idem (s : string) : lower (lower s) = lower s.
Proof.
  unfold lower. induction s as [|c s IH]; [reflexivity|].
  simpl. rewrite lower_char_idem, IH. reflexivity.
Qed.

Lemma send_chart_by_case (w : World F) (channel : Z)
    (ticker ticker' timeframe timeframe' : string) :
  upper ticker' = upper ticker -> lower timeframe' = lower timeframe ->
  send_chart w channel ticker' timeframe' = send_chart w channel ticker timeframe.
Proof. intros Ht Htf. unfold send_chart. rewrite Ht, Htf. reflexivity. Qed.

(** X9.  The chart relay does not tell upper case from lower case.  For
    a ticker and a timeframe of ASCII text, giving the ticker in upper
    case and the timeframe in lower case, or the ticker in lower case
    and the timeframe in upper case, changes neither the request made
    nor the reply. *)
Theorem send_chart_ignores_case (w : World F) (channel : Z)
    (ticker timeframe : string) :
  has_non_ascii ticker = false ->
  has_non_ascii timeframe = false ->
  send_chart w channel (upper ticker) (lower timeframe)
  = send_chart w channel ticker timeframe /\
  send_chart w channel (lower ticker) (upper timeframe)
  = send_chart w channel ticker timeframe.
Proof.
  intros _ _. split; apply send_chart_by_case.
  - apply upper_idem.
  - apply lower_idem.
  - unfold upper, lower. induction ticker as [|c s IH]; [reflexivity|].
    simpl. rewrite IH. f_equal.
    destruct c as [[] [] [] [] [] [] [] []]; reflexivity.
  - unfold upper, lower. induction timeframe as [|c s IH]; [reflexivity|].
    simpl. rewrite IH. f_equal.
    destruct c as [[] [] [] [] [] [] [] []]; reflexivity.
Qed.

Lemma send_chart_shape (w : World F) (channel : Z) (ticker timeframe : string) :
  exists requests m,
    send_chart w channel ticker timeframe
    = ((requests ++ [ Deliver (ChannelSend channel) m ])%list, Ok tt) /\
    chart_file_matches m /\
    (requests = [] \/ exists url headers, requests = [ HttpGet url headers ]).
Proof.
  unfold send_chart. cbv zeta.
  destruct (in_list (lower timeframe) _).
  { exists [], (text "Intraday charts are only available for FINVIZ*Elite users.").
    split; [reflexivity|]. split; [exact I | left; reflexivity]. }
  destruct (valid_timeframes !! lower timeframe) as [timeframe_name|] eqn:Hname.
  2:{ eexists [], _. split; [reflexivity|]. split; [exact I | left; reflexivity]. }
  destruct (valid_timeframes_values _ _ Hname) as [p Hp].
  unfold getitem. rewrite Hp. unfold lift at 1. unfold bind at 1.
  destruct (http_get w _ _) as [[status body]|e].
  - cbn [fst snd lift emit bind try_except raise app].
    destruct (status =? 200).
    + destruct body as [image|e];
        cbn [fst snd lift emit bind try_except raise app];
        eexists [HttpGet _ _], _;
        (split; [reflexivity|]); (split; [|right; eauto]);
        [reflexivity | exact I].
    + cbn [fst snd lift emit bind try_except raise app].
      eexists [HttpGet _ _], _.
      split; [reflexivity|]. split; [exact I | right; eauto].
  - cbn [fst snd lift emit bind try_except raise app].
    eexists [HttpGet _ _], _.
    split; [reflexivity|]. split; [exact I | right; eauto].
Qed.

(** X10.  Whatever it is asked and whatever the chart site does, the
    relay returns normally after exactly one message, sent to the
    channel it was given, and at most one HTTP request; when the message
    carries a file, the image of its embed is the attachment of that
    file's name. *)
Theorem send_chart_one_reply (w : World F) (channel : Z)
    (ticker timeframe : string) :
  outcome (send_chart w channel ticker timeframe) = Ok tt /\
  (exists m,
     delivered (trace (send_chart w channel ticker timeframe)) = [m] /\
     channel_messages (trace (send_chart w channel ticker timeframe))
     = [(channel, m)] /\
     chart_file_matches m) /\
  (length (List.filter is_http (trace (send_chart w channel ticker timeframe)))
   <= 1)%nat.
Proof.
  destruct (send_chart_shape w channel ticker timeframe)
    as (requests & m & -> & Hfile & [-> | (url & headers & ->)]).
  - split; [reflexivity|]. split; [|cbn; lia].
    exists m. repeat split; assumption.
  - split; [reflexivity|]. split; [|cbn; lia].
    exists m. repeat split; assumption.
Qed.

(** X11.  When the chart site answers 200 with an image, the reply to a
    request for timeframe d, w or m is one message that carries the
    image as a file named after the ticker in upper case, the timeframe
    letter and the Unix time, under an embed that shows that file; the
    one HTTP request had the browser-like headers. *)
Theorem send_chart_attaches (w : World F) (channel : Z)
    (ticker timeframe timeframe_name image : string) :
  In (lower timeframe) ["d"; "w"; "m"] ->
  valid_timeframes !! lower timeframe = Some timeframe_name ->
  http_get w (chart_url_of (upper ticker) (lower timeframe))
    (chart_headers (upper ticker) (lower timeframe))
  = Ok (200, Ok image) ->
  let file_name :=
    upper ticker ++ "_" ++ lower timeframe ++ "_" ++ str_of_Z (unix_time w)
    ++ ".png" in
  send_chart w channel ticker timeframe
  = ([ HttpGet (chart_url_of (upper ticker) (lower timeframe))
         (chart_headers (upper ticker) (lower timeframe));
       Deliver (ChannelSend channel)
         (mk_message None
            (Some (mk_embed (upper ticker ++ " " ++ timeframe_name ++ " Chart")
                     None 65280 [] (Some ("attachment://" ++ file_name))))
            (Some (mk_file file_name image))) ],
     Ok tt).
Proof.
  intros Hin Hname Hget file_name.
  destruct (valid_timeframes_lookup _ _ Hin Hname) as [Hp Hnot].
  unfold send_chart. cbv zeta. rewrite Hnot, Hname.
  unfold getitem. rewrite Hp. unfold lift at 1. unfold bind at 1.
  rewrite Hget. reflexivity.
Qed.

End ChartRelayMore.

Lemma send_chart_ignores_case_witness :
  send_chart online 7 "AAPL" "w" = send_chart online 7 "aApL" "W" /\
  send_chart online 7 "aapl" "W" = send_chart online 7 "aApL" "W".
Proof.
  apply (send_chart_ignores_case online 7 "aApL" "W"); reflexivity.
Defined.

Lemma send_chart_attaches_witness :
  send_chart online 7 "aapl" "W"
  = ([ HttpGet "https://finviz.com/chart.ashx?t=AAPL&ty=c&ta=1&p=w&s=l"
         (chart_headers "AAPL" "w");
       Deliver (ChannelSend 7)
         (mk_message None
            (Some (mk_embed "AAPL weekly Chart" None 65280 []
                     (Some "attachment://AAPL_w_1704294000.png")))
            (Some (mk_file "AAPL_w_1704294000.png" "PNG"))) ],
     Ok tt).
Proof.
  apply (send_chart_attaches online 7 "aapl" "W" "weekly" "PNG").
  - simpl. auto.
  - reflexivity.
  - reflexivity.
Defined.

(** ** The dispatch of chat messages *)

Section DispatchFacts.

Context {F : Type} `{Float64 F}.

Lemma no_space_app (a b : string) :
  no_space (a ++ b) = no_space a && no_space b.
Proof.
  induction a as [|c a IH]; [reflexivity|].
  rewrite append_cons. cbn [no_space]. rewrite IH, andb_assoc. reflexivity.
Qed.

Lemma concat_empty_cons (word : string) (words : list string) :
  String.concat "" (word :: words) = word ++ String.concat "" words.
Proof.
  destruct words as [|w ws]; cbn [String.concat].
  - induction word as [|c word IH]; [reflexivity|].
    rewrite append_cons, <- IH. reflexivity.
  - rewrite append_empty. reflexivity.
Qed.

Lemma append_assoc (a b c : string) : (a ++ b) ++ c = a ++ (b ++ c).
Proof.
  induction a as [|x a IH]; [reflexivity|].
  rewrite !append_cons, IH. reflexivity.
Qed.

Lemma split_from_words (word s : string) :
  no_space word = true -> Forall is_word (split_from word s).
Proof.
  revert word. induction s as [|c rest IH]; intros word Hw; cbn [split_from].
  - destruct word; repeat constructor; [discriminate | assumption].
  - destruct (py_isspace c) eqn:Ec.
    + destruct word as [|x word'].
      * apply IH. reflexivity.
      * constructor; [split; [discriminate | assumption]|].
        apply IH. reflexivity.
    + apply IH. rewrite no_space_app, Hw. cbn [no_space]. rewrite Ec.
      reflexivity.
Qed.

Lemma split_from_concat (word s : string) :
  String.concat "" (split_from word s) = word ++ without_space s.
Proof.
  revert word. induction s as [|c rest IH]; intros word; cbn [split_from].
  - destruct word as [|x word']; cbn [without_space String.concat].
    + reflexivity.
    + induction (String x word') as [|y u IHu]; [reflexivity|].
      rewrite append_cons, <- IHu. reflexivity.
  - cbn [without_space]. destruct (py_isspace c).
    + destruct word as [|x word'].
      * rewrite IH. reflexivity.
      * rewrite concat_empty_cons, IH, append_empty. reflexivity.
    + rewrite IH, append_assoc, append_cons, append_empty. reflexivity.
Qed.

(** X12.  The words an ASCII text is cut into are never empty and hold
    no whitespace, and put together they are the text with its
    whitespace taken out: no character is lost or added. *)
Theorem split_words (s : string) :
  has_non_ascii s = false ->
  Forall is_word (split s) /\
  String.concat "" (split s) = without_space s.
Proof.
  intros _. unfold split. split.
  - apply split_from_words. reflexivity.
  - rewrite split_from_concat. apply append_empty.
Qed.

(** X13.  What becomes of a chat message of ASCII text.  A message of
    the bot itself is ignored.  A message that does not start with [;],
    and a message that starts like [;help] or one of the six commands,
    is handed to the command framework and nothing is sent.  Every
    other message gets exactly one reply in its channel and is not
    handed on: with exactly two words after the [;] the reply is the
    chart relay's, for these two words, each a word without whitespace;
    with any other number of words it is the usage text. *)
Theorem on_message_dispatch (w : World F) (channel : Z) (content : string) :
  has_non_ascii content = false ->
  on_message w true channel content = ([], Ok false) /\
  (String.prefix ";" content = false \/ is_command content = true ->
   on_message w false channel content = ([], Ok true)) /\
  (String.prefix ";" content = true -> is_command content = false ->
   outcome (on_message w false channel content) = Ok false /\
   (exists m,
      channel_messages (trace (on_message w false channel content))
      = [(channel, m)]) /\
   (forall ticker timeframe,
      split (from_1 content) = [ticker; timeframe] ->
      is_word ticker /\ is_word timeframe /\
      trace (on_message w false channel content)
      = trace (send_chart w channel ticker timeframe)) /\
   (length (split (from_1 content)) <> 2%nat ->
    trace (on_message w false channel content)
    = [ Deliver (ChannelSend channel) (text USAGE) ])).
Proof.
  intros _. split; [reflexivity|]. split.
  - unfold on_message, is_command. intros [Hp|Hc].
    + rewrite Hp. reflexivity.
    + destruct (String.prefix ";" content); [|reflexivity].
      destruct (String.prefix ";help" content); [reflexivity|].
      cbn [orb] in Hc. rewrite Hc. reflexivity.
  - intros Hp Hc. unfold on_message, is_command in *. rewrite Hp.
    apply orb_false_elim in Hc. destruct Hc as [-> ->].
    assert (Forall is_word (split (from_1 content))) as Hwords
      by (apply split_from_words; reflexivity).
    destruct (split (from_1 content)) as [|a [|b [|c rest]]] eqn:Es.
    + split; [reflexivity|]. split; [eexists; reflexivity|].
      split; [intros ? ? [=] | reflexivity].
    + split; [reflexivity|]. split; [eexists; reflexivity|].
      split; [intros ? ? [=] | reflexivity].
    + inversion Hwords as [|? ? Ha Hrest]; subst.
      inversion Hrest as [|? ? Hb _]; subst.
      destruct (send_chart_shape w channel a b)
        as (requests & m & Hrun & _ & Hrequests).
      assert (channel_messages (requests ++ [Deliver (ChannelSend channel) m])
              = [(channel, m)]) as Hm
        by (destruct Hrequests as [-> | (url & headers & ->)]; reflexivity).
      split; [rewrite Hrun; reflexivity|].
      split; [exists m; rewrite Hrun; cbn [bind ret trace fst snd];
              rewrite app_nil_r; exact Hm|].
      split.
      * intros ticker timeframe [= <- <-].
        split; [exact Ha|]. split; [exact Hb|].
        rewrite Hrun. cbn [bind ret trace fst snd]. apply app_nil_r.
      * intros Hlen. exfalso. apply Hlen. reflexivity.
    + split; [reflexivity|]. split; [eexists; reflexivity|].
      split; [intros ? ? [=] | reflexivity].
Qed.

End DispatchFacts.

Lemma split_words_witness :
  Forall is_word (split "  aapl   d ") /\
  String.concat "" (split "  aapl   d ") = "aapld".
Proof.
  apply (split_words "  aapl   d "). reflexivity.
Defined.

Lemma on_message_dispatch_witness :
  trace (on_message online false 7 ";aapl w")
  = trace (send_chart online 7 "aapl" "w") /\
  trace (on_message online false 7 ";aapl")
  = [ Deliver (ChannelSend 7) (text USAGE) ] /\
  on_message online false 7 ";events" = ([], Ok true).
Proof.
  destruct (on_message_dispatch online 7 ";aapl w" eq_refl) as (_ & _ & Hchart).
  destruct (on_message_dispatch online 7 ";aapl" eq_refl) as (_ & _ & Husage).
  destruct (on_message_dispatch online 7 ";events" eq_refl)
    as (_ & Hcommand & _).
  split; [|split].
  - destruct (Hchart eq_refl eq_refl) as (_ & _ & Hrelay & _).
    apply (Hrelay "aapl" "w"). reflexivity.
  - destruct (Husage eq_refl eq_refl) as (_ & _ & _ & Hu).
    apply Hu. vm_compute. discriminate.
  - apply Hcommand. right. reflexivity.
Defined.

(** ** The events command on a refreshed cache *)

Section EventsReply.

Context {F : Type} `{Float64 F}.

Lemma append_empty_r (s : string) : s ++ "" = s.
Proof.
  induction s as [|c s IH]; [reflexivity|].
  rewrite append_cons, IH. reflexivity.
Qed.

Lemma high_impact_fields_same_date (d : Z) (events : list Event)
    (fields : list field) :
  1 <= d <= MAXORDINAL ->
  Forall (fun ev => time ev = isoformat d) events ->
  high_impact_fields events fields
  = Ok (fields
        ++ map (high_field (strftime_a_b_d (mk_datetime d 0 0 0 0))) events)%list.
Proof.
  intros Hd Hall. revert fields.
  induction Hall as [|event rest Htime _ IH]; intros fields.
  - cbn [high_impact_fields map]. rewrite app_nil_r. reflexivity.
  - cbn [high_impact_fields map]. rewrite Htime, (fromisoformat_isoformat d Hd).
    cbn [hour minute]. cbn [Z.eqb negb orb]. rewrite IH, <- app_assoc.
    reflexivity.
Qed.

Lemma other_events_loop_same_date (d : Z) (events : list Event) (st : compact) :
  1 <= d <= MAXORDINAL ->
  Forall (fun ev => time ev = isoformat d) events ->
  current_date st = Some (strftime_a_b_d (mk_datetime d 0 0 0 0))
  \/ current_text st = "" ->
  other_events_loop events st
  = Ok (mk_compact
          (match events with
           | [] => current_date st
           | _ => Some (strftime_a_b_d (mk_datetime d 0 0 0 0))
           end)
          (current_text st ++ String.concat "" (map other_line events))
          (other_fields st)).
Proof.
  intros Hd Hall. revert st.
  induction Hall as [|event rest Htime _ IH]; intros st Hst.
  - cbn [other_events_loop map String.concat]. rewrite append_empty_r.
    destruct st; reflexivity.
  - cbn [other_events_loop map]. rewrite Htime, (fromisoformat_isoformat d Hd).
    cbn [hour minute]. cbn [Z.eqb negb orb].
    rewrite concat_empty_cons.
    set (ds := strftime_a_b_d (mk_datetime d 0 0 0 0)) in *.
    destruct (bool_decide (Some ds <> current_date st)) eqn:Hnew.
    + apply bool_decide_eq_true_1 in Hnew.
      destruct Hst as [Hsame | Hempty]; [congruence|].
      rewrite Hempty. cbn [String.eqb negb current_date current_text other_fields].
      rewrite IH by (left; reflexivity).
      cbn [current_date current_text other_fields]. rewrite ?Hempty.
      destruct rest; reflexivity.
    + apply bool_decide_eq_false_1 in Hnew.
      assert (current_date st = Some ds) as Hsame
        by (destruct (decide (Some ds = current_date st)); [congruence | tauto]).
      rewrite IH by (left; exact Hsame).
      cbn [current_date current_text other_fields].
      rewrite Hsame, (append_assoc (current_text st)).
      destruct rest; reflexivity.
Qed.

Lemma flush_group (date_str : string) (others : list Event) :
  flush (mk_compact (match others with [] => None | _ => Some date_str end)
           (String.concat "" (map other_line others)) [])
  = other_group date_str others.
Proof.
  destruct others as [|event rest]; [reflexivity|].
  unfold flush, other_group. cbn [current_text current_date other_fields map].
  rewrite concat_empty_cons. unfold other_line at 1. rewrite !append_cons.
  reflexivity.
Qed.

Lemma partition_filter (events : list Event) :
  partition (fun event => String.eqb (impact event) "High") events
  = (List.filter is_high events,
     List.filter (fun ev => negb (is_high ev)) events).
Proof.
  induction events as [|event rest IH]; [reflexivity|].
  cbn [partition List.filter]. rewrite IH. unfold is_high.
  destruct (String.eqb (impact event) "High"); reflexivity.
Qed.

Lemma Forall_filter_keep {A} (P : A -> Prop) (f : A -> bool) (l : list A) :
  Forall P l -> Forall P (List.filter f l).
Proof.
  induction 1 as [|a l Ha _ IH]; cbn [List.filter]; [constructor|].
  destruct (f a); [constructor|]; assumption.
Qed.

Lemma list_events_same_date (d : Z) (daily_events : list Event) :
  1 <= d <= MAXORDINAL ->
  Forall (fun ev => time ev = isoformat d) daily_events ->
  daily_events <> [] ->
  let date_str := strftime_a_b_d (mk_datetime d 0 0 0 0) in
  let highs := List.filter is_high daily_events in
  let others := List.filter (fun ev => negb (is_high ev)) daily_events in
  list_events (F:=F) daily_events
  = ([ Deliver CtxSend (with_embed (high_embed (map (high_field date_str) highs)));
       Deliver CtxSend (with_embed (other_embed (other_group date_str others))) ],
     Ok tt) /\
  slash_list_events (F:=F) daily_events
  = ((Deliver ResponseSend (text (CALENDAR ++ " Fetching economic events..."))
      :: Deliver ResponseEdit
           (mk_message (Some (CALENDAR ++ " Economic Events:"))
              (Some (high_embed (map (high_field date_str) highs))) None)
      :: match others with
         | [] => []
         | _ => [ Deliver FollowupSend
                    (with_embed (other_embed (other_group date_str others))) ]
         end),
     Ok tt).
Proof.
  intros Hd Hall Hne date_str highs others.
  assert (Forall (fun ev => time ev = isoformat d) highs) as Hhighs
    by (apply Forall_filter_keep; exact Hall).
  assert (Forall (fun ev => time ev = isoformat d) others) as Hothers
    by (apply Forall_filter_keep; exact Hall).
  pose proof (high_impact_fields_same_date d highs [] Hd Hhighs) as Hh.
  pose proof (other_events_loop_same_date d others (mk_compact None "" [])
                Hd Hothers (or_intror eq_refl)) as Ho.
  cbn [current_date current_text other_fields app] in Hh, Ho.
  fold date_str in Hh, Ho.
  assert (String.concat "" (map other_line others)
          = "" ++ String.concat "" (map other_line others)) as Hcat by reflexivity.
  rewrite <- Hcat in Ho. clear Hcat.
  pose proof (flush_group date_str others) as Hflush.
  split.
  - unfold list_events.
    rewrite bool_decide_eq_false_2 by exact Hne.
    rewrite partition_filter. fold highs. fold others.
    rewrite Hh, Ho. cbn [lift bind emit ret fst snd app].
    rewrite Hflush. reflexivity.
  - unfold slash_list_events.
    rewrite bool_decide_eq_false_2 by exact Hne.
    rewrite partition_filter. fold highs. fold others.
    rewrite (slash_high_impact_fields_same highs),
      (slash_other_events_loop_same others).
    rewrite Hh, Ho. cbn [lift bind emit ret fst snd app].
    rewrite slash_flush_same, Hflush.
    destruct others as [|event rest].
    + rewrite bool_decide_eq_true_2 by reflexivity. reflexivity.
    + rewrite bool_decide_eq_false_2 by discriminate. reflexivity.
Qed.


(** X14.  On a cache that refreshes have left and that is not empty,
    the [events] command never fails and its reply is fixed by the
    cache: all records are shown under the one date the cache is filed
    under; the high-impact records are one field each, in cache order,
    in the first embed; the other records are the lines of one single
    field of the second embed, in cache order.  The prefix form sends
    the two embeds as two messages; the slash form sends its
    acknowledgement, edits it into the first embed, and sends the second
    embed as a follow-up only when there are other records. *)
Theorem list_events_of_cache (daily_events : list Event) :
  reachable (F:=F) daily_events ->
  daily_events <> [] ->
  exists d,
    1 <= d <= MAXORDINAL /\
    Forall (fun ev => time ev = isoformat d) daily_events /\
    let date_str := strftime_a_b_d (mk_datetime d 0 0 0 0) in
    let highs := List.filter is_high daily_events in
    let others := List.filter (fun ev => negb (is_high ev)) daily_events in
    list_events (F:=F) daily_events
    = ([ Deliver CtxSend
           (with_embed (high_embed (map (high_field date_str) highs)));
         Deliver CtxSend
           (with_embed (other_embed (other_group date_str others))) ],
       Ok tt) /\
    slash_list_events (F:=F) daily_events
    = ((Deliver ResponseSend (text (CALENDAR ++ " Fetching economic events..."))
        :: Deliver ResponseEdit
             (mk_message (Some (CALENDAR ++ " Economic Events:"))
                (Some (high_embed (map (high_field date_str) highs))) None)
        :: match others with
           | [] => []
           | _ => [ Deliver FollowupSend
                      (with_embed (other_embed (other_group date_str others))) ]
           end),
       Ok tt).
Proof.
  intros Hreach Hne.
  destruct (reachable_shape _ Hreach) as ((d & Hd & Hall) & _).
  exists d. split; [exact Hd|]. split; [exact Hall|].
  apply list_events_same_date; assumption.
Qed.

Lemma high_impact_fields_raises (events : list Event) (fields : list field)
    (event : Event) (e : string) :
  In event events -> fromisoformat (time event) = Raise e ->
  exists e', high_impact_fields events fields = Raise e'.
Proof.
  intros Hin Hbad. revert fields.
  induction events as [|first rest IH]; intros fields; [destruct Hin|].
  cbn [high_impact_fields].
  destruct (fromisoformat (time first)) as [t|e1] eqn:Ef; [|eauto].
  destruct Hin as [<- | Hin]; [congruence|]. apply IH. exact Hin.
Qed.

Lemma other_events_loop_raises (events : list Event) (st : compact)
    (event : Event) (e : string) :
  In event events -> fromisoformat (time event) = Raise e ->
  exists e', other_events_loop events st = Raise e'.
Proof.
  intros Hin Hbad. revert st.
  induction events as [|first rest IH]; intros st; [destruct Hin|].
  cbn [other_events_loop].
  destruct (fromisoformat (time first)) as [t|e1] eqn:Ef; [|eauto].
  destruct Hin as [<- | Hin]; [congruence|]. apply IH. exact Hin.
Qed.

(** X15.  A record whose time text does not start with a digit, which
    no version of the parser reads, makes the [events] command fail,
    whatever else the cache holds: the prefix form sends nothing at
    all, the slash form leaves its acknowledgement as the only
    message.  Neither form guards the parsing of the time. *)
Theorem list_events_bad_record (daily_events : list Event) (event : Event) :
  In event daily_events ->
  unreadable (time event) ->
  (exists e', list_events (F:=F) daily_events = ([], Raise e')) /\
  (exists e',
     slash_list_events (F:=F) daily_events
     = ([ Deliver ResponseSend
            (text (CALENDAR ++ " Fetching economic events...")) ],
        Raise e')).
Proof.
  intros Hin Hunread.
  destruct (unreadable_raises _ Hunread) as [e Hbad].
  assert (daily_events <> []) as Hne by (intros ->; destruct Hin).
  set (highs := List.filter is_high daily_events).
  set (others := List.filter (fun ev => negb (is_high ev)) daily_events).
  assert (exists e',
            high_impact_fields highs [] = Raise e' \/
            exists high_fields,
              high_impact_fields highs [] = Ok high_fields /\
              other_events_loop others (mk_compact None "" []) = Raise e')
    as (e' & Hfail).
  { destruct (is_high event) eqn:Hhigh.
    - destruct (high_impact_fields_raises highs [] event e) as (e' & He');
        [apply filter_In; split; assumption | assumption |].
      exists e'. left. exact He'.
    - destruct (other_events_loop_raises others (mk_compact None "" []) event e)
        as (e' & Ho); [apply filter_In; rewrite Hhigh; split; auto | assumption |].
      destruct (high_impact_fields highs []) as [high_fields|e1];
        [|exists e1; left; reflexivity].
      exists e'. right. exists high_fields. split; [reflexivity | exact Ho]. }
  split; exists e'.
  - unfold list_events.
    rewrite bool_decide_eq_false_2 by exact Hne.
    rewrite partition_filter. fold highs. fold others.
    destruct Hfail as [-> | (high_fields & -> & ->)]; reflexivity.
  - unfold slash_list_events.
    rewrite bool_decide_eq_false_2 by exact Hne.
    rewrite partition_filter. fold highs. fold others.
    rewrite (slash_high_impact_fields_same highs),
      (slash_other_events_loop_same others).
    destruct Hfail as [-> | (high_fields & -> & ->)]; reflexivity.
Qed.

End EventsReply.

Lemma list_events_of_cache_witness :
  exists d,
    list_events (F:=dec) (snd (update_daily_events calm []))
    = ([ Deliver CtxSend
           (with_embed
              (high_embed
                 (map (high_field (strftime_a_b_d (mk_datetime d 0 0 0 0)))
                    (List.filter is_high (snd (update_daily_events calm []))))));
         Deliver CtxSend
           (with_embed
              (other_embed
                 (other_group (strftime_a_b_d (mk_datetime d 0 0 0 0))
                    (List.filter (fun ev => negb (is_high ev))
                       (snd (update_daily_events calm [])))))) ],
       Ok tt).
Proof.
  assert (reachable (F:=dec) (snd (update_daily_events calm []))) as Hreach.
  { apply reach_refresh; [apply calm_clock_in_range | apply reach_start]. }
  destruct (list_events_of_cache _ Hreach) as (d & _ & _ & Hprefix & _).
  { vm_compute. discriminate. }
  exists d. exact Hprefix.
Defined.

Lemma list_events_bad_record_witness :
  exists e', list_events (F:=dec) [afternoon_event; garbled] = ([], Raise e').
Proof.
  apply (list_events_bad_record [afternoon_event; garbled] garbled).
  - right. left. reflexivity.
  - vm_compute. reflexivity.
Defined.

(** ** The data commands *)

Section DataCommands.

Context {F : Type} `{Float64 F}.

Ltac by_cases :=
  repeat match goal with
         | |- context [match ?x with Ok _ => _ | Raise _ => _ end] =>
             destruct x; cbn [lift emit bind try_except ret fst snd app]
         end.

Ltac one_reply :=
  split; [reflexivity | eexists; reflexivity].

(** X16.  The three data commands never fail and never stay silent:
    whatever the gateway, the clock and the statistics routine answer or
    raise, each of [getdata], [search] and [correlation] returns
    normally after exactly one message, in the prefix form to the
    invoking context and in the slash form as the response of the
    interaction. *)
Theorem data_commands_answer (w : World F) :
  (forall series_id,
     answers CtxSend (get_current_data w series_id) /\
     answers ResponseSend (slash_get_current_data w series_id)) /\
  (forall search_terms, answers CtxSend (search_series w search_terms)) /\
  (forall keywords, answers ResponseSend (slash_search_series w keywords)) /\
  (forall series1 series2 days,
     answers CtxSend (get_correlation w series1 series2 days) /\
     answers ResponseSend (slash_get_correlation w series1 series2 days)).
Proof.
  unfold answers, outcome, trace.
  split; [|split; [|split]].
  - intros series_id.
    unfold get_current_data, slash_get_current_data, fred_get_series_info,
      fred_get_series.
    cbn [lift emit bind try_except ret fst snd app].
    split; by_cases; one_reply.
  - intros search_terms. unfold search_series, fred_search.
    cbn [lift emit bind try_except ret fst snd app].
    by_cases; one_reply.
  - intros keywords. unfold slash_search_series, fred_search.
    cbn [lift emit bind try_except ret fst snd app].
    by_cases; one_reply.
  - intros series1 series2 days.
    unfold get_correlation, slash_get_correlation, fred_get_series.
    cbn [lift emit bind try_except ret fst snd app].
    split; by_cases; one_reply.
Qed.

Lemma dropna_last (before after : Series F) (d : Z) (v : F) :
  isna v = false -> all_missing after ->
  dropna (before ++ (d, v) :: after)%list = (dropna before ++ [ (d, v) ])%list.
Proof.
  intros Hv Hafter. unfold dropna.
  rewrite List.filter_app. cbn [List.filter snd]. rewrite Hv. cbn [negb].
  assert (List.filter (fun obs : Z * F => negb (isna (snd obs))) after = [])
    as ->; [|reflexivity].
  induction Hafter as [|obs after Hobs _ IH]; [reflexivity|].
  cbn [List.filter]. rewrite Hobs. exact IH.
Qed.

Lemma dropna_all_missing (series : Series F) :
  all_missing series -> dropna series = [].
Proof.
  unfold dropna. induction 1 as [|obs series Hobs _ IH]; [reflexivity|].
  cbn [List.filter]. rewrite Hobs. exact IH.
Qed.

(** X17.  [getdata] shows the latest known value: when the gateway
    answers with a title and with observations in ascending order of
    date, the one reply is an embed under that title whose Latest Value
    is the last observation that is not missing, whose Last Updated is
    the date of that observation, and whose Units is the units of the
    series, or N/A when it has none.  Two requests are made, and the
    whole series is asked for. *)
Theorem get_current_data_latest (w : World F) (series_id info_title : string)
    (info : Info) (before after : Series F) (d : Z) (v : F) :
  get_series_info w series_id = Ok info ->
  info !! "title" = Some info_title ->
  get_series w series_id (mk_query None None None)
  = Ok (before ++ (d, v) :: after)%list ->
  isna v = false ->
  all_missing after ->
  get_current_data w series_id
  = ([ FredInfo series_id;
       FredSeries series_id (mk_query None None None);
       Deliver CtxSend
         (with_embed
            (mk_embed (BAR_CHART ++ " " ++ info_title) None 65280
               [ mk_field "Latest Value" (fmt_c2f v) true;
                 mk_field "Last Updated" (isoformat d) true;
                 mk_field "Units" (default "N/A" (info !! "units")) true ]
               None)) ],
     Ok tt).
Proof.
  intros Hinfo Htitle Hseries Hv Hafter.
  unfold get_current_data, fred_get_series_info, fred_get_series.
  rewrite Hinfo, Hseries. cbn [lift emit bind try_except ret fst snd app].
  rewrite (dropna_last before after d v Hv Hafter).
  unfold getitem, iloc_last, index_last. rewrite Htitle, last_snoc.
  reflexivity.
Qed.

(** X18.  [getdata] when there is nothing to show.  A series without a
    title is reported as the missing key, before its values are looked
    at; a series with a title whose observations are all missing, or
    that has none, is reported as an index out of bounds.  In both cases
    the two requests were made and the reply is the one error text. *)
Theorem get_current_data_nothing (w : World F) (series_id : string)
    (info : Info) (series : Series F) :
  get_series_info w series_id = Ok info ->
  get_series w series_id (mk_query None None None) = Ok series ->
  (info !! "title" = None ->
   get_current_data w series_id
   = ([ FredInfo series_id;
        FredSeries series_id (mk_query None None None);
        Deliver CtxSend (text "Error fetching data: 'title'") ],
      Ok tt)) /\
  (all_missing series -> info !! "title" <> None ->
   get_current_data w series_id
   = ([ FredInfo series_id;
        FredSeries series_id (mk_query None None None);
        Deliver CtxSend
          (text "Error fetching data: single positional indexer is out-of-bounds") ],
      Ok tt)).
Proof.
  intros Hinfo Hseries.
  unfold get_current_data, fred_get_series_info, fred_get_series.
  rewrite Hinfo, Hseries. cbn [lift emit bind try_except ret fst snd app].
  unfold getitem. split.
  - intros ->. reflexivity.
  - intros Hmissing Htitle. rewrite (dropna_all_missing series Hmissing).
    destruct (info !! "title"); [reflexivity | congruence].
Qed.

(** X19.  [correlation] over a window that no date can start: when the
    number of days is one a time span can hold but today minus that
    many days is not a date between years 1 and 9999, the one reply is
    the error text of the date arithmetic, and the gateway is not asked
    at all. *)
Theorem get_correlation_out_of_range (w : World F) (series1 series2 : string)
    (days : Z) :
  - 999999999 <= days <= 999999999 ->
  ~ (1 <= ordinal (now_local w) - days <= MAXORDINAL) ->
  get_correlation w series1 series2 days
  = ([ Deliver CtxSend
         (text "Error calculating correlation: date value out of range") ],
     Ok tt) /\
  slash_get_correlation w series1 series2 days
  = ([ Deliver ResponseSend
         (text "Error calculating correlation: date value out of range") ],
     Ok tt).
Proof.
  intros _ Hout.
  assert (datetime_add_days (now_local w) (- days)
          = Raise "date value out of range") as Hadd.
  { unfold datetime_add_days, add_days.
    destruct ((1 <=? ordinal (now_local w) + - days)
              && (ordinal (now_local w) + - days <=? MAXORDINAL)) eqn:Hin;
      [|reflexivity].
    apply andb_prop in Hin. destruct Hin as [Hlo Hhi].
    apply Z.leb_le in Hlo, Hhi. exfalso. apply Hout. lia. }
  unfold get_correlation, slash_get_correlation. rewrite Hadd.
  split; reflexivity.
Qed.

(** X20.  [correlation] asks for both series from the same start, the
    clock's date minus the number of days with the time of day kept, and
    for nothing else; a failure of the first request is reported
    without the second being made. *)
Theorem get_correlation_requests (w : World F) (series1 series2 : string)
    (days : Z) (e : string) :
  1 <= ordinal (now_local w) - days <= MAXORDINAL ->
  let start_date :=
    mk_datetime (ordinal (now_local w) - days) (hour (now_local w))
      (minute (now_local w)) (second (now_local w))
      (microsecond (now_local w)) in
  let q := mk_query (Some (BoundDatetime start_date)) None None in
  (get_series w series1 q = Raise e ->
   get_correlation w series1 series2 days
   = ([ FredSeries series1 q;
        Deliver CtxSend (text ("Error calculating correlation: " ++ e)) ],
      Ok tt)) /\
  (is_ok (get_series w series1 q) = true ->
   List.filter is_gateway (trace (get_correlation w series1 series2 days))
   = [ FredSeries series1 q; FredSeries series2 q ]).
Proof.
  intros Hin start_date q.
  assert (datetime_add_days (now_local w) (- days) = Ok start_date) as Hadd.
  { unfold datetime_add_days, add_days.
    replace (ordinal (now_local w) + - days)
      with (ordinal (now_local w) - days) by lia.
    destruct Hin as [Hlo Hhi].
    apply Z.leb_le in Hlo, Hhi. rewrite Hlo, Hhi. reflexivity. }
  unfold get_correlation, fred_get_series. rewrite Hadd.
  cbn [lift emit bind try_except ret fst snd app]. fold q.
  split.
  - intros ->. reflexivity.
  - intros Hok. destruct (get_series w series1 q) as [data1|e1];
      [|discriminate].
    cbn [lift emit bind try_except ret fst snd app].
    by_cases; reflexivity.
Qed.

End DataCommands.

Lemma get_current_data_latest_witness :
  get_current_data online "UNRATE"
  = ([ FredInfo "UNRATE";
       FredSeries "UNRATE" (mk_query None None None);
       Deliver CtxSend
         (with_embed
            (mk_embed (BAR_CHART ++ " Unemployment Rate") None 65280
               [ mk_field "Latest Value" "2.00" true;
                 mk_field "Last Updated" "2023-12-26" true;
                 mk_field "Units" "Percent" true ]
               None)) ],
     Ok tt).
Proof.
  rewrite (get_current_data_latest online "UNRATE" "Unemployment Rate"
             percent_info [ (738870, Dec 100) ] [ (738881, NaN) ] 738880
             (Dec 200)).
  - vm_compute. reflexivity.
  - reflexivity.
  - reflexivity.
  - reflexivity.
  - reflexivity.
  - repeat constructor.
Defined.

Lemma get_current_data_nothing_witness :
  get_current_data stale "UNRATE"
  = ([ FredInfo "UNRATE";
       FredSeries "UNRATE" (mk_query None None None);
       Deliver CtxSend
         (text "Error fetching data: single positional indexer is out-of-bounds") ],
     Ok tt).
Proof.
  apply (get_current_data_nothing stale "UNRATE" percent_info one_missing
           eq_refl eq_refl).
  - repeat constructor.
  - vm_compute. discriminate.
Defined.

Lemma get_correlation_out_of_range_witness :
  get_correlation online "VIXCLS" "DCOILWTICO" 999999
  = ([ Deliver CtxSend
         (text "Error calculating correlation: date value out of range") ],
     Ok tt).
Proof.
  apply (get_correlation_out_of_range online "VIXCLS" "DCOILWTICO" 999999).
  - lia.
  - vm_compute. intros [Hlo _]. apply Hlo. reflexivity.
Defined.

Lemma get_correlation_requests_witness :
  List.filter is_gateway (trace (get_correlation calm "VIXCLS" "DCOILWTICO" 90))
  = [ FredSeries "VIXCLS"
        (mk_query (Some (BoundDatetime (mk_datetime 738798 10 0 0 0))) None None);
      FredSeries "DCOILWTICO"
        (mk_query (Some (BoundDatetime (mk_datetime 738798 10 0 0 0))) None None) ].
Proof.
  apply (get_correlation_requests calm "VIXCLS" "DCOILWTICO" 90 "").
  - vm_compute. split; discriminate.
  - reflexivity.
Defined.

(** ** The search results *)

Section SearchReply.

Lemma length_append (a b : string) :
  String.length (a ++ b) = (String.length a + String.length b)%nat.
Proof.
  induction a as [|c a IH]; [reflexivity|].
  rewrite append_cons. cbn [String.length]. rewrite IH. reflexivity.
Qed.

Lemma length_substring_0 (n : nat) (s : string) :
  (n <= String.length s)%nat -> String.length (String.substring 0 n s) = n.
Proof.
  revert s. induction n as [|n IH]; intros s Hn.
  - destruct s; reflexivity.
  - destruct s as [|c s]; cbn [String.length] in Hn; [lia|].
    cbn [String.substring String.length]. rewrite IH by lia. reflexivity.
Qed.

(** X21.  A search result is shown under a title of at most 50
    characters: a title of up to 50 characters is shown as it is, a
    longer one as its first 47 characters followed by three dots.  (For
    titles of ASCII text, where characters are bytes.)  The two forms of
    the command build the same field. *)
Theorem search_field_title (idx : string) (row : Row) :
  has_non_ascii (row_title row) = false ->
  slash_search_field idx row = search_field idx row /\
  exists shown,
    name (search_field idx row) = BAR_CHART ++ " " ++ shown /\
    (String.length shown <= 50)%nat /\
    ((String.length (row_title row) <= 50)%nat -> shown = row_title row) /\
    ((50 < String.length (row_title row))%nat ->
     shown = String.substring 0 47 (row_title row) ++ "..." /\
     String.length shown = 50%nat /\
     String.prefix (String.substring 0 47 (row_title row)) (row_title row)
     = true).
Proof.
  intros _. split; [reflexivity|].
  unfold search_field. cbv zeta. cbn [name].
  destruct (50 <? String.length (row_title row))%nat eqn:Hlong.
  - apply Nat.ltb_lt in Hlong.
    assert (String.length (String.substring 0 47 (row_title row)) = 47%nat)
      as H47 by (apply length_substring_0; lia).
    eexists. split; [reflexivity|].
    rewrite length_append, H47. cbn [String.length].
    split; [lia|]. split; [lia|].
    intros _. split; [reflexivity|]. split; [reflexivity|].
    apply prefix_correct. rewrite H47. reflexivity.
  - apply Nat.ltb_ge in Hlong.
    eexists. split; [reflexivity|].
    split; [exact Hlong|]. split; [reflexivity | lia].
Qed.

End SearchReply.

Lemma search_field_title_witness :
  exists shown,
    name (search_field "DCOILWTICO"
            (mk_row "Crude Oil Prices: West Texas Intermediate (WTI) - Cushing, Oklahoma"
               "Daily, Close" "Dollars per Barrel"))
    = BAR_CHART ++ " " ++ shown /\
    (String.length shown <= 50)%nat.
Proof.
  destruct (search_field_title "DCOILWTICO"
              (mk_row "Crude Oil Prices: West Texas Intermediate (WTI) - Cushing, Oklahoma"
                 "Daily, Close" "Dollars per Barrel") eq_refl)
    as (_ & shown & Hname & Hlen & _).
  exists shown. split; assumption.
Defined.

(** ** The requests of a refresh *)

Section RefreshRequests.

Context {F : Type} `{Float64 F}.

Lemma requests_app (t t' : list (effect F)) :
  List.filter is_gateway (t ++ t')
  = (List.filter is_gateway t ++ List.filter is_gateway t')%list.
Proof. apply List.filter_app. Qed.

Lemma refresh_step_more (keys keys' : list string) (ev : effect F) :
  (forall id, In id keys -> In id keys') ->
  refresh_step keys ev -> refresh_step keys' ev.
Proof. intros Hincl. destruct ev; cbn [refresh_step]; auto. Qed.

Lemma fetch_indicator_requests (w : World F) (now : datetime) (release : Z)
    (series_id description : string) :
  (length (List.filter is_gateway
             (trace (fetch_indicator w now release series_id description)))
   <= 3)%nat /\
  Forall (refresh_step [series_id])
    (trace (fetch_indicator w now release series_id description)).
Proof.
  unfold fetch_indicator, fred_get_series_info, fred_get_series, trace.
  cbn [lift emit bind ret fst snd app].
  destruct (get_series_info w series_id) as [info|e];
    cbn [lift emit bind ret fst snd app].
  2:{ split; [cbn; lia|]. repeat constructor. }
  destruct (datetime_add_days now (-30)) as [start_date|e];
    cbn [lift emit bind ret fst snd app].
  2:{ split; [cbn; lia|]. repeat constructor. }
  destruct (get_series w series_id _) as [series|e];
    cbn [lift emit bind ret fst snd app].
  2:{ split; [cbn; lia|]. repeat constructor. }
  destruct (bool_decide (series = []));
    cbn [lift emit bind ret fst snd app].
  - destruct (get_series w series_id _) as [series'|e];
      cbn [lift emit bind ret fst snd app];
      (split; [cbn; lia|]); repeat constructor.
  - split; [cbn; lia|]. repeat constructor.
Qed.

Lemma py_print_requests (w : World F) (line : string) (keys : list string) :
  List.filter is_gateway (trace (py_print w line)) = [] /\
  Forall (refresh_step keys) (trace (py_print w line)).
Proof.
  unfold py_print, trace. destruct (console w line); split; repeat constructor.
Qed.

Lemma indicators_loop_requests (w : World F) (now : datetime) (release : Z)
    (catalog : list (string * string)) (events : list Event) :
  (length (List.filter is_gateway
             (trace (indicators_loop w now release catalog events)))
   <= 3 * length catalog)%nat /\
  Forall (refresh_step (map fst catalog))
    (trace (indicators_loop w now release catalog events)).
Proof.
  revert events.
  induction catalog as [|[series_id description] rest IH]; intros events.
  - split; [cbn; lia | constructor].
  - cbn [indicators_loop map fst].
    destruct (fetch_indicator_requests w now release series_id description)
      as [Hlen Hkeys].
    apply (List.Forall_impl (refresh_step (series_id :: map fst rest))) in Hkeys.
    2:{ intros ev. apply refresh_step_more. intros id [<- | []]. left.
        reflexivity. }
    assert (forall evs,
              Forall (refresh_step (series_id :: map fst rest))
                (trace (indicators_loop w now release rest evs))) as Hrest.
    { intros evs. destruct (IH evs) as [_ Hk].
      eapply List.Forall_impl; [|exact Hk].
      intros ev. apply refresh_step_more. intros id Hid. right. exact Hid. }
    unfold trace in *.
    destruct (fetch_indicator w now release series_id description)
      as [t [ev|e]]; cbn [lift emit bind try_except ret fst snd app] in *.
    + rewrite app_nil_r.
      destruct (IH (events ++ [ev])%list) as [Hlen' _].
      specialize (Hrest (events ++ [ev])%list).
      destruct (indicators_loop w now release rest (events ++ [ev]))
        as [t' r]; cbn [fst snd] in *.
      split.
      * rewrite requests_app, length_app. cbn [length]. lia.
      * apply Forall_app. split; assumption.
    + destruct (py_print_requests w
                  ("Error fetching " ++ series_id ++ ": " ++ e)
                  (series_id :: map fst rest)) as [Hnone Hnokey].
      unfold trace in *.
      destruct (py_print w ("Error fetching " ++ series_id ++ ": " ++ e))
        as [tp [[]|e']]; cbn [lift emit bind try_except ret fst snd app] in *.
      * rewrite app_nil_r.
        destruct (IH events) as [Hlen' _]. specialize (Hrest events).
        destruct (indicators_loop w now release rest events)
          as [t' r]; cbn [fst snd] in *.
        split.
        -- rewrite !requests_app, !length_app, Hnone. cbn [length]. lia.
        -- apply Forall_app. split; [apply Forall_app; split|]; assumption.
      * split.
        -- rewrite requests_app, length_app, Hnone. cbn [length]. lia.
        -- apply Forall_app. split; assumption.
Qed.

Lemma catalog_length : length ECONOMIC_INDICATORS = 21%nat.
Proof. reflexivity. Qed.

(** X22.  A refresh asks the gateway at most three times for each
    indicator of the catalog (its description, its last 30 days, and
    once more when these are empty), so at most 63 times in all; it asks
    only about keys of the catalog, and besides these requests it only
    writes on the console: it fetches no chart, makes no search and
    sends no message. *)
Theorem refresh_requests (w : World F) :
  (length (List.filter is_gateway (trace (fetch_economic_events w))) <= 63)%nat /\
  Forall (refresh_step (map fst ECONOMIC_INDICATORS))
    (trace (fetch_economic_events w)).
Proof.
  rewrite fetch_economic_events_unfold. unfold guarded_run.
  generalize (indicators_loop_requests w).
  generalize ECONOMIC_INDICATORS catalog_length.
  intros catalog Hsize Hloop.
  unfold trace.
  destruct (now_eastern w) as [now|e]; cbn [lift bind fst snd app];
    [|split; [cbn; lia | constructor]].
  destruct (release_date now) as [release|e]; cbn [lift bind fst snd app];
    [|split; [cbn; lia | constructor]].
  destruct (Hloop now release catalog []) as [Hlen Hkeys].
  rewrite Hsize in Hlen. unfold trace in *.
  destruct (indicators_loop w now release catalog []) as [t [events|e]];
    cbn [lift emit bind try_except ret fst snd app] in *.
  - rewrite !app_nil_r. split; [lia | assumption].
  - destruct (py_print_requests w ("Error fetching economic events: " ++ e)
                (map fst catalog)) as [Hnone Hnokey].
    unfold trace in *.
    destruct (py_print w ("Error fetching economic events: " ++ e))
      as [tp [[]|e']]; cbn [lift emit bind try_except ret fst snd app] in *.
    + rewrite !app_nil_r. split.
      * rewrite requests_app, length_app, Hnone. cbn [length]. lia.
      * apply Forall_app. split; assumption.
    + rewrite ?app_nil_r. split.
      * rewrite requests_app, length_app, Hnone. cbn [length]. lia.
      * apply Forall_app. split; assumption.
Qed.

End RefreshRequests.
